(** * Administrative scripts for the Domino REST API: a shallow embedding

    Two of the repository's scripts carry logic worth verifying:

    - [download_daily_usage_reports_v2.py]: one POST per calendar day,
      retried with a fixed delay, the CSV body exported as a spreadsheet
      (module [UsageReport]);
    - [manage_org_members.py]: bulk add / remove of organization members
      from a file of usernames, with dry-run and interactive confirmation
      (module [OrgMembers]).

    Both are effectful Python.  They are embedded as computations in a
    state-and-exception monad whose state is the chronological trace of the
    observable events of a run (HTTP requests, sleeps, file writes, console
    and log output).  Whatever the outside world decides (the reply to a
    request, the content of a file, the answer typed at the prompt) is read
    from an explicit environment. *)

From Stdlib Require Import ZArith Lia.
From stdpp Require Import base tactics option list strings gmap.

Local Open Scope Z_scope.

(** ** Python exceptions and the monad *)

(** The exceptions the two scripts can meet.  [SystemExit] and
    [KeyboardInterrupt] derive from [BaseException] only, so a handler
    written [except Exception] lets them through.  [OutOfFuel] is not a
    Python exception: it marks a loop of the model that was given too few
    iterations, and the totality lemmas show it is never raised. *)
Inductive exn :=
| FileNotFoundError
| RequestException
| KeyError
| EOFError
| UnboundLocalError
| ValueError
| OverflowError
| OSError
| KeyboardInterrupt
| SystemExit (code : Z)
| OutOfFuel.

Definition is_Exception (e : exn) : bool :=
  match e with
  | KeyboardInterrupt | SystemExit _ | OutOfFuel => false
  | _ => true
  end.

Definition is_RequestException (e : exn) : bool :=
  match e with RequestException => true | _ => false end.

Definition is_KeyboardInterrupt (e : exn) : bool :=
  match e with KeyboardInterrupt => true | _ => false end.

Inductive res (A : Type) :=
| Ret (a : A)
| Raise (e : exn).
Arguments Ret {A} a.
Arguments Raise {A} e.

(** A computation reads the trace so far and returns a value or an
    exception together with the extended trace. *)
Definition M (E A : Type) : Type := list E → res A * list E.

Global Instance M_ret {E} : MRet (M E) := λ A a t, (Ret a, t).

Global Instance M_bind {E} : MBind (M E) := λ A B f c t,
  match c t with
  | (Ret a, t') => f a t'
  | (Raise e, t') => (Raise e, t')
  end.

Definition raise {E A} (e : exn) : M E A := λ t, (Raise e, t).

(** One more observable event. *)
Definition emit {E} (e : E) : M E () := λ t, (Ret (), t ++ [e]).

(** [try: c  except <class> as e: h e] where [catches] decides membership
    in the class. *)
Definition try_except {E A} (catches : exn → bool) (c : M E A) (h : exn → M E A)
  : M E A := λ t,
  match c t with
  | (Raise e, t') => if catches e then h e t' else (Raise e, t')
  | r => r
  end.

(** [if c: body] with no else branch. *)
Definition when {E} (c : bool) (body : M E ()) : M E () :=
  if c then body else mret ().

(** The exit status of the interpreter for a script whose top level ran
    [c]: 0 when it falls off the end, the code given to [sys.exit], 1 after
    an uncaught exception (traceback). *)
Definition exit_status {A} (r : res A) : Z :=
  match r with
  | Ret _ => 0
  | Raise (SystemExit code) => code
  | Raise _ => 1
  end.

(** Truthiness of a Python string or [None]. *)
Definition truthy (s : option string) : bool :=
  match s with
  | Some s => negb (String.eqb s "")
  | None => false
  end.

(** ** The daily usage report downloader *)

Module UsageReport.

(** What [requests.post] hands back: it raises a [RequestException]
    (transport error) or returns a response with its [ok] flag (status
    below 400) and its body. *)
Record http_response := { ok : bool; text : string }.

Inductive reply :=
| TransportError
| Response (r : http_response).

Inductive console_line :=
| AttemptRequestError (date_str : string) (attempt max_retries : Z)
| AttemptBadStatus (date_str : string) (attempt max_retries : Z)
| Retrying (retry_delay : Z)
| AllAttemptsFailed (date_str : string) (max_retries : Z)
| ErrorParsingCsv (date_str : string)
| ReportSaved (date_str output_file : string)
| FailedToWrite (date_str : string)
| FailedToGenerate (date_str : string)
| ErrorParsingDates
| StartAfterEnd.

Inductive event :=
| POST (date_str : string)
| Sleep (seconds : Z)
| ToExcel (output_file : string)
| Print (l : console_line).

Definition is_POST (e : event) : bool :=
  match e with POST _ => true | _ => false end.
Definition is_Sleep (e : event) : bool :=
  match e with Sleep _ => true | _ => false end.
Definition is_ToExcel (e : event) : bool :=
  match e with ToExcel _ => true | _ => false end.

Definition is_failure (r : reply) : bool :=
  match r with
  | TransportError => true
  | Response resp => negb (ok resp)
  end.

Definition posts (t : list event) : list event := List.filter is_POST t.
Definition sleeps (t : list event) : list event := List.filter is_Sleep t.
Definition writes (t : list event) : list event := List.filter is_ToExcel t.

(** Number of requests issued so far. *)
Definition requests_sent (t : list event) : nat :=
  length (List.filter is_POST t).

(** The last day [datetime] can hold, 9999-12-31, as a proleptic
    Gregorian ordinal. *)
Definition datetime_max : Z := 3652059.

(** The largest number of seconds [time.sleep] takes: the interpreter
    keeps the delay as a signed 64-bit count of nanoseconds. *)
Definition pytime_max : Z := 9223372036.

(** The outside world: the service answers the k-th request of the run,
    the file system lets a spreadsheet be written or not, and the operating
    system accepts a sleep of so many seconds or refuses it. *)
Record env := {
  service : nat → reply;
  writable : string → bool;
  os_sleeps : Z → bool
}.

(** The delays for which [time.sleep] returns. *)
Definition sleep_accepted (world : env) (secs : Z) : bool :=
  bool_decide (0 ≤ secs ≤ pytime_max) && os_sleeps world secs.

Section script.
(** Library functions the script calls: [datetime.strptime] and
    [strftime] on day ordinals, and [pandas.read_csv] ([None] when it
    raises). *)
Variable strptime : string → option Z.
Variable strftime : string → Z → string.
Variable DataFrame : Type.
Variable read_csv : string → option DataFrame.

Variable world : env.

Definition post (date_str : string) : M event reply := λ t,
  (Ret (service world (requests_sent t)), t ++ [POST date_str]).

Definition to_excel (output_file : string) (df : DataFrame) : M event bool :=
  emit (ToExcel output_file);; mret (writable world output_file).

(** [time.sleep(secs)] for an integer [secs]: [OverflowError] when the
    delay does not fit the interpreter's clock, [ValueError] when it is
    negative, [OSError] when the operating system refuses it. *)
Definition sleep (secs : Z) : M event () :=
  if bool_decide (secs < - pytime_max ∨ pytime_max < secs) then raise OverflowError
  else if bool_decide (secs < 0) then raise ValueError
  else if os_sleeps world secs then emit (Sleep secs)
  else raise OSError.

(** The tail both failure branches of the loop share:
    [attempt += 1; if attempt < max_retries: print; sleep]. *)
Definition back_off (attempt max_retries retry_delay : Z) : M event () :=
  when (bool_decide (attempt < max_retries))
    (emit (Print (Retrying retry_delay));; sleep retry_delay).

(** [while attempt < max_retries: ...]; the result is the pair of the
    locals [attempt] and [response] after the loop, [response] being
    [None] while it is unbound. *)
Fixpoint retry_loop (fuel : nat) (date_str : string)
    (max_retries retry_delay : Z)
    (attempt : Z) (response : option http_response)
  : M event (Z * option http_response) :=
  if bool_decide (attempt < max_retries) then
    match fuel with
    | O => raise OutOfFuel
    | S fuel =>
      r ← post date_str;
      match r with
      | TransportError =>
        emit (Print (AttemptRequestError date_str (attempt + 1) max_retries));;
        let attempt := attempt + 1 in
        back_off attempt max_retries retry_delay;;
        retry_loop fuel date_str max_retries retry_delay attempt response
      | Response resp =>
        if ok resp then mret (attempt, Some resp)
        else
          emit (Print (AttemptBadStatus date_str (attempt + 1) max_retries));;
          let attempt := attempt + 1 in
          back_off attempt max_retries retry_delay;;
          retry_loop fuel date_str max_retries retry_delay attempt (Some resp)
      end
    end
  else mret (attempt, response).

Definition output_file_name (prefix : string) (report_date : Z) : string :=
  prefix +:+ "_" +:+ strftime "%m-%d-%Y" report_date +:+ ".xlsx".

Definition generate_daily_report (report_date : Z) (prefix : string)
    (max_retries retry_delay : Z) : M event bool :=
  let date_str := strftime "%m/%d/%Y" report_date in
  '(attempt, response) ←
    retry_loop (Z.to_nat max_retries) date_str max_retries retry_delay 0 None;
  (* if attempt == max_retries and not response.ok *)
  exhausted ←
    (if bool_decide (attempt = max_retries) then
       match response with
       | None => raise UnboundLocalError
       | Some resp => mret (negb (ok resp))
       end
     else mret false);
  if (exhausted : bool) then
    emit (Print (AllAttemptsFailed date_str max_retries));; mret false
  else
    (* try: csv_data = response.text; df = pd.read_csv(...)
       except Exception: the unbound local is caught here as well *)
    match response ≫= (λ resp, read_csv (text resp)) with
    | None => emit (Print (ErrorParsingCsv date_str));; mret false
    | Some df =>
      let output_file := output_file_name prefix report_date in
      written ← to_excel output_file df;
      if (written : bool) then
        emit (Print (ReportSaved date_str output_file));; mret true
      else
        emit (Print (FailedToWrite date_str));; mret false
    end.

Record args := {
  start_date : string;
  end_date : string;
  prefix : string;
  max_retries : Z;
  retry_delay : Z
}.

(** [while current_dt <= end_dt: ...; current_dt += timedelta(days=1)] *)
Fixpoint day_loop (fuel : nat) (a : args) (current_dt end_dt : Z) : M event () :=
  if bool_decide (current_dt ≤ end_dt) then
    match fuel with
    | O => raise OutOfFuel
    | S fuel =>
      success ← generate_daily_report current_dt (prefix a)
                  (max_retries a) (retry_delay a);
      when (negb success)
        (emit (Print (FailedToGenerate (strftime "%m/%d/%Y" current_dt))));;
      if bool_decide (current_dt < datetime_max)
      then day_loop fuel a (current_dt + 1) end_dt
      else raise OverflowError
    end
  else mret ().

Definition main (a : args) : M event () :=
  match strptime (start_date a), strptime (end_date a) with
  | Some start_dt, Some end_dt =>
    if bool_decide (start_dt > end_dt) then
      emit (Print StartAfterEnd);; raise (SystemExit 1)
    else
      day_loop (Z.to_nat (end_dt - start_dt + 1)) a start_dt end_dt
  | _, _ => emit (Print ErrorParsingDates);; raise (SystemExit 1)
  end.

(** The reply [response] is bound to after [n] failed attempts, the
    first of them being request number [base] of the run. *)
Fixpoint last_response (n base : nat) (response : option http_response)
  : option http_response :=
  match n with
  | O => response
  | S n =>
    last_response n (S base)
      match service world base with
      | Response resp => Some resp
      | TransportError => response
      end
  end.

End script.
End UsageReport.

(** ** The organization membership manager *)

Module OrgMembers.

(** *** Text *)

(** Python strings are modelled as sequences of code points below 256.
    [str.strip()] removes the characters for which [str.isspace()] holds:
    tab to carriage return, the four separators 28 to 31, space, NEL and
    the no-break space. *)
Definition is_space (c : Ascii.ascii) : bool :=
  let n := Ascii.N_of_ascii c in
  (((9 <=? n) && (n <=? 13)) || ((28 <=? n) && (n <=? 32))
   || (n =? 133) || (n =? 160))%N.

Fixpoint lstrip (s : string) : string :=
  match s with
  | String c s' => if is_space c then lstrip s' else s
  | EmptyString => EmptyString
  end.

Definition strip (s : string) : string :=
  String.rev (lstrip (String.rev (lstrip s))).

(** [str.lower()]: the letters A to Z and the capital letters of the
    Latin-1 supplement move up by 32. *)
Definition lower_char (c : Ascii.ascii) : Ascii.ascii :=
  let n := Ascii.N_of_ascii c in
  if (((65 <=? n) && (n <=? 90)) || ((192 <=? n) && (n <=? 214))
      || ((216 <=? n) && (n <=? 222)))%N
  then Ascii.ascii_of_N (n + 32)
  else c.

Fixpoint lower (s : string) : string :=
  match s with
  | String c s' => String (lower_char c) (lower s')
  | EmptyString => EmptyString
  end.

(** *** JSON documents of the API *)

(** An entry of an organization's [members] array; [userId] is [None]
    when the entry has no such key, and reading it raises [KeyError]. *)
Record member := { userId : option string }.

(** An element of the [orgs] array.  [org_name] is [None] when the
    document has no [name]; a missing [members] array is the empty list. *)
Record org := {
  org_name : option string;
  org_id : string;
  members : list member
}.

(** An element of the [users] array; an absent or null field is [None]. *)
Record user := { userName : option string; id : option string }.

(** *** The outside world *)

Inductive file :=
| NoSuchFile
| Unreadable
| Lines (ls : list string).

(** What [input()] returns or raises. *)
Inductive console_reply :=
| Answer (s : string)
| EndOfInput
| Interrupt.

(** [organizations_api] and [users_api] are the decoded bodies of the two
    GET requests, [None] when the call raises a [RequestException]
    (transport error, error status or undecodable body).  [mutation_api k]
    tells whether the k-th PUT or DELETE of the run succeeds. *)
Record env := {
  files : string → file;
  organizations_api : string → option (list org);
  users_api : Z → option (list user);
  mutation_api : nat → bool;
  stdin : console_reply
}.

(** *** Observable events *)

Inductive level := INFO | WARNING | ERROR.

(** The records written at INFO level and above.  DEBUG records (file
    only), rules and blank lines are left out. *)
Inductive message :=
| Starting (action org_name user_file : string) (dry_run : bool)
| ReadingUsernames (file_path : string)
| FileNotFound (file_path : string)
| FailedToReadFile (file_path : string)
| ReadUsernames (n : nat)
| FetchingOrganization (org_name : string)
| OrganizationNotFound (org_name : string)
| OrganizationNoExactMatch (org_name : string)
| FoundOrganization (org_name org_id : string)
| FailedToFetchOrganization
| FetchingUsers (n : nat)
| RetrievedUsers (n : nat)
| FoundUsers (found requested : nat)
| FailedToFetchUsers
| UserNotFound (username : string)
| UsersNotFound (missing_users : list string)
| NoValidUsers
| AlreadyMembers (usernames : list string)
| NotMembers (usernames : list string)
| NoUsersTo (action : string)
| Changes (dry_run : bool) (action org_name : string)
          (users_to_process : list (string * string))
| Cancelled
| ProcessingUser (username : string)
| WouldAdd (user_id org_id role : string)
| WouldRemove (user_id org_id : string)
| FailedToAdd (user_id : string)
| FailedToRemove (user_id : string)
| Succeeded (action username : string)
| Failed (action username : string)
| Summary (processed successful failed : nat)
| UsersNotFoundCount (n : nat)
| UnexpectedError (e : exn).

Inductive event :=
| GET_organizations (nameFilter : string)
| GET_users (limit : Z)
| PUT_user (org_id user_id role : string) (ok : bool)
| DELETE_user (org_id user_id : string) (ok : bool)
| Input
| Stderr_token_missing
| Stderr_cancelled
| Stderr_error (e : exn)
| Log (lvl : level) (m : message).

(** A request is recorded at the moment the session issues it; the PUT
    and DELETE requests, which change remote state, are recorded with their
    outcome ([ok] is false when the call raised a [RequestException]). *)
Definition is_mutation (e : event) : bool :=
  match e with
  | PUT_user _ _ _ _ | DELETE_user _ _ _ => true
  | _ => false
  end.

Definition is_failed_mutation (e : event) : bool :=
  match e with
  | PUT_user _ _ _ false | DELETE_user _ _ false => true
  | _ => false
  end.

Definition mutations (t : list event) : list event := List.filter is_mutation t.

(** [for user in data.get('users', []): ... all_users_map[username] = user_id];
    a later record with the same [userName] overwrites an earlier one. *)
Definition build_users_map (users : list user) : gmap string string :=
  foldl (λ m u,
           match userName u, id u with
           | Some username, Some user_id =>
             if truthy (Some username) && truthy (Some user_id)
             then <[username := user_id]> m else m
           | _, _ => m
           end) ∅ users.

(** [for username in usernames: result[username] = all_users_map.get(username)] *)
Definition filter_requested (all_users_map : gmap string string)
    (usernames : list string) : gmap string (option string) :=
  foldl (λ r username, <[username := all_users_map !! username]> r) ∅ usernames.

(** [[line.strip() for line in f if line.strip()]] *)
Definition stripped_lines (ls : list string) : list string :=
  strip <$> List.filter (λ line, truthy (Some (strip line))) ls.

Section manager.
(** [self.user_limit] and the world the session talks to. *)
Variable user_limit : Z.
Variable world : env.

Definition log (lvl : level) (m : message) : M event () := emit (Log lvl m).

(** [response = self.session.get(url); response.raise_for_status();
    data = response.json(); data.get(key, [])] *)
Definition get_json {A} (request : event) (body : option A) : M event A := λ t,
  (match body with Some data => Ret data | None => Raise RequestException end,
   t ++ [request]).

(** [self.session.put / delete] followed by [raise_for_status()] and
    [json()]. *)
Definition send_mutation (request : bool → event) : M event () := λ t,
  let ok := mutation_api world (length (mutations t)) in
  (if ok then Ret () else Raise RequestException, t ++ [request ok]).

Definition get_users_batch (usernames : list string)
  : M event (gmap string (option string)) :=
  log INFO (FetchingUsers (length usernames));;
  try_except is_RequestException
    (users ← get_json (GET_users user_limit) (users_api world user_limit);
     let all_users_map := build_users_map users in
     log INFO (RetrievedUsers (size all_users_map));;
     let result := filter_requested all_users_map usernames in
     let found_count :=
       length (List.filter (λ kv, bool_decide (is_Some kv.2)) (map_to_list result)) in
     log INFO (FoundUsers found_count (length usernames));;
     mret result)
    (λ e, log ERROR FailedToFetchUsers;; raise e).

Definition get_organization_info (name : string) : M event (option org) :=
  log INFO (FetchingOrganization name);;
  try_except is_RequestException
    (orgs ← get_json (GET_organizations name) (organizations_api world name);
     match orgs with
     | [] => log ERROR (OrganizationNotFound name);; mret None
     | _ =>
       (* for org in orgs: if org.get('name') == org_name: return org *)
       match List.find (λ o, bool_decide (org_name o = Some name)) orgs with
       | Some o => log INFO (FoundOrganization name (org_id o));; mret (Some o)
       | None => log ERROR (OrganizationNoExactMatch name);; mret None
       end
     end)
    (λ e, log ERROR FailedToFetchOrganization;; raise e).

Definition remove_member (org_id user_id : string) (dry_run : bool) : M event bool :=
  if dry_run then
    log INFO (WouldRemove user_id org_id);; mret true
  else
    try_except is_RequestException
      (send_mutation (DELETE_user org_id user_id);; mret true)
      (λ e, log ERROR (FailedToRemove user_id);; mret false).

Definition add_member (org_id user_id role : string) (dry_run : bool) : M event bool :=
  if dry_run then
    log INFO (WouldAdd user_id org_id role);; mret true
  else
    try_except is_RequestException
      (send_mutation (PUT_user org_id user_id role);; mret true)
      (λ e, log ERROR (FailedToAdd user_id);; mret false).

Definition read_usernames_from_file (file_path : string) : M event (list string) :=
  log INFO (ReadingUsernames file_path);;
  match files world file_path with
  | NoSuchFile => log ERROR (FileNotFound file_path);; raise FileNotFoundError
  | Unreadable => log ERROR (FailedToReadFile file_path);; raise OSError
  | Lines ls =>
    let usernames := stripped_lines ls in
    log INFO (ReadUsernames (length usernames));;
    mret usernames
  end.

(** [{m['userId'] for m in org_info.get('members', [])}] *)
Definition member_ids (o : org) : M event (gset string) :=
  match mapM userId (members o) with
  | Some ids => mret (list_to_set ids)
  | None => raise KeyError
  end.

(** The first loop of [manage_members]: usernames with a user ID, in file
    order, and the usernames without. *)
Fixpoint separate_users (user_lookup : gmap string (option string))
    (usernames : list string)
    (user_ids_to_process : list (string * string)) (missing_users : list string)
  : M event (list (string * string) * list string) :=
  match usernames with
  | [] => mret (user_ids_to_process, missing_users)
  | username :: rest =>
    let user_id := mjoin (user_lookup !! username) in
    match user_id with
    | Some uid =>
      if truthy user_id then
        separate_users user_lookup rest
          (user_ids_to_process ++ [(username, uid)]) missing_users
      else
        log WARNING (UserNotFound username);;
        separate_users user_lookup rest
          user_ids_to_process (missing_users ++ [username])
    | None =>
      log WARNING (UserNotFound username);;
      separate_users user_lookup rest
        user_ids_to_process (missing_users ++ [username])
    end
  end.

(** The last loop of [manage_members], with its two counters. *)
Fixpoint apply_changes (action org_id : string) (dry_run : bool)
    (users_to_process : list (string * string))
    (success_count failure_count : nat) : M event (nat * nat) :=
  match users_to_process with
  | [] => mret (success_count, failure_count)
  | (username, user_id) :: rest =>
    log INFO (ProcessingUser username);;
    success ←
      (if bool_decide (action = "add")
       then add_member org_id user_id "Member" dry_run
       else remove_member org_id user_id dry_run);
    if (success : bool) then
      when (negb dry_run) (log INFO (Succeeded action username));;
      apply_changes action org_id dry_run rest (S success_count) failure_count
    else
      log ERROR (Failed action username);;
      apply_changes action org_id dry_run rest success_count (S failure_count)
  end.

(** Step 4 of [manage_members], "Filter based on action": for [add] the
    users not yet in the organization, otherwise those in it; the others
    are named in the log. *)
Definition filter_by_action (action : string) (current_members : gset string)
    (user_ids_to_process : list (string * string))
  : M event (list (string * string)) :=
  let is_member (p : string * string) := bool_decide (p.2 ∈ current_members) in
  let not_member (p : string * string) := negb (is_member p) in
  if bool_decide (action = "add") then
    let users_to_process := List.filter not_member user_ids_to_process in
    let already_members := List.filter is_member user_ids_to_process in
    when (negb (bool_decide (already_members = [])))
      (log INFO (AlreadyMembers already_members.*1));;
    mret users_to_process
  else
    let users_to_process := List.filter is_member user_ids_to_process in
    let not_members := List.filter not_member user_ids_to_process in
    when (negb (bool_decide (not_members = [])))
      (log INFO (NotMembers not_members.*1));;
    mret users_to_process.

(** "Confirmation prompt": the answer [False] stands for the early
    [return False] of a declined confirmation. *)
Definition confirm (dry_run skip_confirmation : bool) : M event bool :=
  if negb skip_confirmation && negb dry_run then
    emit Input;;
    match stdin world with
    | Answer response =>
      let response := lower (strip response) in
      if bool_decide (response ∈ ["yes"; "y"]) then mret true
      else log INFO Cancelled;; mret false
    | EndOfInput => raise EOFError
    | Interrupt => raise KeyboardInterrupt
    end
  else mret true.

Definition manage_members (action name user_file : string)
    (dry_run skip_confirmation : bool) : M event bool :=
  log INFO (Starting action name user_file dry_run);;
  try_except is_Exception
    (usernames ← read_usernames_from_file user_file;
     org_info ← get_organization_info name;
     match org_info with
     | None => mret false
     | Some org_info =>
       let org_id := org_id org_info in
       current_members ← member_ids org_info;
       user_lookup ← get_users_batch usernames;
       '(user_ids_to_process, missing_users) ←
         separate_users user_lookup usernames [] [];
       when (negb (bool_decide (missing_users = [])))
         (log WARNING (UsersNotFound missing_users));;
       if bool_decide (user_ids_to_process = []) then
         log ERROR NoValidUsers;; mret false
       else
         users_to_process ←
           filter_by_action action current_members user_ids_to_process;
         if bool_decide (users_to_process = []) then
           log INFO (NoUsersTo action);; mret true
         else
           log INFO (Changes dry_run action name users_to_process);;
           proceed ← confirm dry_run skip_confirmation;
           if (proceed : bool) then
             '(success_count, failure_count) ←
               apply_changes action org_id dry_run users_to_process 0 0;
             log INFO (Summary (length users_to_process) success_count failure_count);;
             when (negb (bool_decide (missing_users = [])))
               (log INFO (UsersNotFoundCount (length missing_users)));;
             mret (bool_decide (failure_count = 0%nat))
           else mret false
     end)
    (λ e, log ERROR (UnexpectedError e);; mret false).

End manager.

(** *** The command line *)

Record args := {
  action : string;
  user_file : string;
  org_arg : string;
  api_token : option string;
  user_limit : Z;
  dry_run : bool;
  yes : bool
}.

(** [main]; [environ_token] is [os.environ.get('DOMINO_API_TOKEN')].
    Building the manager (the session and the log handlers) is taken to
    succeed; argument parsing has happened. *)
Definition main (world : env) (environ_token : option string) (a : args) : M event () :=
  (* args.api_token or os.environ.get(...) *)
  let token := if truthy (api_token a) then api_token a else environ_token in
  if negb (truthy token) then
    emit Stderr_token_missing;; raise (SystemExit 1)
  else
    try_except (λ e, is_KeyboardInterrupt e || is_Exception e)
      (success ← manage_members (user_limit a) world
                   (action a) (org_arg a) (user_file a) (dry_run a) (yes a);
       raise (SystemExit (if (success : bool) then 0 else 1)))
      (λ e, if is_KeyboardInterrupt e
            then emit Stderr_cancelled;; raise (SystemExit 130)
            else emit (Stderr_error e);; raise (SystemExit 1)).

(** *** The remote service between two runs *)

(** The effect of one request on an organization the service holds: a PUT
    that succeeded makes the user a member of the organization with that
    ID, a DELETE that succeeded removes the user from it, and nothing else
    changes membership. *)
Definition apply_mutation (e : event) (o : org) : org :=
  match e with
  | PUT_user oid uid _ true =>
    if bool_decide (oid = org_id o)
    then {| org_name := org_name o; org_id := org_id o;
            members := members o ++ [{| userId := Some uid |}] |}
    else o
  | DELETE_user oid uid true =>
    if bool_decide (oid = org_id o)
    then {| org_name := org_name o; org_id := org_id o;
            members := List.filter (λ m, negb (bool_decide (userId m = Some uid)))
                                   (members o) |}
    else o
  | _ => o
  end.

(** The organizations the service holds once the requests of a trace
    have been served, nothing else having touched them. *)
Definition remote_after (t : list event) (orgs : list org) : list org :=
  foldl (λ orgs e, apply_mutation e <$> orgs) orgs t.

(** The world a second run meets after a first run left the trace [t]. *)
Definition world_after (t : list event) (world : env)
    (mutation_api' : nat → bool) (stdin' : console_reply) : env :=
  {| files := files world;
     organizations_api := λ name, remote_after t <$> organizations_api world name;
     users_api := users_api world;
     mutation_api := mutation_api';
     stdin := stdin' |}.

End OrgMembers.
(** ** What a run of the membership manager shows

    The functions below describe, without the monad, the events of a run
    of [manage_members] that the properties speak about.  They are a
    yardstick for the proofs: [OrgMembersFacts.manage_members_yields] shows
    that the program produces exactly these events. *)

Module OrgMembersPlan.
Import OrgMembers.

(** The events the properties speak about: the mutating requests, the
    confirmation prompt, and three kinds of log records. *)
Definition visible (e : event) : bool :=
  match e with
  | PUT_user _ _ _ _ | DELETE_user _ _ _ | Input => true
  | Log _ (UserNotFound _) | Log _ (ProcessingUser _) | Log _ (Summary _ _ _) => true
  | _ => false
  end.

(** The user ID a username has after the bulk lookup, if it has one. *)
Definition resolved (user_lookup : gmap string (option string)) (username : string)
  : option string :=
  match mjoin (user_lookup !! username) with
  | Some user_id => if truthy (Some user_id) then Some user_id else None
  | None => None
  end.

Definition found_users (user_lookup : gmap string (option string))
    (usernames : list string) : list (string * string) :=
  omap (λ username, pair username <$> resolved user_lookup username) usernames.

Definition missing_users (user_lookup : gmap string (option string))
    (usernames : list string) : list string :=
  List.filter (λ username, bool_decide (resolved user_lookup username = None)) usernames.

Definition is_member (ids : gset string) (p : string * string) : bool :=
  bool_decide (p.2 ∈ ids).

(** The users the chosen action has to change, and those it finds already
    in the wanted state. *)
Definition to_change (action : string) (ids : gset string)
    (found : list (string * string)) : list (string * string) :=
  if bool_decide (action = "add")
  then List.filter (λ p, negb (is_member ids p)) found
  else List.filter (is_member ids) found.

Definition already_satisfied (action : string) (ids : gset string)
    (found : list (string * string)) : list (string * string) :=
  if bool_decide (action = "add")
  then List.filter (is_member ids) found
  else List.filter (λ p, negb (is_member ids p)) found.

Definition request_for (action org_id user_id : string) (ok : bool) : event :=
  if bool_decide (action = "add")
  then PUT_user org_id user_id "Member" ok
  else DELETE_user org_id user_id ok.

(** The visible events of the apply phase, [base] mutating requests having
    been sent before it. *)
Fixpoint exchanges (world : env) (action org_id : string) (dry_run : bool)
    (base : nat) (users : list (string * string)) : list event :=
  match users with
  | [] => []
  | (username, user_id) :: rest =>
    Log INFO (ProcessingUser username) ::
    if dry_run then exchanges world action org_id dry_run base rest
    else request_for action org_id user_id (mutation_api world base)
         :: exchanges world action org_id dry_run (S base) rest
  end.

Definition failures (t : list event) : nat :=
  length (List.filter is_failed_mutation t).

Definition accepted (answer : string) : bool :=
  bool_decide (lower (strip answer) ∈ ["yes"; "y"]).

(** What the first three steps of a run (file, organization, users)
    establish when none of them fails. *)
Record resolution := {
  the_users : list user;
  the_org : org;
  the_members : gset string;
  the_usernames : list string;
  the_lookup : gmap string (option string)
}.

Definition resolve (world : env) (user_limit : Z) (name user_file : string)
  : option resolution :=
  match files world user_file with
  | Lines ls =>
    match organizations_api world name with
    | Some orgs =>
      match List.find (λ o, bool_decide (org_name o = Some name)) orgs with
      | Some o =>
        match mapM userId (members o) with
        | Some ids =>
          match users_api world user_limit with
          | Some users =>
            Some {| the_users := users;
                    the_org := o;
                    the_members := list_to_set ids;
                    the_usernames := stripped_lines ls;
                    the_lookup := filter_requested (build_users_map users)
                                                   (stripped_lines ls) |}
          | None => None
          end
        | None => None
        end
      | None => None
      end
    | None => None
    end
  | _ => None
  end.

(** Result and visible events of a run. *)
Definition expected (world : env) (user_limit : Z)
    (action name user_file : string) (dry_run skip_confirmation : bool)
    (base : nat) : res bool * list event :=
  match resolve world user_limit name user_file with
  | None => (Ret false, [])
  | Some r =>
    let found := found_users (the_lookup r) (the_usernames r) in
    let reported :=
      (λ username, Log WARNING (UserNotFound username))
        <$> missing_users (the_lookup r) (the_usernames r) in
    if bool_decide (found = []) then (Ret false, reported)
    else
      let todo := to_change action (the_members r) found in
      if bool_decide (todo = []) then (Ret true, reported)
      else
        let ex := exchanges world action (org_id (the_org r)) dry_run base todo in
        let summary :=
          Log INFO (Summary (length todo) (length todo - failures ex) (failures ex)) in
        if negb skip_confirmation && negb dry_run then
          match stdin world with
          | Answer s =>
            if accepted s
            then (Ret (bool_decide (failures ex = 0%nat)),
                  reported ++ [Input] ++ ex ++ [summary])
            else (Ret false, reported ++ [Input])
          | EndOfInput => (Ret false, reported ++ [Input])
          | Interrupt => (Raise KeyboardInterrupt, reported ++ [Input])
          end
        else (Ret (bool_decide (failures ex = 0%nat)), reported ++ ex ++ [summary])
  end.

Definition reported (r : resolution) : list event :=
  (λ username, Log WARNING (UserNotFound username))
    <$> missing_users (the_lookup r) (the_usernames r).

(** How a run that shows the prompt and does not go on ends. *)
Definition stopped_at_prompt (reply : console_reply) (r : res bool) : Prop :=
  match reply with
  | Answer s => accepted s = false ∧ r = Ret false
  | EndOfInput => r = Ret false
  | Interrupt => r = Raise KeyboardInterrupt
  end.

(** The five ways a run can go, with its result and its visible events:
    a fatal precondition, no username with a user ID, nothing to change,
    a stop at the prompt, and the apply phase with its summary. *)
Inductive shape (world : env) (user_limit : Z) (action name user_file : string)
    (dry_run skip_confirmation : bool) (base : nat)
  : res bool → list event → Prop :=
| shape_fatal :
    resolve world user_limit name user_file = None →
    shape world user_limit action name user_file dry_run skip_confirmation base
      (Ret false) []
| shape_no_valid_users r :
    resolve world user_limit name user_file = Some r →
    found_users (the_lookup r) (the_usernames r) = [] →
    shape world user_limit action name user_file dry_run skip_confirmation base
      (Ret false) (reported r)
| shape_nothing_to_do r :
    resolve world user_limit name user_file = Some r →
    found_users (the_lookup r) (the_usernames r) ≠ [] →
    to_change action (the_members r)
      (found_users (the_lookup r) (the_usernames r)) = [] →
    shape world user_limit action name user_file dry_run skip_confirmation base
      (Ret true) (reported r)
| shape_stopped r result :
    resolve world user_limit name user_file = Some r →
    to_change action (the_members r)
      (found_users (the_lookup r) (the_usernames r)) ≠ [] →
    skip_confirmation = false →
    dry_run = false →
    stopped_at_prompt (stdin world) result →
    shape world user_limit action name user_file dry_run skip_confirmation base
      result (reported r ++ [Input])
| shape_applied r :
    resolve world user_limit name user_file = Some r →
    let todo := to_change action (the_members r)
                  (found_users (the_lookup r) (the_usernames r)) in
    let ex := exchanges world action (org_id (the_org r)) dry_run base todo in
    let prompt := if negb skip_confirmation && negb dry_run then [Input] else [] in
    todo ≠ [] →
    (negb skip_confirmation && negb dry_run = true →
     ∃ s, stdin world = Answer s ∧ accepted s = true) →
    shape world user_limit action name user_file dry_run skip_confirmation base
      (Ret (bool_decide (failures ex = 0%nat)))
      (reported r ++ prompt ++ ex
       ++ [Log INFO (Summary (length todo) (length todo - failures ex) (failures ex))]).

(** One organization after the requests of a trace. *)
Definition org_after (t : list event) (o : org) : org :=
  foldl (λ o e, apply_mutation e o) o t.

(** The call [main] makes. *)
Definition manage_members_of (world : env) (a : args) : M event bool :=
  manage_members (user_limit a) world (action a) (org_arg a) (user_file a)
    (dry_run a) (yes a).

(** A computation, started after the trace [t], ends with [r] after events
    whose visible part is [vis]. *)
Definition yields {A} (c : M event A) (t : list event) (r : res A)
    (vis : list event) : Prop :=
  ∃ seg, c t = (r, t ++ seg) ∧ List.filter visible seg = vis.

End OrgMembersPlan.
(** ** Observations used by the further properties *)

Module OrgMembersObs.
Import OrgMembers.

(** The user a mutating request is about. *)
Definition mutated_user (e : event) : option string :=
  match e with
  | PUT_user _ user_id _ _ | DELETE_user _ user_id _ => Some user_id
  | _ => None
  end.

(** The requests of a trace, reads included. *)
Definition is_request (e : event) : bool :=
  match e with
  | GET_organizations _ | GET_users _ | PUT_user _ _ _ _ | DELETE_user _ _ _ => true
  | _ => false
  end.

Definition requests (t : list event) : list event := List.filter is_request t.

End OrgMembersObs.
(** ** Concrete worlds for the examples *)

Module Demo.

(** A three-day calendar standing for [datetime]: the ordinal of each day
    with its [%m/%d/%Y] and [%m-%d-%Y] renderings. *)
Definition calendar : list (Z * (string * string)) :=
  [ (739283, ("02/01/2025", "02-01-2025"));
    (739284, ("02/02/2025", "02-02-2025"));
    (739285, ("02/03/2025", "02-03-2025")) ].

Definition strptime (s : string) : option Z :=
  fst <$> List.find (λ d, bool_decide (d.2.1 = s)) calendar.

Definition strftime (fmt : string) (d : Z) : string :=
  match List.find (λ e, bool_decide (e.1 = d)) calendar with
  | Some e => if bool_decide (fmt = "%m/%d/%Y") then e.2.1 else e.2.2
  | None => ""
  end.

(** A stand-in for [pandas.read_csv]: the rows of the body, an empty body
    being refused. *)
Definition read_csv (body : string) : option (list string) :=
  if bool_decide (body = "") then None else Some [body].

(** A service that is down: every request ends in a transport error. *)
Definition service_down : UsageReport.env :=
  {| UsageReport.service := λ _, UsageReport.TransportError;
     UsageReport.writable := λ _, true;
     UsageReport.os_sleeps := λ _, true |}.

(** A service that answers 503 twice and then delivers the report. *)
Definition service_flaky : UsageReport.env :=
  {| UsageReport.service := λ k,
       match k with
       | 0%nat => UsageReport.TransportError
       | 1%nat => UsageReport.Response {| UsageReport.ok := false; UsageReport.text := "Service Unavailable" |}
       | _ => UsageReport.Response {| UsageReport.ok := true; UsageReport.text := "user,hours" |}
       end;
     UsageReport.writable := λ _, true;
     UsageReport.os_sleeps := λ _, true |}.

Definition report_args (first last : string) : UsageReport.args :=
  {| UsageReport.start_date := first;
     UsageReport.end_date := last;
     UsageReport.prefix := "usage_report";
     UsageReport.max_retries := 3;
     UsageReport.retry_delay := 30 |}.

(** An organization [myorg] with one member, next to an organization
    whose name only contains the requested one; three users; a file with
    four usernames, one of them unknown to the service. *)
Definition orgs : list OrgMembers.org :=
  [ {| OrgMembers.org_name := Some "myorg-dev";
       OrgMembers.org_id := "o2";
       OrgMembers.members := [] |};
    {| OrgMembers.org_name := Some "myorg";
       OrgMembers.org_id := "o1";
       OrgMembers.members := [ {| OrgMembers.userId := Some "u1" |} ] |} ].

Definition org_world (api : nat → bool) (reply : OrgMembers.console_reply)
  : OrgMembers.env :=
  {| OrgMembers.files := λ path,
       if bool_decide (path = "users.txt")
       then OrgMembers.Lines ["alice"; "  bob  "; ""; "carol"; "mallory"]
       else OrgMembers.NoSuchFile;
     OrgMembers.organizations_api := λ name, Some orgs;
     OrgMembers.users_api := λ _,
       Some [ {| OrgMembers.userName := Some "alice"; OrgMembers.id := Some "u1" |};
              {| OrgMembers.userName := Some "bob"; OrgMembers.id := Some "u2" |};
              {| OrgMembers.userName := Some "carol"; OrgMembers.id := Some "u3" |} ];
     OrgMembers.mutation_api := api;
     OrgMembers.stdin := reply |}.

Definition org_args (action name : string) (dry_run yes : bool) : OrgMembers.args :=
  {| OrgMembers.action := action;
     OrgMembers.user_file := "users.txt";
     OrgMembers.org_arg := name;
     OrgMembers.api_token := Some "token";
     OrgMembers.user_limit := 10000;
     OrgMembers.dry_run := dry_run;
     OrgMembers.yes := yes |}.

(** The operator agrees; the first mutating request succeeds, the second
    fails. *)
Definition flaky_world : OrgMembers.env :=
  org_world (λ k, bool_decide (k = 0%nat)) (OrgMembers.Answer "y").

(** The operator declines. *)
Definition declined_world : OrgMembers.env :=
  org_world (λ _, true) (OrgMembers.Answer "no").

(** The operator agrees and every request succeeds. *)
Definition agreed_world : OrgMembers.env :=
  org_world (λ _, true) (OrgMembers.Answer " YES ").

Definition flaky_run : res bool * list OrgMembers.event :=
  OrgMembersPlan.manage_members_of flaky_world (org_args "add" "myorg" false false) [].

Definition declined_run : res bool * list OrgMembers.event :=
  OrgMembersPlan.manage_members_of declined_world (org_args "add" "myorg" false false) [].

Definition agreed_run : res bool * list OrgMembers.event :=
  OrgMembersPlan.manage_members_of agreed_world (org_args "add" "myorg" false false) [].

(** The run of the daily report against a service that is down. *)
Definition down_day : res bool * list UsageReport.event :=
  UsageReport.generate_daily_report strftime (list string) read_csv
    service_down 739283 "usage_report" 3 30 [].

Definition down_main : res () * list UsageReport.event :=
  UsageReport.main strptime strftime (list string) read_csv
    service_down (report_args "02/01/2025" "02/03/2025") [].

End Demo.
(** ** Further concrete worlds *)

Module DemoMore.
Import OrgMembers OrgMembersPlan.

(** The service answers at once with a report. *)
Definition service_up : UsageReport.env :=
  {| UsageReport.service := λ _,
       UsageReport.Response {| UsageReport.ok := true; UsageReport.text := "user,hours" |};
     UsageReport.writable := λ _, true;
     UsageReport.os_sleeps := λ _, true |}.

(** After a transport error the service answers with an empty body. *)
Definition service_garbled : UsageReport.env :=
  {| UsageReport.service := λ k,
       match k with
       | 0%nat => UsageReport.TransportError
       | _ => UsageReport.Response {| UsageReport.ok := true; UsageReport.text := "" |}
       end;
     UsageReport.writable := λ _, true;
     UsageReport.os_sleeps := λ _, true |}.

(** The report comes at the third request and the output directory cannot
    be written. *)
Definition read_only_disk : UsageReport.env :=
  {| UsageReport.service := UsageReport.service Demo.service_flaky;
     UsageReport.writable := λ _, false;
     UsageReport.os_sleeps := λ _, true |}.

(** Every request is answered with an error status. *)
Definition service_503 : UsageReport.env :=
  {| UsageReport.service := λ _,
       UsageReport.Response {| UsageReport.ok := false;
                               UsageReport.text := "Service Unavailable" |};
     UsageReport.writable := λ _, true;
     UsageReport.os_sleeps := λ _, true |}.

(** Arguments with a negative retry delay. *)
Definition hasty_args (first last : string) : UsageReport.args :=
  {| UsageReport.start_date := first;
     UsageReport.end_date := last;
     UsageReport.prefix := "usage_report";
     UsageReport.max_retries := 3;
     UsageReport.retry_delay := -1 |}.

(** The user records of [Demo.org_world]. *)
Definition users : list user :=
  [ {| userName := Some "alice"; id := Some "u1" |};
    {| userName := Some "bob"; id := Some "u2" |};
    {| userName := Some "carol"; id := Some "u3" |} ].

(** The user query fails. *)
Definition users_down_world : env :=
  {| files := files Demo.agreed_world;
     organizations_api := organizations_api Demo.agreed_world;
     users_api := λ _, None;
     mutation_api := λ _, true;
     stdin := Answer "y" |}.

(** The service knows none of the usernames of the file. *)
Definition strangers_world : env :=
  {| files := files Demo.agreed_world;
     organizations_api := organizations_api Demo.agreed_world;
     users_api := λ _, Some [ {| userName := Some "dave"; id := Some "u4" |} ];
     mutation_api := λ _, true;
     stdin := Answer "y" |}.

(** Control-C, and the end of standard input, at the prompt. *)
Definition interrupted_world : env := Demo.org_world (λ _, true) Interrupt.
Definition closed_stdin_world : env := Demo.org_world (λ _, true) EndOfInput.

(** The world after the users of the file have been added. *)
Definition settled_world : env :=
  world_after Demo.agreed_run.2 Demo.agreed_world (λ _, true) (Answer "y").

Definition no_token_args : args :=
  {| action := "add"; user_file := "users.txt"; org_arg := "myorg";
     api_token := Some ""; user_limit := 10000; dry_run := false; yes := false |}.

(** What a world resolves to for [myorg] and [users.txt] (an empty
    resolution when a step fails). *)
Definition resolution_of (world : env) : resolution :=
  default {| the_users := []; the_org := {| org_name := None; org_id := ""; members := [] |};
             the_members := ∅; the_usernames := []; the_lookup := ∅ |}
          (resolve world 10000 "myorg" "users.txt").

Definition interrupted_run : res bool * list event :=
  manage_members_of interrupted_world (Demo.org_args "add" "myorg" false false) [].

Definition closed_stdin_run : res bool * list event :=
  manage_members_of closed_stdin_world (Demo.org_args "add" "myorg" false false) [].

Definition skipped_run : res bool * list event :=
  manage_members_of Demo.flaky_world (Demo.org_args "add" "myorg" false true) [].

Definition rehearsal_run : res bool * list event :=
  manage_members_of Demo.flaky_world (Demo.org_args "remove" "myorg" true false) [].

Definition removal_run : res bool * list event :=
  manage_members_of Demo.agreed_world (Demo.org_args "remove" "myorg" false false) [].

(** A file that names [bob] twice. *)
Definition repeated_world : env :=
  {| files := λ path,
       if bool_decide (path = "users.txt")
       then Lines ["bob"; "carol"; " bob"]
       else NoSuchFile;
     organizations_api := organizations_api Demo.agreed_world;
     users_api := users_api Demo.agreed_world;
     mutation_api := λ _, true;
     stdin := Answer "y" |}.

Definition repeated_run : res bool * list event :=
  manage_members_of repeated_world (Demo.org_args "add" "myorg" false true) [].

End DemoMore.
(** ** Generic facts about the monad *)

Section monad_facts.
Context {E : Type}.
Implicit Types t : list E.

Lemma bind_run {A B} (c : M E A) (f : A → M E B) t :
  (c ≫= f) t =
  match c t with
  | (Ret a, t') => f a t'
  | (Raise e, t') => (Raise e, t')
  end.
Proof. reflexivity. Qed.

Lemma bind_ret_run {A B} (a : A) (f : A → M E B) t :
  (mret a ≫= f) t = f a t.
Proof. reflexivity. Qed.

Lemma emit_run (e : E) t : emit e t = (Ret (), t ++ [e]).
Proof. reflexivity. Qed.

Lemma bind_emit_run {B} (e : E) (f : () → M E B) t :
  (emit e ≫= f) t = f () (t ++ [e]).
Proof. reflexivity. Qed.
End monad_facts.

Module UsageReportFacts.
Import UsageReport.

Lemma requests_sent_posts t : requests_sent t = length (posts t).
Proof.
  reflexivity.
Qed.

Lemma requests_sent_app t1 t2 :
  requests_sent (t1 ++ t2) = (requests_sent t1 + requests_sent t2)%nat.
Proof.
  rewrite !requests_sent_posts. unfold posts.
  rewrite List.filter_app. apply length_app.
Qed.

Section script.
Variable strptime : string → option Z.
Variable strftime : string → Z → string.
Variable DataFrame : Type.
Variable read_csv : string → option DataFrame.
Variable world : env.

Abbreviation retry_loop := (retry_loop world).
Abbreviation last_response := (last_response world).
Abbreviation generate_daily_report :=
  (generate_daily_report strftime DataFrame read_csv world).

(** A delay [time.sleep] accepts is slept through. *)
Lemma sleep_run secs t :
  sleep_accepted world secs = true →
  sleep world secs t = (Ret (), t ++ [Sleep secs]).
Proof.
  unfold sleep_accepted, sleep.
  intros [Hr%bool_decide_eq_true Hos]%andb_true_iff.
  rewrite bool_decide_eq_false_2 by (unfold pytime_max in *; lia).
  rewrite bool_decide_eq_false_2 by lia. by rewrite Hos.
Qed.

(** Any other delay makes [time.sleep] raise, and nothing is slept. *)
Lemma sleep_refused secs t :
  sleep_accepted world secs = false →
  ∃ e,
    sleep world secs t = (Raise e, t)
    ∧ e ∈ [OverflowError; ValueError; OSError]
    ∧ (secs < 0 →
       e = if bool_decide (secs < - pytime_max) then OverflowError else ValueError).
Proof.
  unfold sleep_accepted, sleep. intros Hno.
  destruct (decide (secs < - pytime_max ∨ pytime_max < secs)) as [Hrange|Hrange].
  - rewrite bool_decide_eq_true_2 by done.
    exists OverflowError. split; [done|]. split; [apply list_elem_of_In; simpl; tauto|].
    intros Hneg. rewrite bool_decide_eq_true_2; [done|]. unfold pytime_max in *. lia.
  - rewrite bool_decide_eq_false_2 by done.
    destruct (decide (secs < 0)) as [Hneg|Hneg].
    + rewrite (bool_decide_eq_true_2 (secs < 0)) by done.
      exists ValueError. split; [done|].
      split; [apply list_elem_of_In; simpl; tauto|].
      intros _. rewrite bool_decide_eq_false_2; [done|]. lia.
    + rewrite (bool_decide_eq_false_2 (secs < 0)) by done.
      rewrite bool_decide_eq_true_2 in Hno by lia. simpl in Hno. rewrite Hno.
      exists OSError. split; [done|].
      split; [apply list_elem_of_In; simpl; tauto|]. lia.
Qed.

Lemma back_off_not_out_of_fuel attempt max_retries delay t :
  (back_off world attempt max_retries delay t).1 ≠ Raise OutOfFuel.
Proof.
  unfold back_off, when. case_bool_decide; [|done].
  rewrite bind_emit_run.
  destruct (sleep_accepted world delay) eqn:Hs.
  - by rewrite sleep_run.
  - destruct (sleep_refused delay (t ++ [Print (Retrying delay)]) Hs)
      as (e & -> & He & _). simpl. intros [= ->].
    apply list_elem_of_In in He. simpl in He.
    destruct He as [He|[He|[He|[]]]]; discriminate He.
Qed.

(** [n] failed attempts followed by a reply with [ok] set: the loop
    leaves with that reply after [n] sleeps and [n + 1] requests. *)
Lemma retry_loop_fail_then_ok (n : nat) :
  ∀ fuel ds max_retries delay attempt response t resp,
    (n < fuel)%nat →
    attempt + Z.of_nat n < max_retries →
    ((0 < n)%nat → sleep_accepted world delay = true) →
    (∀ k, (k < n)%nat → is_failure (service world (requests_sent t + k)) = true) →
    service world (requests_sent t + n) = Response resp →
    ok resp = true →
    ∃ seg,
      retry_loop fuel ds max_retries delay attempt response t
        = (Ret (attempt + Z.of_nat n, Some resp), t ++ seg)
      ∧ posts seg = replicate (S n) (POST ds)
      ∧ sleeps seg = replicate n (Sleep delay)
      ∧ writes seg = [].
Proof.
  induction n as [|n IH];
    intros fuel ds mx delay a response t resp Hfuel Hlt Hsleep Hfail Hok Hresp.
  - destruct fuel as [|fuel]; [lia|]. simpl.
    rewrite bool_decide_eq_true_2 by lia.
    exists [POST ds]. unfold post. rewrite bind_run.
    replace (requests_sent t + 0)%nat with (requests_sent t) in Hok by lia.
    rewrite Hok, Hresp. simpl. rewrite Z.add_0_r. done.
  - destruct fuel as [|fuel]; [lia|]. simpl.
    rewrite bool_decide_eq_true_2 by lia.
    pose proof (Hfail 0%nat ltac:(lia)) as H0.
    replace (requests_sent t + 0)%nat with (requests_sent t) in H0 by lia.
    unfold post at 1. rewrite bind_run.
    set (t1 := t ++ [POST ds]).
    assert (Hsent : requests_sent t1 = S (requests_sent t)).
    { unfold t1. rewrite requests_sent_app. unfold requests_sent. simpl. lia. }
    destruct (service world (requests_sent t)) as [|r0] eqn:Hr.
    + rewrite bind_emit_run. unfold back_off, when.
      rewrite bool_decide_eq_true_2 by lia.
      rewrite bind_run, bind_emit_run, sleep_run by (apply Hsleep; lia).
      set (t2 := ((t1 ++ _) ++ _) ++ _).
      assert (Hsent2 : requests_sent t2 = S (requests_sent t)).
      { unfold t2. rewrite !requests_sent_app, Hsent. unfold requests_sent. simpl. lia. }
      destruct (IH fuel ds mx delay (a + 1) response t2 resp) as (seg & Hrun & Hp & Hs & Hw);
        [lia | lia | by intros _; apply Hsleep; lia | | | done |].
      * intros k Hk. rewrite Hsent2.
        replace (S (requests_sent t) + k)%nat with (requests_sent t + S k)%nat by lia.
        apply Hfail. lia.
      * rewrite Hsent2.
        replace (S (requests_sent t) + n)%nat with (requests_sent t + S n)%nat by lia.
        done.
      * exists (drop (length t) t2 ++ seg). split.
        { rewrite Hrun. unfold t2, t1. rewrite <- !app_assoc, drop_app_length.
          rewrite <- !app_assoc. do 3 f_equal. lia. }
        unfold t2, t1. rewrite <- !app_assoc, drop_app_length.
        unfold posts, sleeps, writes in *. simpl. rewrite Hp, Hs, Hw. done.
    + simpl in H0. destruct (ok r0) eqn:Hok0; [done|].
      rewrite bind_emit_run. unfold back_off, when.
      rewrite bool_decide_eq_true_2 by lia.
      rewrite bind_run, bind_emit_run, sleep_run by (apply Hsleep; lia).
      set (t2 := ((t1 ++ _) ++ _) ++ _).
      assert (Hsent2 : requests_sent t2 = S (requests_sent t)).
      { unfold t2. rewrite !requests_sent_app, Hsent. unfold requests_sent. simpl. lia. }
      destruct (IH fuel ds mx delay (a + 1) (Some r0) t2 resp) as (seg & Hrun & Hp & Hs & Hw);
        [lia | lia | by intros _; apply Hsleep; lia | | | done |].
      * intros k Hk. rewrite Hsent2.
        replace (S (requests_sent t) + k)%nat with (requests_sent t + S k)%nat by lia.
        apply Hfail. lia.
      * rewrite Hsent2.
        replace (S (requests_sent t) + n)%nat with (requests_sent t + S n)%nat by lia.
        done.
      * exists (drop (length t) t2 ++ seg). split.
        { rewrite Hrun. unfold t2, t1. rewrite <- !app_assoc, drop_app_length.
          rewrite <- !app_assoc. do 3 f_equal. lia. }
        unfold t2, t1. rewrite <- !app_assoc, drop_app_length.
        unfold posts, sleeps, writes in *. simpl. rewrite Hp, Hs, Hw. done.
Qed.

(** The loop never lacks iterations when it is given
    [max_retries - attempt] of them. *)
Lemma retry_loop_total fuel :
  ∀ ds max_retries delay attempt response t,
    (Z.to_nat (max_retries - attempt) ≤ fuel)%nat →
    (retry_loop fuel ds max_retries delay attempt response t).1 ≠ Raise OutOfFuel.
Proof.
  induction fuel as [|fuel IH]; intros ds mx delay a response t Hfuel; simpl.
  - by rewrite bool_decide_eq_false_2 by lia.
  - case_bool_decide; [|done].
    unfold post. rewrite bind_run.
    destruct (service world (requests_sent t)) as [|r0].
    + rewrite bind_emit_run, bind_run.
      pose proof (back_off_not_out_of_fuel (a + 1) mx delay
                    ((t ++ [POST ds]) ++ [Print (AttemptRequestError ds (a + 1) mx)]))
        as Hb.
      destruct (back_off world (a + 1) mx delay _) as [[[]|e] t1]; [|simpl in *; intros [= ->]; by apply Hb].
      apply IH. lia.
    + destruct (ok r0); [done|].
      rewrite bind_emit_run, bind_run.
      pose proof (back_off_not_out_of_fuel (a + 1) mx delay
                    ((t ++ [POST ds]) ++ [Print (AttemptBadStatus ds (a + 1) mx)]))
        as Hb.
      destruct (back_off world (a + 1) mx delay _) as [[[]|e] t1]; [|simpl in *; intros [= ->]; by apply Hb].
      apply IH. lia.
Qed.

(** Every one of the remaining attempts fails: the loop runs to
    exhaustion, sleeping between the attempts but not after the last. *)
Lemma retry_loop_all_fail (m : nat) :
  ∀ fuel ds max_retries delay attempt response t,
    (m < fuel)%nat →
    attempt + Z.of_nat (S m) = max_retries →
    ((0 < m)%nat → sleep_accepted world delay = true) →
    (∀ k, (k ≤ m)%nat → is_failure (service world (requests_sent t + k)) = true) →
    ∃ seg,
      retry_loop fuel ds max_retries delay attempt response t
        = (Ret (max_retries, last_response (S m) (requests_sent t) response), t ++ seg)
      ∧ posts seg = replicate (S m) (POST ds)
      ∧ sleeps seg = replicate m (Sleep delay)
      ∧ writes seg = [].
Proof.
  induction m as [|m IH]; intros fuel ds mx delay a response t Hfuel Hmax Hsleep Hfail;
    (destruct fuel as [|fuel]; [lia|]); simpl retry_loop;
    rewrite bool_decide_eq_true_2 by lia;
    pose proof (Hfail 0%nat ltac:(lia)) as H0;
    replace (requests_sent t + 0)%nat with (requests_sent t) in H0 by lia;
    unfold post at 1; rewrite bind_run;
    set (t1 := t ++ [POST ds]);
    (assert (Hsent : requests_sent t1 = S (requests_sent t))
      by (unfold t1; rewrite requests_sent_app; unfold requests_sent; simpl; lia)).
  - (* the last attempt: no sleep follows *)
    simpl last_response.
    destruct (service world (requests_sent t)) as [|r0] eqn:Hr;
      [|simpl in H0; destruct (ok r0) eqn:Hok0; [done|]];
      rewrite bind_emit_run; unfold back_off, when;
      rewrite bool_decide_eq_false_2 by lia;
      rewrite bind_ret_run;
      (destruct fuel; simpl retry_loop; rewrite bool_decide_eq_false_2 by lia);
      (eexists; split;
        [unfold mret, M_ret; apply (f_equal2 pair);
           [do 2 f_equal; lia | unfold t1; rewrite <- app_assoc; reflexivity]
        | done]).
  - simpl last_response.
    destruct (service world (requests_sent t)) as [|r0] eqn:Hr;
      [|simpl in H0; destruct (ok r0) eqn:Hok0; [done|]];
      rewrite bind_emit_run; unfold back_off, when;
      rewrite bool_decide_eq_true_2 by lia;
      rewrite bind_run, bind_emit_run, sleep_run by (apply Hsleep; lia);
      set (t2 := ((t1 ++ _) ++ _) ++ _);
      (assert (Hsent2 : requests_sent t2 = S (requests_sent t))
        by (unfold t2; rewrite !requests_sent_app, Hsent; unfold requests_sent; simpl; lia)).
    + destruct (IH fuel ds mx delay (a + 1) response t2) as (seg & Hrun & Hp & Hs & Hw);
        [lia | lia | by intros _; apply Hsleep; lia | |].
      { intros k Hk. rewrite Hsent2.
        replace (S (requests_sent t) + k)%nat with (requests_sent t + S k)%nat by lia.
        apply Hfail. lia. }
      exists (drop (length t) t2 ++ seg). split.
      { rewrite Hrun, Hsent2. unfold t2, t1.
        rewrite <- !app_assoc, drop_app_length, <- !app_assoc. done. }
      unfold t2, t1. rewrite <- !app_assoc, drop_app_length.
      unfold posts, sleeps, writes in *. simpl. rewrite Hp, Hs, Hw. done.
    + destruct (IH fuel ds mx delay (a + 1) (Some r0) t2) as (seg & Hrun & Hp & Hs & Hw);
        [lia | lia | by intros _; apply Hsleep; lia | |].
      { intros k Hk. rewrite Hsent2.
        replace (S (requests_sent t) + k)%nat with (requests_sent t + S k)%nat by lia.
        apply Hfail. lia. }
      exists (drop (length t) t2 ++ seg). split.
      { rewrite Hrun, Hsent2. unfold t2, t1.
        rewrite <- !app_assoc, drop_app_length, <- !app_assoc. done. }
      unfold t2, t1. rewrite <- !app_assoc, drop_app_length.
      unfold posts, sleeps, writes in *. simpl. rewrite Hp, Hs, Hw. done.
Qed.

Lemma last_response_transport_errors n :
  ∀ base response,
    (∀ k, (k < n)%nat → service world (base + k) = TransportError) →
    last_response n base response = response.
Proof.
  induction n as [|n IH]; intros base response Hall; [done|]. simpl.
  pose proof (Hall 0%nat ltac:(lia)) as H0.
  replace (base + 0)%nat with base in H0 by lia. rewrite H0.
  apply IH. intros k Hk.
  replace (S base + k)%nat with (base + S k)%nat by lia. apply Hall. lia.
Qed.

Lemma last_response_failure n :
  ∀ base response resp,
    (∀ k, (k < n)%nat → is_failure (service world (base + k)) = true) →
    (∀ r, response = Some r → ok r = false) →
    last_response n base response = Some resp → ok resp = false.
Proof.
  induction n as [|n IH]; intros base response resp Hall Hr; simpl.
  - apply Hr.
  - apply IH.
    + intros k Hk. replace (S base + k)%nat with (base + S k)%nat by lia.
      apply Hall. lia.
    + pose proof (Hall 0%nat ltac:(lia)) as H0.
      replace (base + 0)%nat with base in H0 by lia.
      destruct (service world base) as [|r0]; [done|].
      intros r [= <-]. simpl in H0. by destruct (ok r0).
Qed.

(** What [generate_daily_report] does once every attempt has failed:
    it answers [False] when some attempt got an HTTP response, and hits
    the unbound local [response] when none did. *)
Lemma generate_daily_report_exhausted (N : Z) report_date prefix delay t :
  1 ≤ N →
  (2 ≤ N → sleep_accepted world delay = true) →
  (∀ k, (k < Z.to_nat N)%nat →
        is_failure (service world (requests_sent t + k)) = true) →
  let ds := strftime "%m/%d/%Y" report_date in
  ∃ seg,
    posts seg = replicate (Z.to_nat N) (POST ds)
    ∧ sleeps seg = replicate (Z.to_nat N - 1) (Sleep delay)
    ∧ writes seg = []
    ∧ generate_daily_report report_date prefix N delay t =
      match last_response (Z.to_nat N) (requests_sent t) None with
      | None => (Raise UnboundLocalError, t ++ seg)
      | Some _ => (Ret false, (t ++ seg) ++ [Print (AllAttemptsFailed ds N)])
      end.
Proof.
  intros HN Hsleep Hfail ds.
  destruct (Z.to_nat N) as [|m] eqn:Hm; [lia|].
  destruct (retry_loop_all_fail m (S m) ds N delay 0 None t)
    as (seg & Hrun & Hp & Hs & Hw); [lia | lia | intros ?; apply Hsleep; lia | |].
  { intros k Hk. apply Hfail. lia. }
  unfold UsageReport.generate_daily_report. fold ds.
  rewrite bind_run, Hm, Hrun. rewrite bool_decide_eq_true_2 by done.
  destruct (last_response (S m) (requests_sent t) None) as [resp|] eqn:Hlast.
  - assert (ok resp = false) as Hok.
    { eapply last_response_failure; [| |exact Hlast]; [|done].
      intros k Hk. apply Hfail. lia. }
    exists seg. replace (S m - 1)%nat with m by lia.
    repeat split; try done.
    rewrite bind_ret_run, Hok. done.
  - exists seg. replace (S m - 1)%nat with m by lia. done.
Qed.

(** With every attempt ending in a transport error, the call ends in
    [UnboundLocalError], whatever the number of attempts allowed. *)
Lemma all_transport_errors_raise (N : Z) report_date prefix delay t :
  1 ≤ N →
  (2 ≤ N → sleep_accepted world delay = true) →
  (∀ k, (k < Z.to_nat N)%nat →
        service world (requests_sent t + k) = TransportError) →
  (generate_daily_report report_date prefix N delay t).1 = Raise UnboundLocalError.
Proof.
  intros HN Hsleep Hall.
  destruct (generate_daily_report_exhausted N report_date prefix delay t HN Hsleep)
    as (seg & _ & _ & _ & Hrun).
  { intros k Hk. by rewrite Hall. }
  rewrite Hrun, last_response_transport_errors by done. done.
Qed.

(** With every attempt failing and at least one of them answered by the
    service (an error status), the call answers [False]. *)
Lemma exhausted_with_a_status_returns_false (N : Z) report_date prefix delay t resp :
  1 ≤ N →
  (2 ≤ N → sleep_accepted world delay = true) →
  (∀ k, (k < Z.to_nat N)%nat →
        is_failure (service world (requests_sent t + k)) = true) →
  last_response (Z.to_nat N) (requests_sent t) None = Some resp →
  (generate_daily_report report_date prefix N delay t).1 = Ret false.
Proof.
  intros HN Hsleep Hall Hlast.
  destruct (generate_daily_report_exhausted N report_date prefix delay t HN Hsleep Hall)
    as (seg & _ & _ & _ & Hrun).
  by rewrite Hrun, Hlast.
Qed.


(** One day's failure is not fatal to the days after it: when
    [generate_daily_report] answers for a day before the end date, the loop
    goes on with the next day. *)
Lemma day_loop_continues fuel a current_dt end_dt t b t' :
  current_dt ≤ end_dt →
  current_dt < datetime_max →
  generate_daily_report current_dt (prefix a) (max_retries a) (retry_delay a) t
    = (Ret b, t') →
  day_loop strftime DataFrame read_csv world (S fuel) a current_dt end_dt t =
  day_loop strftime DataFrame read_csv world fuel a (current_dt + 1) end_dt
    (if b then t' else t' ++ [Print (FailedToGenerate (strftime "%m/%d/%Y" current_dt))]).
Proof.
  intros Hle Hmax Hgen. simpl.
  rewrite bool_decide_eq_true_2 by done.
  rewrite bind_run, Hgen. rewrite bind_run.
  rewrite (bool_decide_eq_true_2 (current_dt < datetime_max)) by done.
  by destruct b.
Qed.

(** An exception out of [generate_daily_report] ends the loop there. *)
Lemma day_loop_propagates fuel a current_dt end_dt t e t' :
  current_dt ≤ end_dt →
  generate_daily_report current_dt (prefix a) (max_retries a) (retry_delay a) t
    = (Raise e, t') →
  day_loop strftime DataFrame read_csv world (S fuel) a current_dt end_dt t
    = (Raise e, t').
Proof.
  intros Hle Hgen. simpl.
  rewrite bool_decide_eq_true_2 by done.
  by rewrite bind_run, Hgen.
Qed.

(** A call of [generate_daily_report] never lacks iterations for the
    loop inside. *)
Lemma generate_daily_report_total report_date prefix N delay t :
  (generate_daily_report report_date prefix N delay t).1 ≠ Raise OutOfFuel.
Proof.
  unfold UsageReport.generate_daily_report.
  pose proof (retry_loop_total (Z.to_nat N) (strftime "%m/%d/%Y" report_date)
                N delay 0 None t ltac:(lia)) as Hloop.
  rewrite bind_run.
  destruct (retry_loop _ _ _ _ _ _ _) as [[[attempt response]|e] t1]; [|simpl in *; intros [= ->]; by apply Hloop].
  case_bool_decide.
  - destruct response as [resp|]; [|done].
    rewrite bind_ret_run. destruct (ok resp) eqn:Hok; simpl.
    + destruct (read_csv (text resp));
        [unfold to_excel; rewrite bind_run, bind_emit_run;
         unfold mret at 1, M_ret at 1;
         destruct (writable world _); by rewrite ?bind_emit_run
        |by rewrite ?bind_emit_run].
    + by rewrite ?bind_emit_run.
  - rewrite bind_ret_run.
    destruct (response ≫= λ resp, read_csv (text resp));
      [unfold to_excel; rewrite bind_run, bind_emit_run;
       unfold mret at 1, M_ret at 1;
       destruct (writable world _); by rewrite ?bind_emit_run
      |by rewrite ?bind_emit_run].
Qed.

(** The loop over the days has iterations enough with one per day of the
    range. *)
Lemma day_loop_enough_fuel fuel :
  ∀ a current_dt end_dt t,
    (Z.to_nat (end_dt - current_dt + 1) ≤ fuel)%nat →
    (day_loop strftime DataFrame read_csv world fuel a current_dt end_dt t).1
    ≠ Raise OutOfFuel.
Proof.
  induction fuel as [|fuel IH]; intros a current_dt end_dt t Hfuel; simpl.
  - by rewrite bool_decide_eq_false_2 by lia.
  - case_bool_decide as Hle; [|done].
    pose proof (generate_daily_report_total current_dt (prefix a) (max_retries a)
                  (retry_delay a) t) as Htotal.
    rewrite bind_run.
    destruct (generate_daily_report current_dt (prefix a) (max_retries a)
                (retry_delay a) t) as [[b|e] t']; [|simpl in *; intros [= ->]; by apply Htotal].
    rewrite bind_run.
    assert (∃ t'', when (negb b)
              (emit (Print (FailedToGenerate (strftime "%m/%d/%Y" current_dt)))) t'
            = (Ret (), t'')) as (t'' & ->) by (destruct b; by eexists).
    case_bool_decide; [|done]. apply IH. lia.
Qed.

(** C6. When both dates parse and the start date is strictly after the end
    date, [main] prints the error and exits with status 1; the trace of the
    run holds that one line, hence no request. *)
Theorem start_after_end_fails_fast a start_dt end_dt t :
  strptime (start_date a) = Some start_dt →
  strptime (end_date a) = Some end_dt →
  start_dt > end_dt →
  ∃ seg,
    main strptime strftime DataFrame read_csv world a t
      = (Raise (SystemExit 1), t ++ seg)
    ∧ seg = [Print StartAfterEnd]
    ∧ posts seg = []
    ∧ exit_status (main strptime strftime DataFrame read_csv world a t).1 = 1.
Proof.
  intros Hs He Hgt. unfold main. rewrite Hs, He.
  rewrite bool_decide_eq_true_2 by done.
  exists [Print StartAfterEnd]. done.
Qed.

End script.


Lemma start_after_end_fails_fast_witness :
  ∃ seg,
    main Demo.strptime Demo.strftime (list string) Demo.read_csv
      Demo.service_flaky (Demo.report_args "02/03/2025" "02/01/2025") []
      = (Raise (SystemExit 1), [] ++ seg)
    ∧ seg = [Print StartAfterEnd]
    ∧ posts seg = []
    ∧ exit_status
        (main Demo.strptime Demo.strftime (list string) Demo.read_csv
           Demo.service_flaky (Demo.report_args "02/03/2025" "02/01/2025") []).1 = 1.
Proof.
  apply (start_after_end_fails_fast Demo.strptime Demo.strftime (list string)
           Demo.read_csv Demo.service_flaky
           (Demo.report_args "02/03/2025" "02/01/2025") 739285 739283 []).
  - reflexivity.
  - reflexivity.
  - reflexivity.
Defined.

(** C5, at a service that is down.  With three attempts allowed and every
    attempt ending in a transport error, [response] is never bound and the
    test after the loop raises [UnboundLocalError]: the call does not
    return [False], [main] dies on the first day of a three-day range with
    status 1, and the two days after it are never requested (the three
    requests of the trace are those of the first day). *)
Theorem exhausted_transport_errors_escape :
  Demo.down_day.1 = Raise UnboundLocalError
  ∧ Demo.down_main.1 = Raise UnboundLocalError
  ∧ exit_status Demo.down_main.1 = 1
  ∧ posts Demo.down_main.2 = replicate 3 (POST "02/01/2025").
Proof. vm_compute. done. Qed.

End UsageReportFacts.

(** ** Facts about the membership manager *)

Module OrgMembersFacts.
Import OrgMembers OrgMembersPlan.

(** *** The calculus of [yields] *)

Lemma mutations_visible t : mutations (List.filter visible t) = mutations t.
Proof.
  unfold mutations. induction t as [|e t IH]; [done|].
  simpl. destruct (visible e) eqn:Hv; simpl; rewrite IH; [done|].
  by destruct e.
Qed.

Lemma mutations_app t1 t2 : mutations (t1 ++ t2) = mutations t1 ++ mutations t2.
Proof. apply List.filter_app. Qed.

Lemma failed_visible t :
  List.filter is_failed_mutation (List.filter visible t)
  = List.filter is_failed_mutation t.
Proof.
  induction t as [|e t IH]; [done|].
  simpl. destruct (visible e) eqn:Hv; simpl; rewrite IH; [done|].
  by destruct e.
Qed.

Section yields.
Context {A : Type}.
Implicit Types (c : M event A) (t vis : list event).

Lemma yields_ret (a : A) t : yields (mret a) t (Ret a) [].
Proof. exists []. by rewrite app_nil_r. Qed.

Lemma yields_raise (e : exn) t : yields (raise e : M event A) t (Raise e) [].
Proof. exists []. by rewrite app_nil_r. Qed.

Lemma yields_bind {B} (c : M event B) (f : B → M event A) t b v1 r v2 :
  yields c t (Ret b) v1 →
  (∀ seg, List.filter visible seg = v1 → yields (f b) (t ++ seg) r v2) →
  yields (c ≫= f) t r (v1 ++ v2).
Proof.
  intros (seg1 & Hc & Hv1) Hf.
  destruct (Hf seg1 Hv1) as (seg2 & Hk & Hv2).
  exists (seg1 ++ seg2). rewrite bind_run, Hc, Hk, app_assoc.
  by rewrite List.filter_app, Hv1, Hv2.
Qed.

Lemma yields_bind_raise {B} (c : M event B) (f : B → M event A) t e v :
  yields c t (Raise e) v → yields (c ≫= f) t (Raise e) v.
Proof.
  intros (seg & Hc & Hv). exists seg. by rewrite bind_run, Hc.
Qed.

Lemma yields_log {B} lvl m (f : () → M event B) t r v :
  yields (f ()) (t ++ [Log lvl m]) r v →
  yields (log lvl m ≫= f) t r (List.filter visible [Log lvl m] ++ v).
Proof.
  intros (seg & Hk & Hv). exists ([Log lvl m] ++ seg).
  unfold log. rewrite bind_emit_run, Hk, app_assoc.
  by rewrite List.filter_app, Hv.
Qed.

Lemma yields_try_ret (p : exn → bool) c (h : exn → M event A) t a v :
  yields c t (Ret a) v → yields (try_except p c h) t (Ret a) v.
Proof.
  intros (seg & Hc & Hv). exists seg. unfold try_except. by rewrite Hc.
Qed.

Lemma yields_try_caught (p : exn → bool) c (h : exn → M event A) t e v1 r v2 :
  yields c t (Raise e) v1 →
  p e = true →
  (∀ seg, List.filter visible seg = v1 → yields (h e) (t ++ seg) r v2) →
  yields (try_except p c h) t r (v1 ++ v2).
Proof.
  intros (seg1 & Hc & Hv1) Hp Hh.
  destruct (Hh seg1 Hv1) as (seg2 & Hk & Hv2).
  exists (seg1 ++ seg2). unfold try_except. rewrite Hc, Hp, Hk, app_assoc.
  by rewrite List.filter_app, Hv1, Hv2.
Qed.

Lemma yields_try_uncaught (p : exn → bool) c (h : exn → M event A) t e v :
  yields c t (Raise e) v →
  p e = false →
  yields (try_except p c h) t (Raise e) v.
Proof.
  intros (seg & Hc & Hv) Hp. exists seg. unfold try_except. by rewrite Hc, Hp.
Qed.

Lemma yields_eq c t r v r' v' :
  yields c t r v → r = r' → v = v' → yields c t r' v'.
Proof. by intros H <- <-. Qed.

End yields.

(** *** Resolution and filtering *)

Lemma elem_of_filter_visible e seg :
  e ∈ List.filter visible seg ↔ e ∈ seg ∧ visible e = true.
Proof. rewrite !list_elem_of_In. apply List.filter_In. Qed.

Lemma elem_of_found_users user_lookup usernames username user_id :
  (username, user_id) ∈ found_users user_lookup usernames
  ↔ username ∈ usernames ∧ resolved user_lookup username = Some user_id.
Proof.
  unfold found_users. rewrite list_elem_of_omap. split.
  - intros (un & Hin & Heq). destruct (resolved user_lookup un) eqn:Hr; [|done].
    simpl in Heq. by injection Heq as -> ->.
  - intros [Hin Hr]. exists username. by rewrite Hr.
Qed.

Lemma elem_of_missing_users user_lookup usernames username :
  username ∈ missing_users user_lookup usernames
  ↔ username ∈ usernames ∧ resolved user_lookup username = None.
Proof.
  unfold missing_users. rewrite !list_elem_of_In, List.filter_In.
  by rewrite bool_decide_eq_true.
Qed.

Lemma elem_of_to_change action ids found p :
  p ∈ to_change action ids found
  ↔ p ∈ found ∧ (action = "add" → p.2 ∉ ids) ∧ (action ≠ "add" → p.2 ∈ ids).
Proof.
  unfold to_change, is_member.
  case_bool_decide as Ha; rewrite !list_elem_of_In, List.filter_In.
  - rewrite negb_true_iff, bool_decide_eq_false. tauto.
  - rewrite bool_decide_eq_true. tauto.
Qed.

Lemma elem_of_already_satisfied action ids found p :
  p ∈ already_satisfied action ids found
  ↔ p ∈ found ∧ (action = "add" → p.2 ∈ ids) ∧ (action ≠ "add" → p.2 ∉ ids).
Proof.
  unfold already_satisfied, is_member.
  case_bool_decide as Ha; rewrite !list_elem_of_In, List.filter_In.
  - rewrite bool_decide_eq_true. tauto.
  - rewrite negb_true_iff, bool_decide_eq_false. tauto.
Qed.

Lemma filter_partition_length {X} (p : X → bool) (l : list X) :
  length l = (length (List.filter p l) + length (List.filter (λ x, negb (p x)) l))%nat.
Proof.
  induction l as [|x l IH]; [done|]. simpl. destruct (p x); simpl; lia.
Qed.

(** Every username with a user ID is either changed or already in the
    wanted state. *)
Lemma found_split action ids found :
  length found
  = (length (to_change action ids found)
     + length (already_satisfied action ids found))%nat.
Proof.
  unfold to_change, already_satisfied. case_bool_decide.
  - rewrite (filter_partition_length (is_member ids) found). lia.
  - apply filter_partition_length.
Qed.

(** The bulk lookup against the user list the service returned. *)
Lemma build_users_map_snoc users u :
  build_users_map (users ++ [u]) =
  match userName u, id u with
  | Some username, Some user_id =>
    if truthy (Some username) && truthy (Some user_id)
    then <[username := user_id]> (build_users_map users)
    else build_users_map users
  | _, _ => build_users_map users
  end.
Proof. unfold build_users_map. by rewrite foldl_app. Qed.

Lemma build_users_map_Some users username user_id :
  build_users_map users !! username = Some user_id →
  ∃ u, u ∈ users ∧ userName u = Some username ∧ id u = Some user_id
       ∧ truthy (Some user_id) = true.
Proof.
  induction users as [|u users IH] using rev_ind; [done|].
  rewrite build_users_map_snoc. intros Hl.
  assert (build_users_map users !! username = Some user_id →
          ∃ u0, u0 ∈ users ++ [u] ∧ userName u0 = Some username
                ∧ id u0 = Some user_id ∧ truthy (Some user_id) = true) as Hold.
  { intros H. destruct (IH H) as (u0 & Hin & ?). exists u0.
    split; [|done]. apply elem_of_app. by left. }
  destruct (userName u) as [un|] eqn:Hun; [|by apply Hold].
  destruct (id u) as [uid|] eqn:Hid; [|by apply Hold].
  destruct (truthy (Some un) && truthy (Some uid)) eqn:Ht; [|by apply Hold].
  destruct (decide (un = username)) as [->|Hne].
  - rewrite lookup_insert_eq in Hl. injection Hl as ->.
    exists u. apply andb_true_iff in Ht as [_ Ht].
    split; [|done]. apply elem_of_app. right. by apply list_elem_of_singleton.
  - rewrite lookup_insert_ne in Hl by done. by apply Hold.
Qed.

Lemma build_users_map_None users username u :
  build_users_map users !! username = None →
  u ∈ users → userName u = Some username →
  truthy (Some username) = true →
  truthy (id u) = false.
Proof.
  induction users as [|u' users IH] using rev_ind; [by intros _ ?%elem_of_nil|].
  rewrite build_users_map_snoc. intros Hl Hin Hname Hun.
  apply elem_of_app in Hin as [Hin|Hin%list_elem_of_singleton].
  - apply IH; try done.
    destruct (userName u') as [un|]; [|done].
    destruct (id u') as [uid|]; [|done].
    destruct (truthy (Some un) && truthy (Some uid)); [|done].
    destruct (decide (un = username)) as [->|Hne].
    + by rewrite lookup_insert_eq in Hl.
    + by rewrite lookup_insert_ne in Hl.
  - subst u'. rewrite Hname in Hl.
    destruct (id u) as [uid|]; [|done].
    rewrite Hun in Hl. simpl in Hl.
    destruct (negb (String.eqb uid "")) eqn:Ht; [|done].
    by rewrite lookup_insert_eq in Hl.
Qed.

Lemma filter_requested_snoc m usernames username :
  filter_requested m (usernames ++ [username])
  = <[username := m !! username]> (filter_requested m usernames).
Proof. unfold filter_requested. by rewrite foldl_app. Qed.

Lemma filter_requested_lookup m usernames username :
  username ∈ usernames →
  filter_requested m usernames !! username = Some (m !! username).
Proof.
  induction usernames as [|un usernames IH] using rev_ind; [by intros ?%elem_of_nil|].
  rewrite filter_requested_snoc. intros Hin.
  destruct (decide (un = username)) as [->|Hne].
  - by rewrite lookup_insert_eq.
  - rewrite lookup_insert_ne by done. apply IH.
    apply elem_of_app in Hin as [?|?%list_elem_of_singleton]; [done|congruence].
Qed.

(** A username of the file has a user ID exactly when the user list holds
    a record with that name and an ID. *)
Lemma resolved_Some users usernames username user_id :
  username ∈ usernames →
  resolved (filter_requested (build_users_map users) usernames) username = Some user_id →
  ∃ u, u ∈ users ∧ userName u = Some username ∧ id u = Some user_id.
Proof.
  intros Hin. unfold resolved. rewrite filter_requested_lookup by done. simpl.
  destruct (build_users_map users !! username) as [uid|] eqn:Hl; [|done].
  destruct (negb (String.eqb uid "")); [|done]. intros [= ->].
  destruct (build_users_map_Some _ _ _ Hl) as (u & ? & ? & ? & _). by exists u.
Qed.

Lemma resolved_None users usernames username u :
  username ∈ usernames →
  truthy (Some username) = true →
  resolved (filter_requested (build_users_map users) usernames) username = None →
  u ∈ users → userName u = Some username → truthy (id u) = false.
Proof.
  intros Hin Hun. unfold resolved. rewrite filter_requested_lookup by done. simpl.
  destruct (build_users_map users !! username) as [uid|] eqn:Hl.
  - destruct (build_users_map_Some _ _ _ Hl) as (_ & _ & _ & _ & Ht).
    simpl in Ht. by rewrite Ht.
  - intros _ Hu Hname. by eapply build_users_map_None.
Qed.

(** The usernames read from the file are not empty. *)
Lemma stripped_lines_truthy ls username :
  username ∈ stripped_lines ls → truthy (Some username) = true.
Proof.
  unfold stripped_lines. rewrite list_elem_of_fmap.
  intros (line & -> & Hin). apply list_elem_of_In, List.filter_In in Hin. tauto.
Qed.

(** *** The steps of a run *)

Section steps.
Variable user_limit : Z.
Variable world : env.

Lemma read_usernames_yields user_file t :
  yields (read_usernames_from_file world user_file) t
    match files world user_file with
    | NoSuchFile => Raise FileNotFoundError
    | Unreadable => Raise OSError
    | Lines ls => Ret (stripped_lines ls)
    end [].
Proof.
  unfold read_usernames_from_file.
  destruct (files world user_file);
    (eexists; split; [unfold log; rewrite bind_emit_run, bind_emit_run;
                       rewrite <- app_assoc; reflexivity | done]).
Qed.

Lemma get_organization_info_yields name t :
  yields (get_organization_info world name) t
    match organizations_api world name with
    | Some orgs => Ret (List.find (λ o, bool_decide (org_name o = Some name)) orgs)
    | None => Raise RequestException
    end [].
Proof.
  unfold yields, get_organization_info, log, try_except, get_json.
  rewrite bind_emit_run.
  destruct (organizations_api world name) as [orgs|].
  - rewrite bind_run. destruct orgs as [|o orgs].
    + eexists. split; [rewrite bind_emit_run, <- !app_assoc; reflexivity | done].
    + destruct (List.find _ (o :: orgs)) as [o'|];
        (eexists; split; [rewrite bind_emit_run, <- !app_assoc; reflexivity | done]).
  - rewrite bind_run. simpl.
    eexists. split; [rewrite bind_emit_run; unfold raise; rewrite <- !app_assoc; reflexivity | done].
Qed.

Lemma member_ids_yields o t :
  yields (member_ids o) t
    match mapM userId (members o) with
    | Some ids => Ret (list_to_set ids)
    | None => Raise KeyError
    end [].
Proof.
  unfold member_ids. destruct (mapM userId (members o)).
  - apply yields_ret.
  - apply yields_raise.
Qed.

Lemma get_users_batch_yields usernames t :
  yields (get_users_batch user_limit world usernames) t
    match users_api world user_limit with
    | Some users => Ret (filter_requested (build_users_map users) usernames)
    | None => Raise RequestException
    end [].
Proof.
  unfold yields, get_users_batch, log, try_except, get_json.
  rewrite bind_emit_run.
  destruct (users_api world user_limit) as [users|].
  - rewrite bind_run, !bind_emit_run.
    eexists. split; [unfold mret, M_ret; rewrite <- !app_assoc; reflexivity | done].
  - rewrite bind_run. simpl.
    eexists. split; [rewrite bind_emit_run; unfold raise; rewrite <- !app_assoc; reflexivity | done].
Qed.

Lemma separate_users_yields user_lookup usernames :
  ∀ found missing t,
    yields (separate_users user_lookup usernames found missing) t
      (Ret (found ++ found_users user_lookup usernames,
            missing ++ missing_users user_lookup usernames))
      ((λ username, Log WARNING (UserNotFound username))
         <$> missing_users user_lookup usernames).
Proof.
  induction usernames as [|username rest IH]; intros found missing t.
  - simpl. rewrite !app_nil_r. apply yields_ret.
  - simpl. unfold found_users, missing_users, resolved in *. simpl.
    destruct (mjoin (user_lookup !! username)) as [uid|] eqn:Hl; simpl.
    + destruct (negb (String.eqb uid "")) eqn:Ht; simpl.
      * eapply yields_eq; [apply IH | by rewrite <- app_assoc | done].
      * eapply yields_eq; [apply (yields_log WARNING (UserNotFound username)), IH
                          | by rewrite <- app_assoc | done].
    + eapply yields_eq; [apply (yields_log WARNING (UserNotFound username)), IH
                        | by rewrite <- app_assoc | done].
Qed.

Lemma add_member_yields org_id user_id role dry_run t :
  let ok := mutation_api world (length (mutations t)) in
  yields (add_member world org_id user_id role dry_run) t
    (Ret (dry_run || ok))
    (if dry_run then [] else [PUT_user org_id user_id role ok]).
Proof.
  unfold yields, add_member, try_except, send_mutation, log. destruct dry_run; simpl.
  - eexists. by rewrite bind_emit_run.
  - rewrite bind_run.
    destruct (mutation_api world (length (mutations t))); simpl.
    + by eexists.
    + eexists. rewrite bind_emit_run, <- app_assoc. done.
Qed.

Lemma remove_member_yields org_id user_id dry_run t :
  let ok := mutation_api world (length (mutations t)) in
  yields (remove_member world org_id user_id dry_run) t
    (Ret (dry_run || ok))
    (if dry_run then [] else [DELETE_user org_id user_id ok]).
Proof.
  unfold yields, remove_member, try_except, send_mutation, log. destruct dry_run; simpl.
  - eexists. by rewrite bind_emit_run.
  - rewrite bind_run.
    destruct (mutation_api world (length (mutations t))); simpl.
    + by eexists.
    + eexists. rewrite bind_emit_run, <- app_assoc. done.
Qed.

Lemma failures_exchanges_le action org_id dry_run users :
  ∀ base,
    (failures (exchanges world action org_id dry_run base users) ≤ length users)%nat.
Proof.
  induction users as [|[username uid] rest IH]; intros base; [done|].
  unfold failures in *. simpl. destruct dry_run.
  - specialize (IH base). lia.
  - specialize (IH (S base)). unfold request_for.
    case_bool_decide; destruct (mutation_api world base); simpl; lia.
Qed.

Lemma apply_changes_yields action org_id dry_run users :
  ∀ success_count failure_count t,
    let ex := exchanges world action org_id dry_run (length (mutations t)) users in
    yields (apply_changes world action org_id dry_run users success_count failure_count) t
      (Ret ((success_count + (length users - failures ex))%nat,
            (failure_count + failures ex)%nat))
      ex.
Proof.
  induction users as [|[username uid] rest IH]; intros s f t ex.
  - simpl. eapply yields_eq; [apply yields_ret | | done].
    unfold ex, failures. simpl. do 2 f_equal; lia.
  - simpl apply_changes.
    apply (yields_log INFO (ProcessingUser username)).
    assert (Hbase : length (mutations (t ++ [Log INFO (ProcessingUser username)]))
                    = length (mutations t)).
    { rewrite mutations_app. simpl. rewrite app_nil_r. done. }
    set (t1 := t ++ [Log INFO (ProcessingUser username)]) in *.
    set (ok := mutation_api world (length (mutations t))).
    pose proof (failures_exchanges_le action org_id dry_run rest) as Hle.
    assert (Hstep : ∀ (c : M event bool) (req : bool → event),
      (∀ b, visible (req b) = true ∧ is_mutation (req b) = true
            ∧ is_failed_mutation (req b) = negb b) →
      yields c t1 (Ret (dry_run || ok)) (if dry_run then [] else [req ok]) →
      yields
        (c ≫= λ success : bool,
           if success
           then when (negb dry_run) (log INFO (Succeeded action username));;
                apply_changes world action org_id dry_run rest (S s) f
           else log ERROR (Failed action username);;
                apply_changes world action org_id dry_run rest s (S f))
        t1
        (Ret ((s + (S (length rest)
                    - failures (if dry_run
                                then exchanges world action org_id dry_run (length (mutations t)) rest
                                else req ok :: exchanges world action org_id dry_run (S (length (mutations t))) rest)))%nat,
              (f + failures (if dry_run
                             then exchanges world action org_id dry_run (length (mutations t)) rest
                             else req ok :: exchanges world action org_id dry_run (S (length (mutations t))) rest))%nat))
        ((if dry_run then [] else [req ok]) ++
         (if dry_run
          then exchanges world action org_id dry_run (length (mutations t)) rest
          else exchanges world action org_id dry_run (S (length (mutations t))) rest))).
    { intros c req Hreq Hc.
      eapply yields_bind; [exact Hc|].
      intros seg Hseg.
      assert (Hm : length (mutations (t1 ++ seg))
                   = if dry_run then length (mutations t) else S (length (mutations t))).
      { rewrite mutations_app, length_app, Hbase, <- (mutations_visible seg), Hseg.
        destruct dry_run; simpl; [lia|].
        unfold mutations. simpl. destruct (Hreq ok) as (_ & -> & _). simpl. lia. }
      destruct dry_run; simpl.
      - eapply yields_eq; [apply (IH (S s) f (t1 ++ seg)) | | by rewrite Hm].
        rewrite Hm. specialize (Hle (length (mutations t))). do 2 f_equal; lia.
      - destruct (Hreq ok) as (_ & _ & Hf).
        specialize (Hle (S (length (mutations t)))).
        destruct ok eqn:Hok; simpl.
        + eapply yields_eq;
            [apply (yields_log INFO (Succeeded action username)), (IH (S s) f) | | ].
          * rewrite mutations_app. simpl. rewrite app_nil_r, Hm.
            unfold failures in *. simpl. rewrite Hf. simpl.
            do 2 f_equal; lia.
          * rewrite mutations_app. simpl. rewrite app_nil_r, Hm. done.
        + eapply yields_eq;
            [apply (yields_log ERROR (Failed action username)), (IH s (S f)) | | ].
          * rewrite mutations_app. simpl. rewrite app_nil_r, Hm.
            unfold failures in *. simpl. rewrite Hf. simpl.
            do 2 f_equal; lia.
          * rewrite mutations_app. simpl. rewrite app_nil_r, Hm. done. }
    unfold ex. simpl exchanges. fold ok.
    unfold request_for. case_bool_decide as Hact.
    + specialize (Hstep (add_member world org_id uid "Member" dry_run)
                        (PUT_user org_id uid "Member")).
      eapply yields_eq; [apply Hstep | | ].
      * by intros [].
      * pose proof (add_member_yields org_id uid "Member" dry_run t1) as Ha.
        simpl in Ha. rewrite Hbase in Ha. exact Ha.
      * by destruct dry_run.
      * by destruct dry_run.
    + specialize (Hstep (remove_member world org_id uid dry_run)
                        (DELETE_user org_id uid)).
      eapply yields_eq; [apply Hstep | | ].
      * by intros [].
      * pose proof (remove_member_yields org_id uid dry_run t1) as Ha.
        simpl in Ha. rewrite Hbase in Ha. exact Ha.
      * by destruct dry_run.
      * by destruct dry_run.
Qed.

Lemma when_log_yields (c : bool) lvl m t :
  visible (Log lvl m) = false →
  yields (when c (log lvl m)) t (Ret ()) [].
Proof.
  intros Hv. destruct c; simpl; [|apply yields_ret].
  exists [Log lvl m]. split; [done|]. simpl in *. by rewrite Hv.
Qed.

Lemma filter_by_action_yields action ids found t :
  yields (filter_by_action action ids found) t
    (Ret (to_change action ids found)) [].
Proof.
  unfold filter_by_action, to_change, is_member. case_bool_decide.
  - eapply (yields_bind _ _ _ _ [] _ []); [by apply when_log_yields|].
    intros seg _. apply yields_ret.
  - eapply (yields_bind _ _ _ _ [] _ []); [by apply when_log_yields|].
    intros seg _. apply yields_ret.
Qed.

Lemma confirm_yields dry_run skip_confirmation t :
  yields (confirm world dry_run skip_confirmation) t
    (if negb skip_confirmation && negb dry_run then
       match stdin world with
       | Answer s => Ret (accepted s)
       | EndOfInput => Raise EOFError
       | Interrupt => Raise KeyboardInterrupt
       end
     else Ret true)
    (if negb skip_confirmation && negb dry_run then [Input] else []).
Proof.
  unfold confirm, accepted.
  destruct (negb skip_confirmation && negb dry_run); [|apply yields_ret].
  unfold yields. rewrite bind_emit_run.
  destruct (stdin world) as [s| |].
  - case_bool_decide.
    + by exists [Input].
    + exists [Input; Log INFO Cancelled]. unfold log.
      by rewrite bind_emit_run, <- app_assoc.
  - by exists [Input].
  - by exists [Input].
Qed.

Lemma mutations_extend t seg v :
  List.filter visible seg = v →
  length (mutations (t ++ seg)) = (length (mutations t) + length (mutations v))%nat.
Proof.
  intros <-. by rewrite mutations_app, length_app, mutations_visible.
Qed.

Lemma mutations_reported (l : list string) :
  mutations ((λ username, Log WARNING (UserNotFound username)) <$> l) = [].
Proof. by induction l. Qed.

(** The apply phase and the summary. *)
Lemma apply_and_summarize_yields action org_id dry_run users (missing : list string) t :
  let ex := exchanges world action org_id dry_run (length (mutations t)) users in
  yields
    (apply_changes world action org_id dry_run users 0 0
     ≫= λ '(success_count, failure_count),
          log INFO (Summary (length users) success_count failure_count);;
          when (negb (bool_decide (missing = [])))
            (log INFO (UsersNotFoundCount (length missing)));;
          mret (bool_decide (failure_count = 0%nat)))
    t
    (Ret (bool_decide (failures ex = 0%nat)))
    (ex ++ [Log INFO (Summary (length users) (length users - failures ex) (failures ex))]).
Proof.
  intros ex.
  eapply yields_bind; [apply apply_changes_yields|].
  intros seg Hseg. simpl.
  apply (yields_log INFO (Summary _ _ _)).
  eapply (yields_bind _ _ _ _ [] _ []); [by apply when_log_yields|].
  intros seg' _. apply yields_ret.
Qed.

(** The steps that every run with a file, an organization and a user
    list goes through; [k] is the rest of the program. *)
Lemma resolution_yields
    (k : org → gset string → list (string * string) * list string → M event bool)
    name user_file t ls orgs o ids users r v :
  files world user_file = Lines ls →
  organizations_api world name = Some orgs →
  List.find (λ o, bool_decide (org_name o = Some name)) orgs = Some o →
  mapM userId (members o) = Some ids →
  users_api world user_limit = Some users →
  let user_lookup := filter_requested (build_users_map users) (stripped_lines ls) in
  let found := found_users user_lookup (stripped_lines ls) in
  let missing := missing_users user_lookup (stripped_lines ls) in
  (∀ t', length (mutations t') = length (mutations t) →
         yields (k o (list_to_set ids) (found, missing)) t' r v) →
  yields
    (read_usernames_from_file world user_file
     ≫= λ usernames,
          get_organization_info world name
          ≫= λ org_info,
               match org_info with
               | Some org_info =>
                 member_ids org_info
                 ≫= λ current_members,
                      get_users_batch user_limit world usernames
                      ≫= λ user_lookup,
                           separate_users user_lookup usernames [] []
                           ≫= k org_info current_members
               | None => mret false
               end)
    t r
    (((λ username, Log WARNING (UserNotFound username)) <$> missing) ++ v).
Proof.
  intros Hfile Horgs Hfind Hids Husers user_lookup found missing Hk.
  pose proof (read_usernames_yields user_file t) as Hread. rewrite Hfile in Hread.
  eapply (yields_bind _ _ _ _ [] _ _); [exact Hread|]. intros seg1 Hseg1.
  pose proof (get_organization_info_yields name (t ++ seg1)) as Horg.
  rewrite Horgs, Hfind in Horg.
  eapply (yields_bind _ _ _ _ [] _ _); [exact Horg|]. intros seg2 Hseg2.
  pose proof (member_ids_yields o ((t ++ seg1) ++ seg2)) as Hmem.
  rewrite Hids in Hmem.
  eapply (yields_bind _ _ _ _ [] _ _); [exact Hmem|]. intros seg3 Hseg3.
  pose proof (get_users_batch_yields (stripped_lines ls) (((t ++ seg1) ++ seg2) ++ seg3)) as Hget.
  rewrite Husers in Hget.
  eapply (yields_bind _ _ _ _ [] _ _); [exact Hget|]. intros seg4 Hseg4.
  eapply yields_bind; [apply separate_users_yields|]. intros seg5 Hseg5.
  apply Hk.
  rewrite (mutations_extend _ seg5 _ Hseg5), (mutations_extend _ seg4 _ Hseg4),
    (mutations_extend _ seg3 _ Hseg3), (mutations_extend _ seg2 _ Hseg2),
    (mutations_extend _ seg1 _ Hseg1), mutations_reported.
  simpl. lia.
Qed.

(** What the handler of [manage_members] makes of its body: an exception
    of class [Exception] becomes the answer [False]. *)
Lemma yields_handled (c : M event bool) t rb r v :
  yields c t rb v →
  (rb = r ∧ (∀ e, rb = Raise e → is_Exception e = false))
  ∨ (∃ e, rb = Raise e ∧ is_Exception e = true ∧ r = Ret false) →
  yields (try_except is_Exception c
            (λ e, log ERROR (UnexpectedError e);; mret false)) t r v.
Proof.
  intros Hc [[<- Hnot]|(e & -> & He & ->)].
  - destruct rb as [b|e].
    + by apply yields_try_ret.
    + apply yields_try_uncaught; [done|]. by apply Hnot.
  - rewrite <- (app_nil_r v).
    eapply yields_try_caught; [exact Hc | exact He |].
    intros seg _. exists [Log ERROR (UnexpectedError e)].
    unfold log. by rewrite bind_emit_run.
Qed.

(** The program and its yardstick agree: a run of [manage_members] ends
    with the result, and shows the events, that [expected] computes. *)
Lemma manage_members_yields action name user_file dry_run skip_confirmation t :
  yields
    (manage_members user_limit world action name user_file dry_run skip_confirmation) t
    (expected world user_limit action name user_file dry_run skip_confirmation
       (length (mutations t))).1
    (expected world user_limit action name user_file dry_run skip_confirmation
       (length (mutations t))).2.
Proof.
  unfold manage_members.
  apply (yields_log INFO (Starting action name user_file dry_run)).
  set (t0 := t ++ _).
  assert (Hb0 : length (mutations t0) = length (mutations t)).
  { unfold t0. rewrite mutations_app. simpl. by rewrite app_nil_r. }
  rewrite <- Hb0. clearbody t0. clear Hb0 t.
  unfold expected, resolve.
  pose proof (read_usernames_yields user_file t0) as Hread.
  destruct (files world user_file) as [| |ls] eqn:Hfile;
    [eapply yields_handled; [eapply yields_bind_raise, Hread | right; by eexists]..|].
  set (usernames := stripped_lines ls) in *.
  destruct (organizations_api world name) as [orgs|] eqn:Horgs.
  2: { eapply (yields_handled _ _ (Raise RequestException)); [|right; by eexists].
       eapply (yields_bind _ _ _ _ [] _ []); [exact Hread|]. intros seg1 Hseg1.
       pose proof (get_organization_info_yields name (t0 ++ seg1)) as Horg.
       rewrite Horgs in Horg. eapply yields_bind_raise, Horg. }
  destruct (List.find _ orgs) as [o|] eqn:Hfind.
  2: { eapply (yields_handled _ _ (Ret false)); [|left; by split].
       eapply (yields_bind _ _ _ _ [] _ []); [exact Hread|]. intros seg1 Hseg1.
       pose proof (get_organization_info_yields name (t0 ++ seg1)) as Horg.
       rewrite Horgs, Hfind in Horg.
       eapply (yields_bind _ _ _ _ [] _ []); [exact Horg|]. intros seg2 Hseg2.
       apply yields_ret. }
  destruct (mapM userId (members o)) as [ids|] eqn:Hids.
  2: { eapply (yields_handled _ _ (Raise KeyError)); [|right; by eexists].
       eapply (yields_bind _ _ _ _ [] _ []); [exact Hread|]. intros seg1 Hseg1.
       pose proof (get_organization_info_yields name (t0 ++ seg1)) as Horg.
       rewrite Horgs, Hfind in Horg.
       eapply (yields_bind _ _ _ _ [] _ []); [exact Horg|]. intros seg2 Hseg2.
       pose proof (member_ids_yields o ((t0 ++ seg1) ++ seg2)) as Hmem.
       rewrite Hids in Hmem. eapply yields_bind_raise, Hmem. }
  destruct (users_api world user_limit) as [users|] eqn:Husers.
  2: { eapply (yields_handled _ _ (Raise RequestException)); [|right; by eexists].
       eapply (yields_bind _ _ _ _ [] _ []); [exact Hread|]. intros seg1 Hseg1.
       pose proof (get_organization_info_yields name (t0 ++ seg1)) as Horg.
       rewrite Horgs, Hfind in Horg.
       eapply (yields_bind _ _ _ _ [] _ []); [exact Horg|]. intros seg2 Hseg2.
       pose proof (member_ids_yields o ((t0 ++ seg1) ++ seg2)) as Hmem.
       rewrite Hids in Hmem.
       eapply (yields_bind _ _ _ _ [] _ []); [exact Hmem|]. intros seg3 Hseg3.
       pose proof (get_users_batch_yields usernames (((t0 ++ seg1) ++ seg2) ++ seg3)) as Hget.
       rewrite Husers in Hget. eapply yields_bind_raise, Hget. }
  set (user_lookup := filter_requested (build_users_map users) usernames).
  cbn [the_users the_org the_members the_usernames the_lookup]. cbv zeta.
  set (found := found_users user_lookup usernames).
  set (missing := missing_users user_lookup usernames).
  set (reported := _ <$> missing).
  set (todo := to_change action (list_to_set ids) found).
  set (ex := exchanges world action (org_id o) dry_run (length (mutations t0)) todo).
  destruct (bool_decide (found = [])) eqn:Hfound.
  { (* no username has a user ID *)
    eapply (yields_handled _ _ (Ret false)); [|left; by split].
    rewrite <- (app_nil_r reported).
    eapply resolution_yields; try eassumption.
    intros t' Ht'. fold usernames user_lookup found missing.
    eapply (yields_bind _ _ _ _ [] _ []); [by apply when_log_yields|].
    intros seg _. rewrite Hfound.
    apply (yields_log ERROR NoValidUsers). apply yields_ret. }
  destruct (bool_decide (todo = [])) eqn:Htodo.
  { (* every user is in the wanted state already *)
    eapply (yields_handled _ _ (Ret true)); [|left; by split].
    rewrite <- (app_nil_r reported).
    eapply resolution_yields; try eassumption.
    intros t' Ht'. fold usernames user_lookup found missing.
    eapply (yields_bind _ _ _ _ [] _ []); [by apply when_log_yields|].
    intros seg _. rewrite Hfound.
    eapply (yields_bind _ _ _ _ [] _ []); [apply filter_by_action_yields|].
    intros seg' _. fold todo. rewrite Htodo.
    apply (yields_log INFO (NoUsersTo action)). apply yields_ret. }
  (* the runs that reach the confirmation step *)
  assert (Hconfirm : ∀ rb v,
    (∀ t, length (mutations t) = length (mutations t0) →
       yields
         (confirm world dry_run skip_confirmation
          ≫= λ proceed : bool,
               if proceed then
                 apply_changes world action (org_id o) dry_run todo 0 0
                 ≫= λ '(success_count, failure_count),
                      log INFO (Summary (length todo) success_count failure_count);;
                      when (negb (bool_decide (missing = [])))
                        (log INFO (UsersNotFoundCount (length missing)));;
                      mret (bool_decide (failure_count = 0%nat))
               else mret false) t rb v) →
    yields
      (read_usernames_from_file world user_file
       ≫= λ usernames0,
            get_organization_info world name
            ≫= λ org_info,
                 match org_info with
                 | Some org_info0 =>
                   member_ids org_info0
                   ≫= λ current_members,
                        get_users_batch user_limit world usernames0
                        ≫= λ user_lookup0,
                             separate_users user_lookup0 usernames0 [] []
                             ≫= λ '(user_ids_to_process, missing_users0),
                                  when (negb (bool_decide (missing_users0 = [])))
                                    (log WARNING (UsersNotFound missing_users0));;
                                  if bool_decide (user_ids_to_process = []) then
                                    log ERROR NoValidUsers;; mret false
                                  else
                                    filter_by_action action current_members
                                      user_ids_to_process
                                    ≫= λ users_to_process,
                                         if bool_decide (users_to_process = []) then
                                           log INFO (NoUsersTo action);; mret true
                                         else
                                           log INFO (Changes dry_run action name
                                                       users_to_process);;
                                           confirm world dry_run skip_confirmation
                                           ≫= λ proceed : bool,
                                                if proceed then
                                                  apply_changes world action
                                                    (org_id org_info0) dry_run
                                                    users_to_process 0 0
                                                  ≫= λ '(success_count, failure_count),
                                                       log INFO (Summary (length users_to_process)
                                                                   success_count failure_count);;
                                                       when (negb (bool_decide (missing_users0 = [])))
                                                         (log INFO (UsersNotFoundCount
                                                                      (length missing_users0)));;
                                                       mret (bool_decide (failure_count = 0%nat))
                                                else mret false
                 | None => mret false
                 end) t0 rb (reported ++ v)).
  { intros rb v Hk.
    eapply resolution_yields; try eassumption.
    intros t' Ht'. fold usernames user_lookup found missing.
    eapply (yields_bind _ _ _ _ [] _ _); [by apply when_log_yields|].
    intros seg1 Hseg1. rewrite Hfound.
    eapply (yields_bind _ _ _ _ [] _ _); [apply filter_by_action_yields|].
    intros seg2 Hseg2. fold todo. rewrite Htodo.
    apply (yields_log INFO (Changes dry_run action name todo)).
    apply Hk.
    rewrite mutations_app, length_app,
      (mutations_extend _ seg2 _ Hseg2), (mutations_extend _ seg1 _ Hseg1), Ht'.
    simpl. lia. }
  assert (Happly : ∀ t prompt,
    length (mutations t) = length (mutations t0) →
    length (mutations prompt) = 0%nat →
    yields (confirm world dry_run skip_confirmation) t (Ret true) prompt →
    yields
      (confirm world dry_run skip_confirmation
       ≫= λ proceed : bool,
            if proceed then
              apply_changes world action (org_id o) dry_run todo 0 0
              ≫= λ '(success_count, failure_count),
                   log INFO (Summary (length todo) success_count failure_count);;
                   when (negb (bool_decide (missing = [])))
                     (log INFO (UsersNotFoundCount (length missing)));;
                   mret (bool_decide (failure_count = 0%nat))
            else mret false) t
      (Ret (bool_decide (failures ex = 0%nat)))
      (prompt ++ ex ++
       [Log INFO (Summary (length todo) (length todo - failures ex) (failures ex))])).
  { intros t prompt Ht Hprompt Hc.
    eapply yields_bind; [exact Hc|]. intros seg Hseg.
    pose proof (apply_and_summarize_yields action (org_id o) dry_run todo missing
                  (t ++ seg)) as Ha.
    rewrite (mutations_extend _ seg _ Hseg), Ht, Hprompt, Nat.add_0_r in Ha.
    exact Ha. }
  pose proof (confirm_yields dry_run skip_confirmation) as Hc.
  destruct (negb skip_confirmation && negb dry_run) eqn:Hprompt.
  - destruct (stdin world) as [s| |] eqn:Hin.
    + destruct (accepted s) eqn:Hacc.
      * eapply (yields_handled _ _ (Ret _)); [|left; by split].
        apply Hconfirm. intros t Ht. by apply Happly.
      * eapply (yields_handled _ _ (Ret false)); [|left; by split].
        apply Hconfirm. intros t Ht.
        rewrite <- (app_nil_r [Input]).
        eapply yields_bind; [apply Hc|]. intros seg _. apply yields_ret.
    + eapply (yields_handled _ _ (Raise EOFError)); [|right; by eexists].
      apply Hconfirm. intros t Ht. apply yields_bind_raise, Hc.
    + eapply (yields_handled _ _ (Raise KeyboardInterrupt));
        [|left; split; [done|by intros e [= <-]]].
      apply Hconfirm. intros t Ht. apply yields_bind_raise, Hc.
  - eapply (yields_handled _ _ (Ret _)); [|left; by split].
    apply Hconfirm. intros t Ht. by apply (Happly t []).
Qed.

Lemma expected_shape action name user_file dry_run skip_confirmation base :
  shape world user_limit action name user_file dry_run skip_confirmation base
    (expected world user_limit action name user_file dry_run skip_confirmation base).1
    (expected world user_limit action name user_file dry_run skip_confirmation base).2.
Proof.
  unfold expected.
  destruct (resolve world user_limit name user_file) as [r|] eqn:Hres;
    [|by apply shape_fatal].
  cbv zeta. fold (reported r).
  case_bool_decide as Hfound; [by eapply shape_no_valid_users|].
  case_bool_decide as Htodo; [by eapply shape_nothing_to_do|].
  destruct (negb skip_confirmation && negb dry_run) eqn:Hprompt.
  - apply andb_true_iff in Hprompt as [Hs Hd].
    apply negb_true_iff in Hs, Hd. subst.
    destruct (stdin world) as [s| |] eqn:Hin.
    + destruct (accepted s) eqn:Hacc.
      * pose proof (shape_applied world user_limit action name user_file
                      false false base r Hres Htodo) as H.
        simpl in H. apply H. intros _. by exists s.
      * eapply shape_stopped; try done. by rewrite Hin.
    + eapply shape_stopped; try done. by rewrite Hin.
    + eapply shape_stopped; try done. by rewrite Hin.
  - pose proof (shape_applied world user_limit action name user_file
                  dry_run skip_confirmation base r Hres Htodo) as H.
    rewrite Hprompt in H. simpl in H. apply H. done.
Qed.

(** Every run has one of the five shapes. *)
Lemma manage_members_shape action name user_file dry_run skip_confirmation t r t' :
  manage_members user_limit world action name user_file dry_run skip_confirmation t
    = (r, t') →
  ∃ seg,
    t' = t ++ seg
    ∧ shape world user_limit action name user_file dry_run skip_confirmation
        (length (mutations t)) r (List.filter visible seg).
Proof.
  intros Hrun.
  destruct (manage_members_yields action name user_file dry_run skip_confirmation t)
    as (seg & Hy & Hv).
  rewrite Hrun in Hy. injection Hy as -> ->.
  exists seg. split; [done|]. rewrite Hv. apply expected_shape.
Qed.

End steps.

(** *** Reading the visible events *)

Lemma elem_of_exchanges world action org_id dry_run users e :
  ∀ base,
    e ∈ exchanges world action org_id dry_run base users →
    ∃ username user_id,
      (username, user_id) ∈ users
      ∧ (e = Log INFO (ProcessingUser username)
         ∨ (dry_run = false ∧ ∃ ok, e = request_for action org_id user_id ok)).
Proof.
  induction users as [|[un uid] rest IH]; intros base; [by intros ?%elem_of_nil|].
  simpl. rewrite elem_of_cons. intros [->|Hin].
  - exists un, uid. split; [apply elem_of_cons; by left | by left].
  - destruct dry_run.
    + destruct (IH _ Hin) as (un' & uid' & Hin' & H).
      exists un', uid'. split; [apply elem_of_cons; by right | done].
    + apply elem_of_cons in Hin as [->|Hin].
      * exists un, uid. split; [apply elem_of_cons; by left|]. right. eauto.
      * destruct (IH _ Hin) as (un' & uid' & Hin' & H).
        exists un', uid'. split; [apply elem_of_cons; by right | done].
Qed.

Lemma mutations_exchanges_dry_run world action org_id users base :
  mutations (exchanges world action org_id true base users) = [].
Proof. induction users as [|[un uid] rest IH]; [done|]. simpl. apply IH. Qed.

Lemma failures_app t1 t2 : failures (t1 ++ t2) = (failures t1 + failures t2)%nat.
Proof. unfold failures. by rewrite List.filter_app, length_app. Qed.

Lemma failures_reported r : failures (reported r) = 0%nat.
Proof.
  unfold reported, failures.
  by induction (missing_users (the_lookup r) (the_usernames r)).
Qed.

Lemma failures_visible seg : failures (List.filter visible seg) = failures seg.
Proof. unfold failures. by rewrite failed_visible. Qed.

(** When no request of the apply phase failed, every user to change got
    a request, and it succeeded. *)
Lemma mutations_exchanges_ok world action org_id users :
  ∀ base,
    failures (exchanges world action org_id false base users) = 0%nat →
    mutations (exchanges world action org_id false base users)
    = (λ p, request_for action org_id p.2 true) <$> users.
Proof.
  induction users as [|[un uid] rest IH]; intros base; [done|].
  unfold failures. simpl. unfold request_for at 1 3.
  case_bool_decide; destruct (mutation_api world base); simpl; intros Hf;
    try discriminate Hf; f_equal; by apply IH.
Qed.

Lemma mutations_reported_r r : mutations (reported r) = [].
Proof. apply mutations_reported. Qed.

(** The mutating requests of a run, by shape. *)
Lemma shape_mutations world user_limit action name user_file dry_run skip base r vis :
  shape world user_limit action name user_file dry_run skip base r vis →
  mutations vis = [] ∨
  ∃ res,
    resolve world user_limit name user_file = Some res
    ∧ dry_run = false
    ∧ mutations vis
      = mutations (exchanges world action (org_id (the_org res)) false base
                     (to_change action (the_members res)
                        (found_users (the_lookup res) (the_usernames res)))).
Proof.
  intros [Hres|res Hres Hf|res Hres Hf Ht|res r' Hres Ht Hs Hd Hstop
          |res Hres todo ex prompt Ht Hp].
  - by left.
  - left. apply mutations_reported.
  - left. apply mutations_reported.
  - left. by rewrite mutations_app, mutations_reported_r.
  - assert (mutations prompt = []) as Hprompt.
    { unfold prompt. by destruct (negb skip && negb dry_run). }
    rewrite !mutations_app, mutations_reported_r, Hprompt. simpl.
    rewrite app_nil_r. destruct dry_run.
    + left. apply mutations_exchanges_dry_run.
    + right. by exists res.
Qed.

(** *** The command line *)

(** [manage_members] answers or lets a keyboard interrupt through. *)
Lemma manage_members_result world user_limit action name user_file dry_run skip t r t' :
  manage_members user_limit world action name user_file dry_run skip t = (r, t') →
  (∃ b, r = Ret b) ∨ r = Raise KeyboardInterrupt.
Proof.
  intros (seg & -> & Hshape)%manage_members_shape.
  destruct Hshape as [| | |res r' Hres Ht Hs Hd Hstop|]; try (left; by eexists).
  unfold stopped_at_prompt in Hstop.
  destruct (stdin world); [left; exists false; tauto | left; by exists false | by right].
Qed.

(** The exit status of the script: 0 when [manage_members] answers
    [True], 1 when it answers [False], 130 after a keyboard interrupt;
    [main] itself sends no request. *)
Lemma main_run world environ_token a t r t' :
  truthy (if truthy (api_token a) then api_token a else environ_token) = true →
  manage_members_of world a t = (r, t') →
  ∃ tail,
    main world environ_token a t
    = (Raise (SystemExit match r with
                         | Ret true => 0
                         | Ret false => 1
                         | Raise _ => 130
                         end), t' ++ tail)
    ∧ mutations tail = [].
Proof.
  intros Htok Hrun. unfold main. cbv zeta. rewrite Htok. cbn [negb].
  unfold try_except. fold (manage_members_of world a).
  rewrite bind_run, Hrun.
  destruct (manage_members_result _ _ _ _ _ _ _ _ _ _ Hrun) as [[b ->]| ->].
  - exists []. rewrite app_nil_r. by destruct b.
  - exists [Stderr_cancelled]. simpl. by rewrite bind_emit_run.
Qed.

Lemma manage_members_shape_at world user_limit action name user_file dry_run skip t r seg :
  manage_members user_limit world action name user_file dry_run skip t = (r, t ++ seg) →
  shape world user_limit action name user_file dry_run skip
    (length (mutations t)) r (List.filter visible seg).
Proof.
  intros Hrun.
  destruct (manage_members_shape _ _ _ _ _ _ _ _ _ _ Hrun) as (seg' & Heq & Hshape).
  by apply app_inv_head in Heq as ->.
Qed.

Lemma resolve_Some_inv world user_limit name user_file res :
  resolve world user_limit name user_file = Some res →
  ∃ ls orgs ids,
    files world user_file = Lines ls
    ∧ organizations_api world name = Some orgs
    ∧ List.find (λ o, bool_decide (org_name o = Some name)) orgs = Some (the_org res)
    ∧ mapM userId (members (the_org res)) = Some ids
    ∧ users_api world user_limit = Some (the_users res)
    ∧ the_members res = list_to_set ids
    ∧ the_usernames res = stripped_lines ls
    ∧ the_lookup res
      = filter_requested (build_users_map (the_users res)) (stripped_lines ls).
Proof.
  unfold resolve. intros H.
  destruct (files world user_file) as [| |ls]; try done.
  destruct (organizations_api world name) as [orgs|]; [|done].
  destruct (List.find _ orgs) as [o|] eqn:Hfind; [|done].
  destruct (mapM userId (members o)) as [ids|] eqn:Hids; [|done].
  destruct (users_api world user_limit) as [users|]; [|done].
  injection H as <-. by exists ls, orgs, ids.
Qed.

Lemma mutation_visible e : is_mutation e = true → visible e = true.
Proof. by destruct e. Qed.

Lemma elem_of_mutations e t : e ∈ mutations t ↔ e ∈ t ∧ is_mutation e = true.
Proof. unfold mutations. rewrite !list_elem_of_In. apply List.filter_In. Qed.

Lemma elem_of_reported e r :
  e ∈ reported r ↔
  ∃ username, e = Log WARNING (UserNotFound username)
              ∧ username ∈ missing_users (the_lookup r) (the_usernames r).
Proof. unfold reported. apply list_elem_of_fmap. Qed.

(** Each mutating request of a run is for a username of the file that has
    a user ID and whose membership the action has to change. *)
Lemma mutation_justified world user_limit action name user_file dry_run skip t r seg e :
  manage_members user_limit world action name user_file dry_run skip t = (r, t ++ seg) →
  e ∈ seg →
  is_mutation e = true →
  dry_run = false
  ∧ ∃ res username user_id ok,
      resolve world user_limit name user_file = Some res
      ∧ username ∈ the_usernames res
      ∧ resolved (the_lookup res) username = Some user_id
      ∧ e = request_for action (org_id (the_org res)) user_id ok
      ∧ (action = "add" → user_id ∉ the_members res)
      ∧ (action ≠ "add" → user_id ∈ the_members res).
Proof.
  intros Hshape%manage_members_shape_at Hin Hmut.
  assert (e ∈ mutations (List.filter visible seg)) as He.
  { rewrite mutations_visible. by apply elem_of_mutations. }
  destruct (shape_mutations _ _ _ _ _ _ _ _ _ _ Hshape) as [Hnil|(res & Hres & -> & Hm)].
  { rewrite Hnil in He. by apply elem_of_nil in He. }
  split; [done|]. rewrite Hm in He. apply elem_of_mutations in He as [He _].
  apply elem_of_exchanges in He as (un & uid & Htodo & [->|[_ [ok ->]]]); [done|].
  apply elem_of_to_change in Htodo as (Hfound & Hadd & Hrem).
  apply elem_of_found_users in Hfound as [Hun Hr].
  by exists res, un, uid, ok.
Qed.

(** *** The remote service *)

Lemma remote_after_org_after t :
  ∀ orgs, remote_after t orgs = org_after t <$> orgs.
Proof.
  unfold remote_after, org_after.
  induction t as [|e t IH]; intros orgs; simpl.
  - by rewrite list_fmap_id.
  - rewrite IH, <- list_fmap_compose. done.
Qed.

Lemma org_after_mutations t : ∀ o, org_after t o = org_after (mutations t) o.
Proof.
  unfold org_after. induction t as [|e t IH]; intros o; [done|]. simpl.
  destruct (is_mutation e) eqn:He; simpl; [apply IH|].
  rewrite <- IH. f_equal. by destruct e.
Qed.

(** A trace without mutating requests leaves the remote state as it is. *)
Lemma remote_after_unchanged t orgs : mutations t = [] → remote_after t orgs = orgs.
Proof.
  intros Hm. rewrite remote_after_org_after.
  rewrite <- (list_fmap_id orgs) at 2. apply list_fmap_ext.
  intros _ o _. by rewrite org_after_mutations, Hm.
Qed.

(** *** The properties *)

(** C2. In every run, each mutating request is for a username of the file
    that the bulk lookup resolved to the ID of a user record of the service
    and whose membership the action has to change (the ID is outside the
    current member set when adding, inside it when removing); a username
    the lookup did not resolve is reported as not found and its turn in the
    apply loop never comes, no record of the user list giving it an ID. *)
Theorem mutations_only_for_resolved_users_needing_change
    world user_limit action name user_file dry_run skip t r seg :
  manage_members user_limit world action name user_file dry_run skip t = (r, t ++ seg) →
  (∀ e, e ∈ seg → is_mutation e = true →
     ∃ res username user_id ok u,
       resolve world user_limit name user_file = Some res
       ∧ username ∈ the_usernames res
       ∧ resolved (the_lookup res) username = Some user_id
       ∧ u ∈ the_users res ∧ userName u = Some username ∧ id u = Some user_id
       ∧ e = request_for action (org_id (the_org res)) user_id ok
       ∧ (action = "add" → user_id ∉ the_members res)
       ∧ (action ≠ "add" → user_id ∈ the_members res))
  ∧ (∀ res username,
       resolve world user_limit name user_file = Some res →
       username ∈ the_usernames res →
       resolved (the_lookup res) username = None →
       Log WARNING (UserNotFound username) ∈ seg
       ∧ (Log INFO (ProcessingUser username) ∉ seg)
       ∧ (∀ u, u ∈ the_users res → userName u = Some username →
               truthy (id u) = false)).
Proof.
  intros Hrun. split.
  - intros e Hin Hmut.
    destruct (mutation_justified _ _ _ _ _ _ _ _ _ _ _ Hrun Hin Hmut)
      as (_ & res & un & uid & ok & Hres & Hun & Hr & -> & Hadd & Hrem).
    destruct (resolve_Some_inv _ _ _ _ _ Hres)
      as (ls & orgs & ids & _ & _ & _ & _ & _ & _ & Hus & Hl).
    rewrite Hl, <- Hus in Hr.
    destruct (resolved_Some _ _ _ _ Hun Hr) as (u & Hu & Hname & Hid).
    exists res, un, uid, ok, u. rewrite Hl, <- Hus. done.
  - intros res un Hres Hun Hr.
    pose proof (manage_members_shape_at _ _ _ _ _ _ _ _ _ _ Hrun) as Hshape.
    assert (Hmiss : Log WARNING (UserNotFound un) ∈ reported res).
    { apply elem_of_reported. exists un. split; [done|].
      by apply elem_of_missing_users. }
    assert (Hnever : ∀ base dry,
      Log INFO (ProcessingUser un)
      ∉ exchanges world action (org_id (the_org res)) dry base
          (to_change action (the_members res)
             (found_users (the_lookup res) (the_usernames res)))).
    { intros base dry (un' & uid & Htodo & [[= <-]|[_ [ok Heq]]])%elem_of_exchanges.
      - apply elem_of_to_change in Htodo as [Hf _].
        apply elem_of_found_users in Hf as [_ Hf]. congruence.
      - unfold request_for in Heq. by case_bool_decide. }
    split; [|split].
    + apply (proj1 (elem_of_filter_visible _ seg)).
      destruct Hshape as [Hnone|res' Hres' Hf|res' Hres' Hf Ht
                         |res' r' Hres' Ht Hs Hd Hstop|res' Hres' todo ex prompt Ht Hp];
        try congruence;
        (assert (res' = res) as -> by congruence);
        rewrite ?elem_of_app; auto.
    + intros Hin.
      assert (Log INFO (ProcessingUser un) ∈ List.filter visible seg) as Hv
        by by apply elem_of_filter_visible.
      destruct Hshape as [Hnone|res' Hres' Hf|res' Hres' Hf Ht
                         |res' r' Hres' Ht Hs Hd Hstop|res' Hres' todo ex prompt Ht Hp];
        try congruence;
        (assert (res' = res) as -> by congruence).
      * by apply elem_of_reported in Hv as (? & ? & _).
      * by apply elem_of_reported in Hv as (? & ? & _).
      * apply elem_of_app in Hv as [Hv|Hv%list_elem_of_singleton]; [|done].
        by apply elem_of_reported in Hv as (? & ? & _).
      * rewrite !elem_of_app in Hv. destruct Hv as [Hv|[Hv|[Hv|Hv]]].
        -- by apply elem_of_reported in Hv as (? & ? & _).
        -- unfold prompt in Hv. destruct (negb skip && negb dry_run).
           ++ by apply list_elem_of_singleton in Hv.
           ++ by apply elem_of_nil in Hv.
        -- by apply Hnever in Hv.
        -- by apply list_elem_of_singleton in Hv.
    + intros u Hu Hname.
      destruct (resolve_Some_inv _ _ _ _ _ Hres)
        as (ls & orgs & ids & _ & _ & _ & _ & _ & _ & Hus & Hl).
      rewrite Hl in Hr. rewrite Hus in Hun.
      apply (resolved_None (the_users res) (stripped_lines ls) un u); try done.
      by eapply stripped_lines_truthy.
Qed.

(** C3. With the dry-run flag set, whatever the other arguments are, a run
    sends no mutating request and leaves the remote organizations as they
    are; [add_member] and [remove_member] answer [True] after logging what
    they would have done, before any PUT or DELETE. *)
Theorem dry_run_never_mutates world user_limit action name user_file skip t :
  (∃ r seg,
     manage_members user_limit world action name user_file true skip t = (r, t ++ seg)
     ∧ mutations seg = []
     ∧ ∀ orgs, remote_after seg orgs = orgs)
  ∧ (∀ org_id user_id role t,
       add_member world org_id user_id role true t
       = (Ret true, t ++ [Log INFO (WouldAdd user_id org_id role)]))
  ∧ (∀ org_id user_id t,
       remove_member world org_id user_id true t
       = (Ret true, t ++ [Log INFO (WouldRemove user_id org_id)])).
Proof.
  split; [|by split].
  destruct (manage_members user_limit world action name user_file true skip t)
    as [r t'] eqn:Hrun.
  destruct (manage_members_shape _ _ _ _ _ _ _ _ _ _ Hrun) as (seg & -> & Hshape).
  exists r, seg. split; [done|].
  assert (mutations seg = []) as Hm.
  { rewrite <- mutations_visible.
    by destruct (shape_mutations _ _ _ _ _ _ _ _ _ _ Hshape) as [?|(? & _ & ? & _)]. }
  split; [done|]. intros orgs. by apply remote_after_unchanged.
Qed.

(** C8. In every run that reaches the apply phase (its summary is in the
    log), the usernames with a user ID are those processed plus those
    already in the wanted state (members when adding, non-members when
    removing), and the number processed is the number of successes plus the
    number of failures, the latter being the failed requests of the run. *)
Theorem summary_counts_add_up
    world user_limit action name user_file dry_run skip t r seg
    processed successful failed :
  manage_members user_limit world action name user_file dry_run skip t = (r, t ++ seg) →
  Log INFO (Summary processed successful failed) ∈ seg →
  ∃ res,
    resolve world user_limit name user_file = Some res
    ∧ let found := found_users (the_lookup res) (the_usernames res) in
      processed = length (to_change action (the_members res) found)
      ∧ length found
        = (processed + length (already_satisfied action (the_members res) found))%nat
      ∧ processed = (successful + failed)%nat
      ∧ failed = failures seg.
Proof.
  intros Hrun Hin.
  pose proof (manage_members_shape_at _ _ _ _ _ _ _ _ _ _ Hrun) as Hshape.
  assert (Log INFO (Summary processed successful failed) ∈ List.filter visible seg) as Hv
    by by apply elem_of_filter_visible.
  rewrite <- (failures_visible seg).
  destruct Hshape as [Hnone|res Hres Hf|res Hres Hf Ht
                     |res r' Hres Ht Hs Hd Hstop|res Hres todo ex prompt Ht Hp].
  - by apply elem_of_nil in Hv.
  - by apply elem_of_reported in Hv as (? & ? & _).
  - by apply elem_of_reported in Hv as (? & ? & _).
  - apply elem_of_app in Hv as [Hv|Hv%list_elem_of_singleton]; [|done].
    by apply elem_of_reported in Hv as (? & ? & _).
  - exists res. split; [done|].
    assert (failures prompt = 0%nat) as Hprompt.
    { unfold prompt. by destruct (negb skip && negb dry_run). }
    pose proof (failures_exchanges_le world action (org_id (the_org res)) dry_run todo
                  (length (mutations t))) as Hle.
    fold ex in Hle.
    rewrite !failures_app, failures_reported, Hprompt.
    rewrite !elem_of_app in Hv. destruct Hv as [Hv|[Hv|[Hv|Hv]]].
    + by apply elem_of_reported in Hv as (? & ? & _).
    + unfold prompt in Hv. destruct (negb skip && negb dry_run).
      * by apply list_elem_of_singleton in Hv.
      * by apply elem_of_nil in Hv.
    + apply elem_of_exchanges in Hv as (? & ? & _ & [?|[_ [ok Heq]]]); [done|].
      unfold request_for in Heq. by case_bool_decide.
    + apply list_elem_of_singleton in Hv. injection Hv as -> -> ->.
      cbv zeta. fold todo. split; [done|]. split; [apply found_split|].
      split; [lia|]. unfold failures. simpl. lia.
Qed.

Lemma find_none_exact name orgs :
  (∀ o, o ∈ orgs → org_name o ≠ Some name) →
  List.find (λ o, bool_decide (org_name o = Some name)) orgs = None.
Proof.
  induction orgs as [|o orgs IH]; intros H; [done|]. simpl.
  rewrite bool_decide_eq_false_2 by (apply H, elem_of_cons; by left).
  apply IH. intros o' Ho'. apply H, elem_of_cons. by right.
Qed.

(** C9. The organization is looked up by exact name.  Whatever list the
    name-filtered query returns, [get_organization_info] answers an
    organization only if it is in that list and its name equals the
    requested name; when no name in the list equals it (names that merely
    contain it included), the answer is [None], [manage_members] answers
    [False] without a mutating request and the script exits with
    status 1. *)
Theorem organization_lookup_is_exact world environ_token a t orgs :
  organizations_api world (org_arg a) = Some orgs →
  truthy (if truthy (api_token a) then api_token a else environ_token) = true →
  (∀ o, (get_organization_info world (org_arg a) t).1 = Ret (Some o) →
        o ∈ orgs ∧ org_name o = Some (org_arg a))
  ∧ ((∀ o, o ∈ orgs → org_name o ≠ Some (org_arg a)) →
     (get_organization_info world (org_arg a) t).1 = Ret None
     ∧ ∃ seg,
         manage_members_of world a t = (Ret false, t ++ seg)
         ∧ mutations seg = []
         ∧ exit_status (main world environ_token a t).1 = 1).
Proof.
  intros Horgs Htok.
  destruct (get_organization_info_yields world (org_arg a) t) as (seg0 & Hget & _).
  rewrite Horgs in Hget. rewrite Hget. simpl. split.
  - intros o [= Hfind]. apply List.find_some in Hfind as [Hin Hname].
    split; [by apply list_elem_of_In|]. by apply bool_decide_eq_true in Hname.
  - intros Hnone. apply find_none_exact in Hnone. split; [by rewrite Hnone|].
    destruct (manage_members_of world a t) as [r t'] eqn:Hrun.
    pose proof Hrun as (seg & -> & Hshape)%manage_members_shape.
    assert (resolve world (user_limit a) (org_arg a) (user_file a) = None) as Hres.
    { unfold resolve. rewrite Horgs, Hnone. by destruct (files world (user_file a)). }
    assert (r = Ret false ∧ mutations seg = []) as [-> Hm].
    { rewrite <- mutations_visible.
      destruct Hshape; by try congruence. }
    exists seg. split; [done|]. split; [done|].
    destruct (main_run _ _ _ _ _ _ Htok Hrun) as (tail & -> & _). done.
Qed.

Lemma not_accepted s : lower (strip s) ∉ ["yes"; "y"] → accepted s = false.
Proof. intros H. unfold accepted. by apply bool_decide_eq_false. Qed.

(** C10. When a run shows the confirmation prompt and the answer, stripped
    and lower-cased, is neither [yes] nor [y], the run was neither a dry
    run nor one with the confirmation skipped, [manage_members] answers
    [False], no mutating request was sent, the remote organizations are as
    they were, and the script exits with status 1. *)
Theorem declined_confirmation_changes_nothing world environ_token a t r seg s :
  truthy (if truthy (api_token a) then api_token a else environ_token) = true →
  manage_members_of world a t = (r, t ++ seg) →
  Input ∈ seg →
  stdin world = Answer s →
  lower (strip s) ∉ ["yes"; "y"] →
  r = Ret false
  ∧ dry_run a = false ∧ yes a = false
  ∧ mutations seg = []
  ∧ (∀ orgs, remote_after seg orgs = orgs)
  ∧ exit_status (main world environ_token a t).1 = 1
  ∧ mutations (main world environ_token a t).2 = mutations t.
Proof.
  intros Htok Hrun Hin Hstdin Hno%not_accepted.
  pose proof (manage_members_shape_at _ _ _ _ _ _ _ _ _ _ Hrun) as Hshape.
  assert (Input ∈ List.filter visible seg) as Hv by by apply elem_of_filter_visible.
  assert (r = Ret false ∧ dry_run a = false ∧ yes a = false ∧ mutations seg = [])
    as (-> & Hdry & Hyes & Hm).
  { rewrite <- mutations_visible.
    destruct Hshape as [Hnone|res Hres Hf|res Hres Hf Ht
                       |res r' Hres Ht Hs Hd Hstop|res Hres todo ex prompt Ht Hp].
    - by apply elem_of_nil in Hv.
    - by apply elem_of_reported in Hv as (? & ? & _).
    - by apply elem_of_reported in Hv as (? & ? & _).
    - unfold stopped_at_prompt in Hstop. rewrite Hstdin in Hstop.
      destruct Hstop as [_ ->].
      by rewrite mutations_app, mutations_reported_r.
    - exfalso. rewrite !elem_of_app in Hv. destruct Hv as [Hv|[Hv|[Hv|Hv]]].
      + by apply elem_of_reported in Hv as (? & ? & _).
      + unfold prompt in Hv.
        destruct (negb (yes a) && negb (dry_run a)) eqn:Hprompt.
        * destruct (Hp eq_refl) as (s' & Hs' & Hacc). congruence.
        * by apply elem_of_nil in Hv.
      + apply elem_of_exchanges in Hv as (? & ? & _ & [?|[_ [ok Heq]]]); [done|].
        unfold request_for in Heq. by case_bool_decide.
      + by apply list_elem_of_singleton in Hv. }
  repeat split; try done.
  - intros orgs. by apply remote_after_unchanged.
  - by destruct (main_run _ _ _ _ _ _ Htok Hrun) as (tail & -> & _).
  - destruct (main_run _ _ _ _ _ _ Htok Hrun) as (tail & -> & Ht). simpl.
    by rewrite !mutations_app, Hm, Ht, !app_nil_r.
Qed.

(** *** Runs that end before the apply phase *)

Lemma not_elem_of_reported_Input r : Input ∉ reported r.
Proof. by intros (? & ? & _)%elem_of_reported. Qed.

Lemma not_elem_of_exchanges_Input world action org_id dry_run base users :
  Input ∉ exchanges world action org_id dry_run base users.
Proof.
  intros (? & ? & _ & [?|[_ [ok Heq]]])%elem_of_exchanges; [done|].
  unfold request_for in Heq. by case_bool_decide.
Qed.

(** Where the prompt can be: only in a run that stops at it or goes on
    from it, neither a dry run nor one with the confirmation skipped. *)
Lemma prompt_shown world user_limit action name user_file dry_run skip base r vis :
  shape world user_limit action name user_file dry_run skip base r vis →
  Input ∈ vis →
  dry_run = false ∧ skip = false
  ∧ (stopped_at_prompt (stdin world) r ∧ mutations vis = []
     ∨ ∃ s, stdin world = Answer s ∧ accepted s = true).
Proof.
  intros [Hres|res Hres Hf|res Hres Hf Ht|res r' Hres Ht Hs Hd Hstop
          |res Hres todo ex prompt Ht Hp] Hin.
  - by apply elem_of_nil in Hin.
  - by apply not_elem_of_reported_Input in Hin.
  - by apply not_elem_of_reported_Input in Hin.
  - split; [done|]. split; [done|]. left. split; [done|].
    by rewrite mutations_app, mutations_reported_r.
  - rewrite !elem_of_app in Hin. destruct Hin as [Hin|[Hin|[Hin|Hin]]].
    + by apply not_elem_of_reported_Input in Hin.
    + unfold prompt in Hin.
      destruct (negb skip && negb dry_run) eqn:Hprompt.
      * apply andb_true_iff in Hprompt as [?%negb_true_iff ?%negb_true_iff].
        split; [done|]. split; [done|]. right. by apply Hp.
      * by apply elem_of_nil in Hin.
    + by apply not_elem_of_exchanges_Input in Hin.
    + by apply list_elem_of_singleton in Hin.
Qed.

Lemma failures_no_mutations t : mutations t = [] → failures t = 0%nat.
Proof.
  unfold mutations, failures. induction t as [|e t IH]; [done|].
  destruct e; simpl; intros H; try discriminate H; by apply IH.
Qed.

(** The fatal preconditions: the file cannot be read, a query fails, or no
    organization of the response has the requested name. *)
Lemma resolve_None_fatal world user_limit name user_file :
  (∀ ls, files world user_file ≠ Lines ls)
  ∨ organizations_api world name = None
  ∨ (∃ orgs, organizations_api world name = Some orgs
             ∧ ∀ o, o ∈ orgs → org_name o ≠ Some name)
  ∨ users_api world user_limit = None →
  resolve world user_limit name user_file = None.
Proof.
  intros Hfatal. unfold resolve.
  destruct (files world user_file) as [| |ls] eqn:Hfile; try done.
  destruct Hfatal as [H|[H|[(orgs & Horgs & Hnone)|H]]].
  - by destruct (H ls).
  - by rewrite H.
  - by rewrite Horgs, find_none_exact.
  - rewrite H. by repeat case_match.
Qed.

Lemma found_users_nil lookup usernames :
  (∀ username, username ∈ usernames → resolved lookup username = None) →
  found_users lookup usernames = [].
Proof.
  intros Hnone. apply elem_of_nil_inv.
  intros [un uid] [Hin Hr]%elem_of_found_users.
  rewrite Hnone in Hr by done. done.
Qed.

(** A run stopped by a fatal precondition, by the lack of any username
    with a user ID, or by a declined confirmation answers [False] and has
    sent no mutating request. *)
Lemma shape_early world user_limit action name user_file dry_run skip base r vis :
  shape world user_limit action name user_file dry_run skip base r vis →
  resolve world user_limit name user_file = None
  ∨ (∃ res, resolve world user_limit name user_file = Some res
            ∧ found_users (the_lookup res) (the_usernames res) = [])
  ∨ (Input ∈ vis ∧ ∃ s, stdin world = Answer s ∧ accepted s = false) →
  r = Ret false ∧ mutations vis = [].
Proof.
  intros Hshape [Hnone|[(res & Hres & Hfound)|(Hin & s & Hstdin & Hno)]].
  - destruct Hshape; by try congruence.
  - assert (to_change action (the_members res)
              (found_users (the_lookup res) (the_usernames res)) = []) as Htodo.
    { rewrite Hfound. unfold to_change. by destruct (bool_decide (action = "add")). }
    destruct Hshape as [Hnone'|res' Hres' Hf|res' Hres' Hf Ht
                       |res' r' Hres' Ht Hs Hd Hstop|res' Hres' todo ex prompt Ht Hp];
      try congruence; (assert (res' = res) as -> by congruence); try done.
    by rewrite mutations_reported_r.
  - destruct (prompt_shown _ _ _ _ _ _ _ _ _ _ Hshape Hin)
      as (_ & _ & [[Hstop Hm]|(s' & Hs' & Hacc)]); [|congruence].
    unfold stopped_at_prompt in Hstop. rewrite Hstdin in Hstop.
    by destruct Hstop as [_ ->].
Qed.

(** C1, as the code has it.  In every run a [True] answer means that no
    mutating request failed.  In a run that reaches the apply phase (its
    summary is in the log) the failure count of the summary is the number
    of failed requests and the answer is [True] exactly when it is zero.  A
    run that ends before the apply phase because the file cannot be read,
    a query fails, the organization is not found, no username has a user
    ID or the confirmation is declined answers [False] although no request
    failed (none was sent), and the script exits with status 1.  The exit
    status of the script is 0 exactly when [manage_members] answered
    [True], and 1 whenever a mutating request failed. *)
Theorem success_iff_no_failure_once_applied world environ_token a t r seg :
  truthy (if truthy (api_token a) then api_token a else environ_token) = true →
  manage_members_of world a t = (r, t ++ seg) →
  (r = Ret true → failures seg = 0%nat)
  ∧ (∀ processed successful failed,
       Log INFO (Summary processed successful failed) ∈ seg →
       failed = failures seg ∧ (r = Ret true ↔ failed = 0%nat))
  ∧ ((∀ ls, files world (user_file a) ≠ Lines ls)
     ∨ organizations_api world (org_arg a) = None
     ∨ (∃ orgs, organizations_api world (org_arg a) = Some orgs
                ∧ ∀ o, o ∈ orgs → org_name o ≠ Some (org_arg a))
     ∨ users_api world (user_limit a) = None
     ∨ (∃ res, resolve world (user_limit a) (org_arg a) (user_file a) = Some res
               ∧ ∀ username, username ∈ the_usernames res →
                             resolved (the_lookup res) username = None)
     ∨ (Input ∈ seg
        ∧ ∃ s, stdin world = Answer s ∧ lower (strip s) ∉ ["yes"; "y"]) →
     r = Ret false ∧ failures seg = 0%nat ∧ mutations seg = []
     ∧ exit_status (main world environ_token a t).1 = 1)
  ∧ (exit_status (main world environ_token a t).1 = 0 ↔ r = Ret true)
  ∧ (failures seg ≠ 0%nat → exit_status (main world environ_token a t).1 = 1).
Proof.
  intros Htok Hrun.
  pose proof (manage_members_shape_at _ _ _ _ _ _ _ _ _ _ Hrun) as Hshape.
  assert (r = Ret true → failures seg = 0%nat) as Htrue.
  { intros ->. rewrite <- failures_visible.
    inversion Hshape as [|?|res Hres Hf Ht|res r' Hres Ht Hs Hd Hstop
                         |res Hres todo ex prompt Ht Hp Hr Hv].
    + apply failures_reported.
    + exfalso. unfold stopped_at_prompt in Hstop.
      destruct (stdin world); [by destruct Hstop | done | done].
    + assert (failures prompt = 0%nat) as Hprompt.
      { unfold prompt. by destruct (negb (yes a) && negb (dry_run a)). }
      rewrite !failures_app, failures_reported, Hprompt.
      apply bool_decide_eq_true in Hr.
      fold todo ex in Hr. rewrite Hr. done. }
  assert (exit_status (main world environ_token a t).1
          = match r with Ret true => 0 | Ret false => 1 | Raise _ => 130 end) as Hexit.
  { by destruct (main_run _ _ _ _ _ _ Htok Hrun) as (tail & -> & _). }
  split; [done|]. split; [|split; [|split]].
  - intros p s f Hin.
    assert (Log INFO (Summary p s f) ∈ List.filter visible seg) as Hv
      by by apply elem_of_filter_visible.
    rewrite <- (failures_visible seg).
    destruct Hshape as [Hnone|res Hres Hf|res Hres Hf Ht
                       |res r' Hres Ht Hs Hd Hstop|res Hres todo ex prompt Ht Hp].
    + by apply elem_of_nil in Hv.
    + by apply elem_of_reported in Hv as (? & ? & _).
    + by apply elem_of_reported in Hv as (? & ? & _).
    + apply elem_of_app in Hv as [Hv|Hv%list_elem_of_singleton]; [|done].
      by apply elem_of_reported in Hv as (? & ? & _).
    + assert (failures prompt = 0%nat) as Hprompt.
      { unfold prompt. by destruct (negb (yes a) && negb (dry_run a)). }
      rewrite !failures_app, failures_reported, Hprompt.
      rewrite !elem_of_app in Hv. destruct Hv as [Hv|[Hv|[Hv|Hv]]].
      * by apply elem_of_reported in Hv as (? & ? & _).
      * unfold prompt in Hv. destruct (negb (yes a) && negb (dry_run a)).
        -- by apply list_elem_of_singleton in Hv.
        -- by apply elem_of_nil in Hv.
      * apply elem_of_exchanges in Hv as (? & ? & _ & [?|[_ [ok Heq]]]); [done|].
        unfold request_for in Heq. by case_bool_decide.
      * apply list_elem_of_singleton in Hv. injection Hv as -> -> ->.
        split; [unfold failures; simpl; lia|].
        split.
        -- intros [= H]. by apply bool_decide_eq_true in H.
        -- intros H. f_equal. by apply bool_decide_eq_true.
  - intros Hearly.
    assert (r = Ret false ∧ mutations (List.filter visible seg) = []) as [-> Hm].
    { apply (shape_early _ _ _ _ _ _ _ _ _ _ Hshape).
      destruct Hearly as [H|[H|[H|[H|[(res & Hres & Hnone)|(Hin & s & Hs & Hno)]]]]].
      - left. apply resolve_None_fatal. by left.
      - left. apply resolve_None_fatal. right. by left.
      - left. apply resolve_None_fatal. right. right. by left.
      - left. apply resolve_None_fatal. by do 3 right.
      - right. left. exists res. split; [done|]. by apply found_users_nil.
      - right. right. split; [by apply elem_of_filter_visible|].
        exists s. split; [done|]. by apply not_accepted. }
    rewrite mutations_visible in Hm.
    split; [done|]. split; [by apply failures_no_mutations|]. split; [done|].
    by rewrite Hexit.
  - rewrite Hexit. destruct r as [[]|e]; split; try done.
  - intros Hf. rewrite Hexit. destruct r as [[]|e]; [|done|].
    + by destruct Hf, Htrue.
    + exfalso. apply Hf. rewrite <- failures_visible.
      destruct (manage_members_result _ _ _ _ _ _ _ _ _ _ Hrun) as [[b [=]]| [= ->]].
      remember (Raise KeyboardInterrupt : res bool) as r eqn:Hr in Hshape.
      destruct Hshape as [Hnone|res Hres Hfd|res Hres Hfd Ht
                         |res r' Hres Ht Hs Hd Hstop|res Hres todo ex prompt Ht Hp];
        try discriminate Hr.
      by rewrite failures_app, failures_reported.
Qed.

(** *** Running [add] twice *)

Lemma apply_mutation_name e o : org_name (apply_mutation e o) = org_name o.
Proof.
  destruct e as [?|?|? ? ? ok|? ? ok| | | |?|? ?]; try done;
    destruct ok; simpl; try done; by case_bool_decide.
Qed.

Lemma org_after_name t : ∀ o, org_name (org_after t o) = org_name o.
Proof.
  unfold org_after. induction t as [|e t IH]; intros o; [done|]. simpl.
  by rewrite IH, apply_mutation_name.
Qed.

Lemma find_fmap_invariant {X} (p : X → bool) (f : X → X) (l : list X) :
  (∀ x, p (f x) = p x) →
  List.find p (f <$> l) = f <$> List.find p l.
Proof.
  intros Hp. induction l as [|x l IH]; [done|]. simpl.
  rewrite Hp. by destruct (p x).
Qed.

(** Successful PUT requests to an organization append their users to its
    members. *)
Lemma org_after_puts users :
  ∀ o,
    members (org_after ((λ p : string * string,
                           PUT_user (org_id o) p.2 "Member" true) <$> users) o)
    = members o ++ ((λ p : string * string, {| userId := Some p.2 |}) <$> users).
Proof.
  unfold org_after.
  induction users as [|p users IH]; intros o; simpl; [by rewrite app_nil_r|].
  rewrite bool_decide_eq_true_2 by done.
  set (o' := {| org_name := org_name o; org_id := org_id o;
                members := members o ++ [{| userId := Some p.2 |}] |}).
  change (org_id o) with (org_id o'). rewrite IH. simpl.
  by rewrite <- app_assoc.
Qed.

Lemma mapM_userId_app l ids (users : list (string * string)) :
  mapM userId l = Some ids →
  mapM userId (l ++ ((λ p : string * string, {| userId := Some p.2 |}) <$> users))
  = Some (ids ++ users.*2).
Proof.
  rewrite !mapM_Some. intros H. apply Forall2_app; [done|].
  apply Forall2_fmap. by apply Forall_Forall2_diag, Forall_true.
Qed.

Lemma filter_nil_iff {X} (p : X → bool) (l : list X) :
  (∀ x, x ∈ l → p x = false) → List.filter p l = [].
Proof.
  induction l as [|x l IH]; intros H; [done|]. simpl.
  rewrite (H x) by (apply elem_of_cons; by left).
  apply IH. intros y Hy. apply H, elem_of_cons. by right.
Qed.

(** Once the users to add have been added, nothing is left to add. *)
Lemma to_change_add_after ids found :
  to_change "add" (list_to_set (ids ++ (to_change "add" (list_to_set ids) found).*2))
    found = [].
Proof.
  unfold to_change at 1. rewrite bool_decide_eq_true_2 by done.
  apply filter_nil_iff. intros p Hp. apply negb_false_iff, bool_decide_eq_true.
  rewrite list_to_set_app_L, elem_of_union, !elem_of_list_to_set.
  destruct (decide (p.2 ∈ ids)) as [?|Hnot]; [by left|]. right.
  apply list_elem_of_fmap. exists p. split; [done|].
  apply elem_of_to_change. rewrite elem_of_list_to_set. done.
Qed.

(** The second run resolves as the first did, the members apart. *)
Lemma resolve_after world user_limit name user_file res seg api2 stdin2 :
  resolve world user_limit name user_file = Some res →
  let todo := to_change "add" (the_members res)
                (found_users (the_lookup res) (the_usernames res)) in
  mutations seg
  = (λ p : string * string,
       request_for "add" (org_id (the_org res)) p.2 true) <$> todo →
  ∃ res2,
    resolve (world_after seg world api2 stdin2) user_limit name user_file = Some res2
    ∧ the_usernames res2 = the_usernames res
    ∧ the_lookup res2 = the_lookup res
    ∧ to_change "add" (the_members res2)
        (found_users (the_lookup res) (the_usernames res)) = [].
Proof.
  intros Hres todo Hm.
  destruct (resolve_Some_inv _ _ _ _ _ Hres)
    as (ls & orgs & ids & Hfile & Horgs & Hfind & Hids & Husers & Hmem & Hun & Hl).
  set (o := the_org res) in *.
  assert (members (org_after seg o)
          = members o ++ ((λ p : string * string, {| userId := Some p.2 |}) <$> todo))
    as Hmembers.
  { rewrite org_after_mutations, Hm. unfold request_for.
    rewrite bool_decide_eq_true_2 by done. apply org_after_puts. }
  unfold resolve, world_after. simpl. rewrite Hfile, Horgs. simpl.
  rewrite remote_after_org_after.
  rewrite find_fmap_invariant, Hfind by (intros x; by rewrite org_after_name). simpl.
  rewrite Hmembers, (mapM_userId_app _ ids todo Hids), Husers.
  eexists. split; [reflexivity|]. simpl.
  split; [done|]. split; [done|].
  unfold todo. rewrite Hmem. apply to_change_add_after.
Qed.

(** C7. Users already in the organization are kept out of the apply phase,
    so [add] is idempotent: in a run of [add] that is not a dry run and
    answers [True], every mutating request is a successful PUT for a user
    ID outside the member set the run fetched; and a second run of [add]
    over the same file, against the service as the first run left it,
    sends no mutating request and answers [True], whatever its flags, the
    answer at its prompt and the behaviour of the mutating endpoint. *)
Theorem add_twice_mutates_nothing
    world user_limit name user_file skip1 t1 seg1
    api2 stdin2 dry_run2 skip2 t2 :
  manage_members user_limit world "add" name user_file false skip1 t1
    = (Ret true, t1 ++ seg1) →
  (∀ e, e ∈ seg1 → is_mutation e = true →
     ∃ res user_id,
       resolve world user_limit name user_file = Some res
       ∧ e = PUT_user (org_id (the_org res)) user_id "Member" true
       ∧ user_id ∉ the_members res)
  ∧ ∃ seg2,
      manage_members user_limit (world_after seg1 world api2 stdin2)
        "add" name user_file dry_run2 skip2 t2 = (Ret true, t2 ++ seg2)
      ∧ mutations seg2 = [].
Proof.
  intros Hrun.
  pose proof (manage_members_shape_at _ _ _ _ _ _ _ _ _ _ Hrun) as Hshape.
  (* what the first run sent *)
  assert (∃ res,
    resolve world user_limit name user_file = Some res
    ∧ found_users (the_lookup res) (the_usernames res) ≠ []
    ∧ mutations seg1
      = (λ p : string * string, request_for "add" (org_id (the_org res)) p.2 true)
          <$> to_change "add" (the_members res)
                (found_users (the_lookup res) (the_usernames res)))
    as (res & Hres & Hfound & Hm).
  { rewrite <- mutations_visible.
    remember (Ret true : res bool) as r eqn:Hr in Hshape.
    destruct Hshape as [Hnone|res Hres Hf|res Hres Hf Ht
                       |res r' Hres Ht Hs Hd Hstop|res Hres todo ex prompt Ht Hp];
      try discriminate Hr.
    - exists res. split; [done|]. split; [done|].
      by rewrite Ht, mutations_reported_r.
    - exfalso. unfold stopped_at_prompt in Hstop. subst r'.
      destruct (stdin world); [by destruct Hstop | done | done].
    - exists res. split; [done|]. split.
      + intros Hnil. apply Ht. unfold todo. rewrite Hnil.
        unfold to_change. by case_bool_decide.
      + assert (mutations prompt = []) as Hprompt.
        { unfold prompt. by destruct (negb skip1 && negb false). }
        rewrite !mutations_app, mutations_reported_r, Hprompt. simpl.
        rewrite app_nil_r. apply mutations_exchanges_ok.
        injection Hr as Hr. by apply bool_decide_eq_true in Hr. }
  split.
  - intros e Hin Hmut.
    assert (e ∈ mutations seg1) as He by by apply elem_of_mutations.
    rewrite Hm in He. apply list_elem_of_fmap in He as (p & -> & Hp).
    apply elem_of_to_change in Hp as (_ & Hadd & _).
    exists res, p.2. split; [done|]. split; [|by apply Hadd].
    unfold request_for. by rewrite bool_decide_eq_true_2.
  - destruct (resolve_after _ _ _ _ _ _ api2 stdin2 Hres Hm)
      as (res2 & Hres2 & Hun2 & Hl2 & Htodo2).
    destruct (manage_members user_limit (world_after seg1 world api2 stdin2)
                "add" name user_file dry_run2 skip2 t2) as [r2 t2'] eqn:Hrun2.
    destruct (manage_members_shape _ _ _ _ _ _ _ _ _ _ Hrun2) as (seg2 & -> & Hshape2).
    exists seg2. rewrite <- (mutations_visible seg2).
    destruct Hshape2 as [Hnone|res' Hres' Hf|res' Hres' Hf Ht
                        |res' r' Hres' Ht Hs Hd Hstop|res' Hres' todo ex prompt Ht Hp];
      try congruence;
      (assert (res' = res2) as -> by congruence);
      rewrite ?Hun2, ?Hl2 in *; try done.
    + by rewrite mutations_reported_r.
    + exfalso. apply Ht. unfold todo. by rewrite Hun2, Hl2.
Qed.

(** *** The properties at concrete runs *)

(** C1 as first stated, "[True] exactly when no mutation failed", fails
    on the run in which the operator declines: no request failed (none was
    sent), and the answer is [False]. *)
Lemma success_iff_no_failure_counterexample :
  ¬ (Demo.declined_run.1 = Ret true ↔ failures Demo.declined_run.2 = 0%nat).
Proof.
  intros [_ H]. assert (failures Demo.declined_run.2 = 0%nat) as H0 by by vm_compute.
  specialize (H H0). vm_compute in H. discriminate H.
Qed.

Lemma success_iff_no_failure_once_applied_witness :
  (Demo.flaky_run.1 = Ret true → failures Demo.flaky_run.2 = 0%nat)
  ∧ (∀ processed successful failed,
       Log INFO (Summary processed successful failed) ∈ Demo.flaky_run.2 →
       failed = failures Demo.flaky_run.2
       ∧ (Demo.flaky_run.1 = Ret true ↔ failed = 0%nat))
  ∧ ((∀ ls, files Demo.flaky_world "users.txt" ≠ Lines ls)
     ∨ organizations_api Demo.flaky_world "myorg" = None
     ∨ (∃ orgs, organizations_api Demo.flaky_world "myorg" = Some orgs
                ∧ ∀ o, o ∈ orgs → org_name o ≠ Some "myorg")
     ∨ users_api Demo.flaky_world 10000 = None
     ∨ (∃ res, resolve Demo.flaky_world 10000 "myorg" "users.txt" = Some res
               ∧ ∀ username, username ∈ the_usernames res →
                             resolved (the_lookup res) username = None)
     ∨ (Input ∈ Demo.flaky_run.2
        ∧ ∃ s, stdin Demo.flaky_world = Answer s
               ∧ lower (strip s) ∉ ["yes"; "y"]) →
     Demo.flaky_run.1 = Ret false ∧ failures Demo.flaky_run.2 = 0%nat
     ∧ mutations Demo.flaky_run.2 = []
     ∧ exit_status (main Demo.flaky_world None
                      (Demo.org_args "add" "myorg" false false) []).1 = 1)
  ∧ (exit_status (main Demo.flaky_world None
                    (Demo.org_args "add" "myorg" false false) []).1 = 0
     ↔ Demo.flaky_run.1 = Ret true)
  ∧ (failures Demo.flaky_run.2 ≠ 0%nat →
     exit_status (main Demo.flaky_world None
                    (Demo.org_args "add" "myorg" false false) []).1 = 1).
Proof.
  apply (success_iff_no_failure_once_applied Demo.flaky_world None
           (Demo.org_args "add" "myorg" false false) []
           Demo.flaky_run.1 Demo.flaky_run.2).
  - reflexivity.
  - vm_compute. reflexivity.
Defined.

Lemma mutations_only_for_resolved_users_needing_change_witness :
  (∀ e, e ∈ Demo.agreed_run.2 → is_mutation e = true →
     ∃ res username user_id ok u,
       resolve Demo.agreed_world 10000 "myorg" "users.txt" = Some res
       ∧ username ∈ the_usernames res
       ∧ resolved (the_lookup res) username = Some user_id
       ∧ u ∈ the_users res ∧ userName u = Some username ∧ id u = Some user_id
       ∧ e = request_for "add" (org_id (the_org res)) user_id ok
       ∧ ("add" = "add" → user_id ∉ the_members res)
       ∧ ("add" ≠ "add" → user_id ∈ the_members res))
  ∧ (∀ res username,
       resolve Demo.agreed_world 10000 "myorg" "users.txt" = Some res →
       username ∈ the_usernames res →
       resolved (the_lookup res) username = None →
       Log WARNING (UserNotFound username) ∈ Demo.agreed_run.2
       ∧ (Log INFO (ProcessingUser username) ∉ Demo.agreed_run.2)
       ∧ (∀ u, u ∈ the_users res → userName u = Some username →
               truthy (id u) = false)).
Proof.
  apply (mutations_only_for_resolved_users_needing_change Demo.agreed_world 10000
           "add" "myorg" "users.txt" false false []
           Demo.agreed_run.1 Demo.agreed_run.2).
  vm_compute. reflexivity.
Defined.

Lemma summary_counts_add_up_witness :
  ∃ res,
    resolve Demo.flaky_world 10000 "myorg" "users.txt" = Some res
    ∧ let found := found_users (the_lookup res) (the_usernames res) in
      2%nat = length (to_change "add" (the_members res) found)
      ∧ length found
        = (2 + length (already_satisfied "add" (the_members res) found))%nat
      ∧ 2%nat = (1 + 1)%nat
      ∧ 1%nat = failures Demo.flaky_run.2.
Proof.
  apply (summary_counts_add_up Demo.flaky_world 10000 "add" "myorg" "users.txt"
           false false [] Demo.flaky_run.1 Demo.flaky_run.2 2 1 1).
  - vm_compute. reflexivity.
  - apply list_elem_of_In. vm_compute. tauto.
Defined.

Lemma organization_lookup_is_exact_witness :
  (∀ o, (get_organization_info Demo.agreed_world "myor" []).1 = Ret (Some o) →
        o ∈ Demo.orgs ∧ org_name o = Some "myor")
  ∧ ((∀ o, o ∈ Demo.orgs → org_name o ≠ Some "myor") →
     (get_organization_info Demo.agreed_world "myor" []).1 = Ret None
     ∧ ∃ seg,
         manage_members_of Demo.agreed_world (Demo.org_args "add" "myor" false true) []
         = (Ret false, [] ++ seg)
         ∧ mutations seg = []
         ∧ exit_status (main Demo.agreed_world None
                          (Demo.org_args "add" "myor" false true) []).1 = 1).
Proof.
  apply (organization_lookup_is_exact Demo.agreed_world None
           (Demo.org_args "add" "myor" false true) [] Demo.orgs).
  - reflexivity.
  - reflexivity.
Defined.

Lemma declined_confirmation_changes_nothing_witness :
  Demo.declined_run.1 = Ret false
  ∧ false = false ∧ false = false
  ∧ mutations Demo.declined_run.2 = []
  ∧ (∀ orgs, remote_after Demo.declined_run.2 orgs = orgs)
  ∧ exit_status (main Demo.declined_world None
                   (Demo.org_args "add" "myorg" false false) []).1 = 1
  ∧ mutations (main Demo.declined_world None
                 (Demo.org_args "add" "myorg" false false) []).2 = mutations [].
Proof.
  apply (declined_confirmation_changes_nothing Demo.declined_world None
           (Demo.org_args "add" "myorg" false false) []
           Demo.declined_run.1 Demo.declined_run.2 "no").
  - reflexivity.
  - vm_compute. reflexivity.
  - apply list_elem_of_In. vm_compute. tauto.
  - reflexivity.
  - intros H. apply list_elem_of_In in H. vm_compute in H.
    destruct H as [H|[H|[]]]; discriminate H.
Defined.

Lemma add_twice_mutates_nothing_witness :
  (∀ e, e ∈ Demo.agreed_run.2 → is_mutation e = true →
     ∃ res user_id,
       resolve Demo.agreed_world 10000 "myorg" "users.txt" = Some res
       ∧ e = PUT_user (org_id (the_org res)) user_id "Member" true
       ∧ user_id ∉ the_members res)
  ∧ ∃ seg2,
      manage_members 10000
        (world_after Demo.agreed_run.2 Demo.agreed_world (λ _, false) Interrupt)
        "add" "myorg" "users.txt" false false [] = (Ret true, [] ++ seg2)
      ∧ mutations seg2 = [].
Proof.
  apply (add_twice_mutates_nothing Demo.agreed_world 10000 "myorg" "users.txt"
           false [] Demo.agreed_run.2 (λ _, false) Interrupt false false []).
  vm_compute. reflexivity.
Defined.

End OrgMembersFacts.

(** ** More on the daily usage report downloader *)

Module UsageReportMore.
Import UsageReport UsageReportFacts.

Section script.
Variable strptime : string → option Z.
Variable strftime : string → Z → string.
Variable DataFrame : Type.
Variable read_csv : string → option DataFrame.
Variable world : env.

Abbreviation generate_daily_report :=
  (generate_daily_report strftime DataFrame read_csv world).
Abbreviation main := (main strptime strftime DataFrame read_csv world).
Abbreviation day_loop := (day_loop strftime DataFrame read_csv world).
Abbreviation output_file_name := (output_file_name strftime).

(** What follows the first reply with a success status, [k] failed
    attempts having come before it: the body is parsed and written, and no
    further request is sent. *)
Lemma after_first_success (N : Z) (k : nat) report_date prefix delay t resp :
  (k < Z.to_nat N)%nat →
  ((0 < k)%nat → sleep_accepted world delay = true) →
  (∀ j, (j < k)%nat → is_failure (service world (requests_sent t + j)) = true) →
  service world (requests_sent t + k) = Response resp →
  ok resp = true →
  let ds := strftime "%m/%d/%Y" report_date in
  let file := output_file_name prefix report_date in
  ∃ seg,
    posts seg = replicate (S k) (POST ds)
    ∧ sleeps seg = replicate k (Sleep delay)
    ∧ writes seg = []
    ∧ generate_daily_report report_date prefix N delay t =
      match read_csv (text resp) with
      | None => (Ret false, (t ++ seg) ++ [Print (ErrorParsingCsv ds)])
      | Some _ =>
        (Ret (writable world file),
         (t ++ seg) ++
         [ToExcel file;
          Print (if writable world file then ReportSaved ds file
                 else FailedToWrite ds)])
      end.
Proof.
  intros Hk Hsleep Hfail Hresp Hok ds file.
  destruct (retry_loop_fail_then_ok world k (Z.to_nat N) ds N delay 0 None t resp)
    as (seg & Hrun & Hp & Hs & Hw); [lia | lia | done | done | done | done |].
  exists seg. split; [done|]. split; [done|]. split; [done|].
  unfold UsageReport.generate_daily_report. fold ds.
  rewrite bind_run, Hrun.
  rewrite bool_decide_eq_false_2 by lia. rewrite bind_ret_run. simpl.
  destruct (read_csv (text resp)) as [df|].
  - unfold to_excel. rewrite bind_run, bind_emit_run.
    unfold mret at 1, M_ret at 1. fold file.
    destruct (writable world file); rewrite bind_emit_run;
      unfold mret, M_ret; by rewrite <- !app_assoc.
  - by rewrite bind_emit_run.
Qed.

(** X1. The retry loop stops at the first success: when the first [k]
    attempts fail and attempt [k + 1], still within the allowed number,
    succeeds with a body that parses and a file that can be written, the
    retry delay being one [time.sleep] accepts if a retry is needed, the
    call sends [k + 1] requests, sleeps [k] times, writes the file once and
    answers [True]; the attempts left are not used. *)
Theorem first_success_stops_retrying (N : Z) (k : nat) report_date prefix delay t resp df :
  (k < Z.to_nat N)%nat →
  ((0 < k)%nat → sleep_accepted world delay = true) →
  (∀ j, (j < k)%nat → is_failure (service world (requests_sent t + j)) = true) →
  service world (requests_sent t + k) = Response resp →
  ok resp = true →
  read_csv (text resp) = Some df →
  writable world (output_file_name prefix report_date) = true →
  ∃ seg,
    generate_daily_report report_date prefix N delay t = (Ret true, t ++ seg)
    ∧ posts seg = replicate (S k) (POST (strftime "%m/%d/%Y" report_date))
    ∧ sleeps seg = replicate k (Sleep delay)
    ∧ writes seg = [ToExcel (output_file_name prefix report_date)].
Proof.
  intros Hk Hsleep Hfail Hresp Hok Hcsv Hw.
  destruct (after_first_success N k report_date prefix delay t resp
              Hk Hsleep Hfail Hresp Hok)
    as (seg & Hp & Hs & Hwr & Hrun).
  rewrite Hcsv, Hw in Hrun. eexists. split; [rewrite Hrun, <- app_assoc; reflexivity|].
  unfold posts, sleeps, writes in *.
  rewrite !List.filter_app, Hp, Hs, Hwr. simpl. by rewrite !app_nil_r.
Qed.

(** X2. A body that does not parse is a failure of its own and is not
    retried: after the first reply with a success status whose body
    [read_csv] refuses (the failed attempts before it having been followed
    by a delay that [time.sleep] accepts), the call answers [False] without
    another request and without writing a file. *)
Theorem unparseable_body_is_not_retried (N : Z) (k : nat) report_date prefix delay t resp :
  (k < Z.to_nat N)%nat →
  ((0 < k)%nat → sleep_accepted world delay = true) →
  (∀ j, (j < k)%nat → is_failure (service world (requests_sent t + j)) = true) →
  service world (requests_sent t + k) = Response resp →
  ok resp = true →
  read_csv (text resp) = None →
  ∃ seg,
    generate_daily_report report_date prefix N delay t = (Ret false, t ++ seg)
    ∧ posts seg = replicate (S k) (POST (strftime "%m/%d/%Y" report_date))
    ∧ sleeps seg = replicate k (Sleep delay)
    ∧ writes seg = [].
Proof.
  intros Hk Hsleep Hfail Hresp Hok Hcsv.
  destruct (after_first_success N k report_date prefix delay t resp
              Hk Hsleep Hfail Hresp Hok)
    as (seg & Hp & Hs & Hwr & Hrun).
  rewrite Hcsv in Hrun. eexists. split; [rewrite Hrun, <- app_assoc; reflexivity|].
  unfold posts, sleeps, writes in *.
  rewrite !List.filter_app, Hp, Hs, Hwr. simpl. by rewrite !app_nil_r.
Qed.

(** X3. A spreadsheet that cannot be written makes the call answer
    [False]: the write is attempted once, after the successful request, and
    the request is not repeated (the failed attempts before it having been
    followed by a delay that [time.sleep] accepts). *)
Theorem write_failure_returns_false (N : Z) (k : nat) report_date prefix delay t resp df :
  (k < Z.to_nat N)%nat →
  ((0 < k)%nat → sleep_accepted world delay = true) →
  (∀ j, (j < k)%nat → is_failure (service world (requests_sent t + j)) = true) →
  service world (requests_sent t + k) = Response resp →
  ok resp = true →
  read_csv (text resp) = Some df →
  writable world (output_file_name prefix report_date) = false →
  ∃ seg,
    generate_daily_report report_date prefix N delay t = (Ret false, t ++ seg)
    ∧ posts seg = replicate (S k) (POST (strftime "%m/%d/%Y" report_date))
    ∧ writes seg = [ToExcel (output_file_name prefix report_date)].
Proof.
  intros Hk Hsleep Hfail Hresp Hok Hcsv Hw.
  destruct (after_first_success N k report_date prefix delay t resp
              Hk Hsleep Hfail Hresp Hok)
    as (seg & Hp & Hs & Hwr & Hrun).
  rewrite Hcsv, Hw in Hrun. eexists. split; [rewrite Hrun, <- app_assoc; reflexivity|].
  unfold posts, sleeps, writes in *.
  rewrite !List.filter_app, Hp, Hwr. simpl. by rewrite !app_nil_r.
Qed.

Lemma last_response_is_Some n :
  ∀ base response,
    (is_Some response
     ∨ ∃ j resp, (j < n)%nat ∧ service world (base + j) = Response resp) →
    is_Some (last_response world n base response).
Proof.
  induction n as [|n IH]; intros base response H; simpl.
  - destruct H as [?|(j & ? & ? & _)]; [done|lia].
  - apply IH. destruct H as [Hr|(j & resp & Hj & Hresp)].
    + left. by destruct (service world base).
    + destruct j as [|j].
      * left. replace (base + 0)%nat with base in Hresp by lia. by rewrite Hresp.
      * right. exists j, resp. split; [lia|].
        by replace (S base + j)%nat with (base + S j)%nat by lia.
Qed.

(** X4. When each of the [N] allowed attempts fails and at least one of
    them was answered by the service (with an error status), the retry
    delay being one [time.sleep] accepts if a retry is needed, the call
    gives up after exactly [N] requests and [N - 1] sleeps, writes nothing
    and answers [False]. *)
Theorem exhausted_retries_report_failure (N : Z) report_date prefix delay t j resp :
  1 ≤ N →
  (2 ≤ N → sleep_accepted world delay = true) →
  (∀ k, (k < Z.to_nat N)%nat →
        is_failure (service world (requests_sent t + k)) = true) →
  (j < Z.to_nat N)%nat →
  service world (requests_sent t + j) = Response resp →
  ∃ seg,
    generate_daily_report report_date prefix N delay t = (Ret false, t ++ seg)
    ∧ posts seg = replicate (Z.to_nat N) (POST (strftime "%m/%d/%Y" report_date))
    ∧ sleeps seg = replicate (Z.to_nat N - 1) (Sleep delay)
    ∧ writes seg = [].
Proof.
  intros HN Hsleep Hall Hj Hresp.
  destruct (generate_daily_report_exhausted strftime DataFrame read_csv world
              N report_date prefix delay t HN Hsleep Hall)
    as (seg & Hp & Hs & Hw & Hrun).
  destruct (last_response_is_Some (Z.to_nat N) (requests_sent t) None) as [r Hr].
  { right. by exists j, resp. }
  rewrite Hr in Hrun. eexists. split; [rewrite Hrun, <- app_assoc; reflexivity|].
  unfold posts, sleeps, writes in *.
  rewrite !List.filter_app, Hp, Hs, Hw. simpl. by rewrite !app_nil_r.
Qed.

(** X5. With no attempt allowed the service is never contacted: for
    [max_retries = 0] the test after the loop meets the unbound [response]
    and the call ends in [UnboundLocalError]; for a negative value the
    unbound [response] is met in the parsing step, whose handler turns it
    into the answer [False]. *)
Theorem no_attempt_allowed (N : Z) report_date prefix delay t :
  N ≤ 0 →
  ∃ seg,
    generate_daily_report report_date prefix N delay t
    = (if bool_decide (N = 0) then Raise UnboundLocalError else Ret false, t ++ seg)
    ∧ posts seg = [] ∧ sleeps seg = [] ∧ writes seg = [].
Proof.
  intros HN. unfold UsageReport.generate_daily_report.
  replace (Z.to_nat N) with 0%nat by lia. simpl retry_loop.
  rewrite bool_decide_eq_false_2 by lia. rewrite bind_ret_run.
  case_bool_decide as H0.
  - rewrite bool_decide_eq_true_2 by lia. exists []. by rewrite app_nil_r.
  - rewrite bool_decide_eq_false_2 by lia. rewrite bind_ret_run. simpl.
    eexists. by rewrite bind_emit_run.
Qed.

(** X6. A date that does not parse ends the script with status 1 before
    any request. *)
Theorem unparseable_dates_exit_1 a t :
  strptime (start_date a) = None ∨ strptime (end_date a) = None →
  main a t = (Raise (SystemExit 1), t ++ [Print ErrorParsingDates])
  ∧ exit_status (main a t).1 = 1.
Proof.
  intros H. unfold UsageReport.main.
  destruct (strptime (start_date a)), (strptime (end_date a)), H; try done.
Qed.

(** The loop over the days when each call of [generate_daily_report]
    answers: its events are those of the days of the range, in order. *)
Lemma day_loop_all_answer
    (fp fs fw : Z → list event) (a : args) (end_dt : Z) (n : nat) :
  end_dt < datetime_max →
  ∀ current_dt fuel t,
    Z.of_nat n = end_dt - current_dt + 1 →
    (n ≤ fuel)%nat →
    (∀ d t, current_dt ≤ d ≤ end_dt →
       ∃ b seg,
         generate_daily_report d (prefix a) (max_retries a) (retry_delay a) t
         = (Ret b, t ++ seg)
         ∧ posts seg = fp d ∧ sleeps seg = fs d ∧ writes seg = fw d) →
    ∃ seg,
      day_loop fuel a current_dt end_dt t = (Ret (), t ++ seg)
      ∧ posts seg = seqZ current_dt (Z.of_nat n) ≫= fp
      ∧ sleeps seg = seqZ current_dt (Z.of_nat n) ≫= fs
      ∧ writes seg = seqZ current_dt (Z.of_nat n) ≫= fw.
Proof.
  intros Hmax. induction n as [|n IH]; intros current_dt fuel t Hn Hfuel Hday.
  - exists []. rewrite app_nil_r. split; [|done].
    destruct fuel; simpl; by rewrite bool_decide_eq_false_2 by lia.
  - destruct fuel as [|fuel]; [lia|].
    destruct (Hday current_dt t) as (b & seg1 & Hgen & Hp1 & Hs1 & Hw1); [lia|].
    rewrite (day_loop_continues strftime DataFrame read_csv world fuel a
               current_dt end_dt t b (t ++ seg1)) by (done || lia).
    set (seg1' := if b then seg1
                  else seg1 ++ [Print (FailedToGenerate (strftime "%m/%d/%Y" current_dt))]).
    assert ((if b then t ++ seg1
             else (t ++ seg1) ++
                  [Print (FailedToGenerate (strftime "%m/%d/%Y" current_dt))])
            = t ++ seg1') as ->.
    { unfold seg1'. destruct b; [done|]. by rewrite app_assoc. }
    assert (posts seg1' = fp current_dt ∧ sleeps seg1' = fs current_dt
            ∧ writes seg1' = fw current_dt) as (Hp1' & Hs1' & Hw1').
    { unfold seg1', posts, sleeps, writes in *. destruct b; [done|].
      rewrite !List.filter_app, Hp1, Hs1, Hw1. simpl. by rewrite !app_nil_r. }
    destruct (IH (current_dt + 1) fuel (t ++ seg1')) as (seg2 & Hrun & Hp2 & Hs2 & Hw2);
      [lia | lia | |].
    { intros d t' Hd. apply Hday. lia. }
    exists (seg1' ++ seg2). rewrite Hrun, app_assoc. split; [done|].
    rewrite (seqZ_cons current_dt (Z.of_nat (S n))) by lia.
    replace (Z.pred (Z.of_nat (S n))) with (Z.of_nat n) by lia.
    replace (Z.succ current_dt) with (current_dt + 1) by lia.
    unfold posts, sleeps, writes in *.
    rewrite !List.filter_app, Hp1', Hs1', Hw1', Hp2, Hs2, Hw2. done.
Qed.

(** A day on which the first attempt succeeds. *)
Lemma report_on_first_attempt (N : Z) report_date prefix delay t resp df :
  1 ≤ N →
  service world (requests_sent t + 0) = Response resp →
  ok resp = true →
  read_csv (text resp) = Some df →
  writable world (output_file_name prefix report_date) = true →
  ∃ seg,
    generate_daily_report report_date prefix N delay t = (Ret true, t ++ seg)
    ∧ posts seg = [POST (strftime "%m/%d/%Y" report_date)]
    ∧ sleeps seg = []
    ∧ writes seg = [ToExcel (output_file_name prefix report_date)].
Proof.
  intros HN Hresp Hok Hcsv Hw.
  destruct (after_first_success N 0 report_date prefix delay t resp)
    as (seg & Hp & Hs & Hwr & Hrun);
    [lia | intros ?; lia | intros j Hj; lia | done | done |].
  rewrite Hcsv, Hw in Hrun. eexists. split; [rewrite Hrun, <- app_assoc; reflexivity|].
  unfold posts, sleeps, writes in *.
  rewrite !List.filter_app, Hp, Hs, Hwr. simpl. by rewrite ?app_nil_r.
Qed.

(** X7. One report per calendar day of the inclusive range: when the
    service answers every request with a success status and a body that
    parses, and every file can be written, the script sends one request for
    each day from the start date to the end date, in order, never sleeps,
    writes the spreadsheet of each day, and ends with status 0. *)
Theorem one_report_per_day a start_dt end_dt t :
  strptime (start_date a) = Some start_dt →
  strptime (end_date a) = Some end_dt →
  start_dt ≤ end_dt < datetime_max →
  1 ≤ max_retries a →
  (∀ k, ∃ resp, service world k = Response resp ∧ ok resp = true
                ∧ is_Some (read_csv (text resp))) →
  (∀ file, writable world file = true) →
  ∃ seg,
    main a t = (Ret (), t ++ seg)
    ∧ exit_status (main a t).1 = 0
    ∧ posts seg
      = (λ d, POST (strftime "%m/%d/%Y" d)) <$> seqZ start_dt (end_dt - start_dt + 1)
    ∧ sleeps seg = []
    ∧ writes seg
      = (λ d, ToExcel (output_file_name (prefix a) d))
          <$> seqZ start_dt (end_dt - start_dt + 1).
Proof.
  intros Hs He Hrange HN Hservice Hwritable.
  unfold UsageReport.main. rewrite Hs, He.
  rewrite bool_decide_eq_false_2 by lia.
  destruct (day_loop_all_answer
              (λ d, [POST (strftime "%m/%d/%Y" d)]) (λ _, [])
              (λ d, [ToExcel (output_file_name (prefix a) d)])
              a end_dt (Z.to_nat (end_dt - start_dt + 1)) ltac:(lia)
              start_dt (Z.to_nat (end_dt - start_dt + 1)) t)
    as (seg & Hrun & Hp & Hsl & Hw); [lia | lia | |].
  { intros d t' Hd.
    destruct (Hservice (requests_sent t' + 0)%nat) as (resp & Hresp & Hok & [df Hcsv]).
    destruct (report_on_first_attempt (max_retries a) d (prefix a)
                (retry_delay a) t' resp df) as (seg & Hgen & ? & ? & ?);
      try done.
    by exists true, seg. }
  rewrite Z2Nat.id in Hp, Hsl, Hw by lia.
  exists seg. rewrite Hrun. split; [done|]. split; [done|].
  rewrite Hp, Hsl, Hw.
  generalize (seqZ start_dt (end_dt - start_dt + 1)). clear. intros l.
  repeat split; induction l as [|d l IH]; simpl; by rewrite ?IH.
Qed.

(** A day on which every attempt is answered with an error status. *)
Lemma report_refused_all_day (N : Z) report_date prefix delay t :
  1 ≤ N →
  (2 ≤ N → sleep_accepted world delay = true) →
  (∀ k, ∃ resp, service world k = Response resp ∧ ok resp = false) →
  ∃ seg,
    generate_daily_report report_date prefix N delay t = (Ret false, t ++ seg)
    ∧ posts seg = replicate (Z.to_nat N) (POST (strftime "%m/%d/%Y" report_date))
    ∧ sleeps seg = replicate (Z.to_nat N - 1) (Sleep delay)
    ∧ writes seg = [].
Proof.
  intros HN Hsleep Hservice.
  destruct (generate_daily_report_exhausted strftime DataFrame read_csv world
              N report_date prefix delay t HN Hsleep)
    as (seg & Hp & Hs & Hw & Hrun).
  { intros k Hk. destruct (Hservice (requests_sent t + k)%nat) as (r & -> & Hr).
    simpl. by rewrite Hr. }
  destruct (last_response_is_Some (Z.to_nat N) (requests_sent t) None) as [r Hr].
  { right. destruct (Hservice (requests_sent t + 0)%nat) as (resp & Hresp & _).
    exists 0%nat, resp. split; [lia|done]. }
  rewrite Hr in Hrun. eexists. split; [rewrite Hrun, <- app_assoc; reflexivity|].
  unfold posts, sleeps, writes in *.
  rewrite !List.filter_app, Hp, Hs, Hw. simpl. by rewrite !app_nil_r.
Qed.

(** X8. Failures are isolated per day, and the exit status does not show
    them: when the service answers every request with an error status, the
    retry delay being one [time.sleep] accepts if retries are allowed, the
    script still goes through every day of the range, spending all the
    allowed attempts on each, writes no file, and ends with status 0. *)
Theorem failed_days_do_not_stop_the_run a start_dt end_dt t :
  strptime (start_date a) = Some start_dt →
  strptime (end_date a) = Some end_dt →
  start_dt ≤ end_dt < datetime_max →
  1 ≤ max_retries a →
  (2 ≤ max_retries a → sleep_accepted world (retry_delay a) = true) →
  (∀ k, ∃ resp, service world k = Response resp ∧ ok resp = false) →
  ∃ seg,
    main a t = (Ret (), t ++ seg)
    ∧ exit_status (main a t).1 = 0
    ∧ posts seg
      = seqZ start_dt (end_dt - start_dt + 1)
        ≫= (λ d, replicate (Z.to_nat (max_retries a)) (POST (strftime "%m/%d/%Y" d)))
    ∧ writes seg = [].
Proof.
  intros Hs He Hrange HN Hsleep Hservice.
  unfold UsageReport.main. rewrite Hs, He.
  rewrite bool_decide_eq_false_2 by lia.
  destruct (day_loop_all_answer
              (λ d, replicate (Z.to_nat (max_retries a)) (POST (strftime "%m/%d/%Y" d)))
              (λ _, replicate (Z.to_nat (max_retries a) - 1) (Sleep (retry_delay a)))
              (λ _, [])
              a end_dt (Z.to_nat (end_dt - start_dt + 1)) ltac:(lia)
              start_dt (Z.to_nat (end_dt - start_dt + 1)) t)
    as (seg & Hrun & Hp & Hsl & Hw); [lia | lia | |].
  { intros d t' Hd.
    destruct (report_refused_all_day (max_retries a) d (prefix a)
                (retry_delay a) t' HN Hsleep Hservice) as (seg & Hgen & ? & ? & ?).
    by exists false, seg. }
  rewrite Z2Nat.id in Hp, Hsl, Hw by lia.
  exists seg. rewrite Hrun. split; [done|]. split; [done|].
  rewrite Hp, Hw. split; [done|].
  generalize (seqZ start_dt (end_dt - start_dt + 1)). clear. intros l.
  by induction l.
Qed.

(** *** A retry delay that [time.sleep] refuses *)

(** The first failed attempt of a call is followed by the sleep; when the
    delay is refused, the exception of [time.sleep] leaves the call. *)
Lemma refused_delay_raises (N : Z) report_date prefix delay t :
  2 ≤ N →
  is_failure (service world (requests_sent t)) = true →
  sleep_accepted world delay = false →
  ∃ e seg,
    generate_daily_report report_date prefix N delay t = (Raise e, t ++ seg)
    ∧ e ∈ [OverflowError; ValueError; OSError]
    ∧ (delay < 0 →
       e = if bool_decide (delay < - pytime_max) then OverflowError else ValueError)
    ∧ posts seg = [POST (strftime "%m/%d/%Y" report_date)]
    ∧ sleeps seg = []
    ∧ writes seg = [].
Proof.
  intros HN Hfail Hno.
  unfold UsageReport.generate_daily_report.
  set (ds := strftime "%m/%d/%Y" report_date).
  destruct (Z.to_nat N) as [|fuel] eqn:Hfuel; [lia|].
  rewrite bind_run. simpl retry_loop.
  rewrite bool_decide_eq_true_2 by lia.
  unfold post at 1. rewrite bind_run.
  destruct (service world (requests_sent t)) as [|r0] eqn:Hr;
    [|simpl in Hfail; destruct (ok r0); [done|]];
    rewrite bind_emit_run, bind_run; unfold back_off, when;
    rewrite bool_decide_eq_true_2 by lia; rewrite bind_emit_run;
    match goal with
    | |- context [sleep world delay ?t1] =>
      destruct (sleep_refused world delay t1 Hno) as (e & -> & He & Hneg)
    end;
    (exists e; eexists; split; [rewrite <- !app_assoc; reflexivity|]; by repeat split).
Qed.

(** X24. The retry delay is not validated: when [time.sleep] refuses it (a
    negative delay, or one beyond what the clock or the operating system
    takes), at least two attempts being allowed, the first failed attempt
    of the first day ends the whole run: the exception of [time.sleep]
    ([ValueError] for a negative delay, [OverflowError] for one below the
    range of the clock) escapes [generate_daily_report] and [main], the
    script dies with status 1 after one request, and no later day is
    asked for. *)
Theorem refused_retry_delay_ends_the_run a start_dt end_dt t :
  strptime (start_date a) = Some start_dt →
  strptime (end_date a) = Some end_dt →
  start_dt ≤ end_dt →
  2 ≤ max_retries a →
  sleep_accepted world (retry_delay a) = false →
  is_failure (service world (requests_sent t)) = true →
  ∃ e seg,
    main a t = (Raise e, t ++ seg)
    ∧ e ∈ [OverflowError; ValueError; OSError]
    ∧ (retry_delay a < 0 →
       e = if bool_decide (retry_delay a < - pytime_max)
           then OverflowError else ValueError)
    ∧ exit_status (main a t).1 = 1
    ∧ posts seg = [POST (strftime "%m/%d/%Y" start_dt)]
    ∧ sleeps seg = []
    ∧ writes seg = [].
Proof.
  intros Hs He Hle HN Hno Hfail.
  destruct (refused_delay_raises (max_retries a) start_dt (prefix a) (retry_delay a) t
              HN Hfail Hno) as (e & seg & Hgen & Hin & Hneg & Hp & Hsl & Hw).
  exists e, seg.
  assert (main a t = (Raise e, t ++ seg)) as Hmain.
  { unfold UsageReport.main. rewrite Hs, He.
    rewrite bool_decide_eq_false_2 by lia.
    destruct (Z.to_nat (end_dt - start_dt + 1)) as [|fuel] eqn:Hfuel; [lia|].
    by apply day_loop_propagates. }
  rewrite Hmain. repeat split; try done.
  apply list_elem_of_In in Hin. simpl in Hin.
  by destruct Hin as [<-|[<-|[<-|[]]]].
Qed.

End script.

(** *** The properties at concrete runs *)

Lemma first_success_stops_retrying_witness :
  ∃ seg,
    UsageReport.generate_daily_report Demo.strftime (list string) Demo.read_csv
      Demo.service_flaky 739283 "usage_report" 5 30 [] = (Ret true, [] ++ seg)
    ∧ posts seg = replicate 3 (POST (Demo.strftime "%m/%d/%Y" 739283))
    ∧ sleeps seg = replicate 2 (Sleep 30)
    ∧ writes seg
      = [ToExcel (UsageReport.output_file_name Demo.strftime "usage_report" 739283)].
Proof.
  apply (first_success_stops_retrying Demo.strftime (list string) Demo.read_csv
           Demo.service_flaky 5 2 739283 "usage_report" 30 []
           {| ok := true; text := "user,hours" |} ["user,hours"]).
  - vm_compute. lia.
  - intros _. reflexivity.
  - intros j Hj. destruct j as [|[|j]]; [reflexivity | reflexivity | lia].
  - reflexivity.
  - reflexivity.
  - reflexivity.
  - reflexivity.
Defined.

Lemma unparseable_body_is_not_retried_witness :
  ∃ seg,
    UsageReport.generate_daily_report Demo.strftime (list string) Demo.read_csv
      DemoMore.service_garbled 739283 "usage_report" 3 30 [] = (Ret false, [] ++ seg)
    ∧ posts seg = replicate 2 (POST (Demo.strftime "%m/%d/%Y" 739283))
    ∧ sleeps seg = replicate 1 (Sleep 30)
    ∧ writes seg = [].
Proof.
  apply (unparseable_body_is_not_retried Demo.strftime (list string) Demo.read_csv
           DemoMore.service_garbled 3 1 739283 "usage_report" 30 []
           {| ok := true; text := "" |}).
  - vm_compute. lia.
  - intros _. reflexivity.
  - intros j Hj. destruct j as [|j]; [reflexivity | lia].
  - reflexivity.
  - reflexivity.
  - reflexivity.
Defined.

Lemma write_failure_returns_false_witness :
  ∃ seg,
    UsageReport.generate_daily_report Demo.strftime (list string) Demo.read_csv
      DemoMore.read_only_disk 739283 "usage_report" 3 30 [] = (Ret false, [] ++ seg)
    ∧ posts seg = replicate 3 (POST (Demo.strftime "%m/%d/%Y" 739283))
    ∧ writes seg
      = [ToExcel (UsageReport.output_file_name Demo.strftime "usage_report" 739283)].
Proof.
  apply (write_failure_returns_false Demo.strftime (list string) Demo.read_csv
           DemoMore.read_only_disk 3 2 739283 "usage_report" 30 []
           {| ok := true; text := "user,hours" |} ["user,hours"]).
  - vm_compute. lia.
  - intros _. reflexivity.
  - intros j Hj. destruct j as [|[|j]]; [reflexivity | reflexivity | lia].
  - reflexivity.
  - reflexivity.
  - reflexivity.
  - reflexivity.
Defined.

Lemma exhausted_retries_report_failure_witness :
  ∃ seg,
    UsageReport.generate_daily_report Demo.strftime (list string) Demo.read_csv
      DemoMore.service_503 739283 "usage_report" 3 30 [] = (Ret false, [] ++ seg)
    ∧ posts seg = replicate (Z.to_nat 3) (POST (Demo.strftime "%m/%d/%Y" 739283))
    ∧ sleeps seg = replicate (Z.to_nat 3 - 1) (Sleep 30)
    ∧ writes seg = [].
Proof.
  apply (exhausted_retries_report_failure Demo.strftime (list string) Demo.read_csv
           DemoMore.service_503 3 739283 "usage_report" 30 [] 0
           {| ok := false; text := "Service Unavailable" |}).
  - lia.
  - intros _. reflexivity.
  - intros k Hk. reflexivity.
  - vm_compute. lia.
  - reflexivity.
Defined.

Lemma no_attempt_allowed_witness :
  ∃ seg,
    UsageReport.generate_daily_report Demo.strftime (list string) Demo.read_csv
      DemoMore.service_up 739283 "usage_report" 0 30 []
    = (if bool_decide (0 = 0) then Raise UnboundLocalError else Ret false, [] ++ seg)
    ∧ posts seg = [] ∧ sleeps seg = [] ∧ writes seg = [].
Proof.
  apply (no_attempt_allowed Demo.strftime (list string) Demo.read_csv
           DemoMore.service_up 0 739283 "usage_report" 30 []).
  lia.
Defined.

Lemma unparseable_dates_exit_1_witness :
  UsageReport.main Demo.strptime Demo.strftime (list string) Demo.read_csv
    DemoMore.service_up (Demo.report_args "yesterday" "02/03/2025") []
  = (Raise (SystemExit 1), [] ++ [Print ErrorParsingDates])
  ∧ exit_status
      (UsageReport.main Demo.strptime Demo.strftime (list string) Demo.read_csv
         DemoMore.service_up (Demo.report_args "yesterday" "02/03/2025") []).1 = 1.
Proof.
  apply (unparseable_dates_exit_1 Demo.strptime Demo.strftime (list string)
           Demo.read_csv DemoMore.service_up
           (Demo.report_args "yesterday" "02/03/2025") []).
  left. reflexivity.
Defined.

Lemma one_report_per_day_witness :
  ∃ seg,
    UsageReport.main Demo.strptime Demo.strftime (list string) Demo.read_csv
      DemoMore.service_up (Demo.report_args "02/01/2025" "02/03/2025") []
    = (Ret (), [] ++ seg)
    ∧ exit_status
        (UsageReport.main Demo.strptime Demo.strftime (list string) Demo.read_csv
           DemoMore.service_up (Demo.report_args "02/01/2025" "02/03/2025") []).1 = 0
    ∧ posts seg
      = (λ d, POST (Demo.strftime "%m/%d/%Y" d)) <$> seqZ 739283 (739285 - 739283 + 1)
    ∧ sleeps seg = []
    ∧ writes seg
      = (λ d, ToExcel (UsageReport.output_file_name Demo.strftime "usage_report" d))
          <$> seqZ 739283 (739285 - 739283 + 1).
Proof.
  apply (one_report_per_day Demo.strptime Demo.strftime (list string) Demo.read_csv
           DemoMore.service_up (Demo.report_args "02/01/2025" "02/03/2025")
           739283 739285 []).
  - reflexivity.
  - reflexivity.
  - unfold datetime_max. lia.
  - simpl. lia.
  - intros k. eexists. split; [reflexivity|]. split; [reflexivity|]. by eexists.
  - reflexivity.
Defined.

Lemma failed_days_do_not_stop_the_run_witness :
  ∃ seg,
    UsageReport.main Demo.strptime Demo.strftime (list string) Demo.read_csv
      DemoMore.service_503 (Demo.report_args "02/01/2025" "02/03/2025") []
    = (Ret (), [] ++ seg)
    ∧ exit_status
        (UsageReport.main Demo.strptime Demo.strftime (list string) Demo.read_csv
           DemoMore.service_503 (Demo.report_args "02/01/2025" "02/03/2025") []).1 = 0
    ∧ posts seg
      = seqZ 739283 (739285 - 739283 + 1)
        ≫= (λ d, replicate (Z.to_nat 3) (POST (Demo.strftime "%m/%d/%Y" d)))
    ∧ writes seg = [].
Proof.
  apply (failed_days_do_not_stop_the_run Demo.strptime Demo.strftime (list string)
           Demo.read_csv DemoMore.service_503
           (Demo.report_args "02/01/2025" "02/03/2025") 739283 739285 []).
  - reflexivity.
  - reflexivity.
  - unfold datetime_max. lia.
  - simpl. lia.
  - intros _. reflexivity.
  - intros k. eexists. split; reflexivity.
Defined.

Lemma refused_retry_delay_ends_the_run_witness :
  ∃ e seg,
    UsageReport.main Demo.strptime Demo.strftime (list string) Demo.read_csv
      DemoMore.service_503 (DemoMore.hasty_args "02/01/2025" "02/03/2025") []
    = (Raise e, [] ++ seg)
    ∧ e ∈ [OverflowError; ValueError; OSError]
    ∧ (-1 < 0 →
       e = if bool_decide (-1 < - pytime_max) then OverflowError else ValueError)
    ∧ exit_status
        (UsageReport.main Demo.strptime Demo.strftime (list string) Demo.read_csv
           DemoMore.service_503 (DemoMore.hasty_args "02/01/2025" "02/03/2025") []).1
      = 1
    ∧ posts seg = [POST (Demo.strftime "%m/%d/%Y" 739283)]
    ∧ sleeps seg = []
    ∧ writes seg = [].
Proof.
  apply (refused_retry_delay_ends_the_run Demo.strptime Demo.strftime (list string)
           Demo.read_csv DemoMore.service_503
           (DemoMore.hasty_args "02/01/2025" "02/03/2025") 739283 739285 []).
  - reflexivity.
  - reflexivity.
  - lia.
  - simpl. lia.
  - reflexivity.
  - reflexivity.
Defined.

End UsageReportMore.

(** ** More on the membership manager *)

Module OrgMembersMore.
Import OrgMembers OrgMembersPlan OrgMembersObs OrgMembersFacts.

(** X9. Without an API token (neither the option nor the environment
    variable gives a non-empty one) the script exits with status 1 at once:
    the only event of the run is the message on standard error, so no
    request is sent and no file is read. *)
Theorem missing_token_exits_before_any_request world environ_token a t :
  truthy (if truthy (api_token a) then api_token a else environ_token) = false →
  main world environ_token a t = (Raise (SystemExit 1), t ++ [Stderr_token_missing])
  ∧ exit_status (main world environ_token a t).1 = 1.
Proof.
  intros Htok. unfold main. cbv zeta. by rewrite Htok.
Qed.

Lemma mapM_userId_None l m :
  m ∈ l → userId m = None → mapM userId l = None.
Proof.
  intros Hin Hm. destruct (mapM userId l) as [ids|] eqn:Hl; [|done].
  assert (is_Some (mapM userId l)) as Hs by by eexists.
  apply mapM_is_Some in Hs. rewrite Forall_forall in Hs.
  specialize (Hs m Hin). simpl in Hs. rewrite Hm in Hs. by destruct Hs.
Qed.

(** X10. A fatal precondition makes the run answer [False] before
    anything is changed: when the user file is missing or unreadable, or
    the organization query fails, or a member entry of the organization has
    no [userId], or the user query fails, [manage_members] answers [False],
    no mutating request is sent, the operator is not prompted, and the
    script exits with status 1. *)
Theorem fatal_precondition_returns_false world environ_token a t :
  truthy (if truthy (api_token a) then api_token a else environ_token) = true →
  (∀ ls, files world (user_file a) ≠ Lines ls)
  ∨ organizations_api world (org_arg a) = None
  ∨ users_api world (user_limit a) = None
  ∨ (∃ orgs o m,
       organizations_api world (org_arg a) = Some orgs
       ∧ List.find (λ o, bool_decide (org_name o = Some (org_arg a))) orgs = Some o
       ∧ m ∈ members o ∧ userId m = None) →
  ∃ seg,
    manage_members_of world a t = (Ret false, t ++ seg)
    ∧ mutations seg = []
    ∧ (Input ∉ seg)
    ∧ exit_status (main world environ_token a t).1 = 1.
Proof.
  intros Htok Hfatal.
  assert (resolve world (user_limit a) (org_arg a) (user_file a) = None) as Hres.
  { unfold resolve. destruct (files world (user_file a)) as [| |ls] eqn:Hfile; try done.
    destruct Hfatal as [H|[H|[H|(orgs & o & m & Horgs & Hfind & Hm & Hid)]]].
    - by destruct (H ls).
    - by rewrite H.
    - rewrite H. by repeat case_match.
    - by rewrite Horgs, Hfind, (mapM_userId_None _ m Hm Hid). }
  destruct (manage_members_of world a t) as [r t'] eqn:Hrun.
  pose proof Hrun as (seg & -> & Hshape)%manage_members_shape.
  assert (r = Ret false ∧ List.filter visible seg = []) as [-> Hvis]
    by (destruct Hshape; by try congruence).
  exists seg. split; [done|]. split; [by rewrite <- mutations_visible, Hvis|].
  split.
  - intros Hin. assert (Input ∈ List.filter visible seg) as H
      by by apply elem_of_filter_visible.
    rewrite Hvis in H. by apply elem_of_nil in H.
  - by destruct (main_run _ _ _ _ _ _ Htok Hrun) as (tail & -> & _).
Qed.

Lemma omap_mutated_user_mutations t :
  omap mutated_user (mutations t) = omap mutated_user t.
Proof.
  unfold mutations. induction t as [|e t IH]; [done|].
  destruct e; csimpl; by rewrite IH.
Qed.

Lemma omap_mutated_user_exchanges world action org_id users :
  ∀ base,
    omap mutated_user (exchanges world action org_id false base users) = users.*2.
Proof.
  induction users as [|[un uid] rest IH]; intros base; [done|]. csimpl.
  unfold request_for. case_bool_decide; csimpl; by rewrite IH.
Qed.

Lemma length_mutations_exchanges world action org_id users :
  ∀ base,
    length (mutations (exchanges world action org_id false base users)) = length users.
Proof.
  induction users as [|[un uid] rest IH]; intros base; [done|]. simpl.
  unfold request_for at 1. case_bool_decide; simpl; by rewrite IH.
Qed.

(** What a run that logs its summary has gone through. *)
Lemma summary_logged world user_limit action name user_file dry_run skip base r vis p s f :
  shape world user_limit action name user_file dry_run skip base r vis →
  Log INFO (Summary p s f) ∈ vis →
  ∃ res,
    resolve world user_limit name user_file = Some res
    ∧ let todo := to_change action (the_members res)
                    (found_users (the_lookup res) (the_usernames res)) in
      let ex := exchanges world action (org_id (the_org res)) dry_run base todo in
      p = length todo ∧ f = failures ex ∧ s = (length todo - failures ex)%nat
      ∧ r = Ret (bool_decide (failures ex = 0%nat))
      ∧ mutations vis = mutations ex.
Proof.
  intros [Hres|res Hres Hf|res Hres Hf Ht|res r' Hres Ht Hs Hd Hstop
          |res Hres todo ex prompt Ht Hp] Hin.
  - by apply elem_of_nil in Hin.
  - by apply elem_of_reported in Hin as (? & ? & _).
  - by apply elem_of_reported in Hin as (? & ? & _).
  - apply elem_of_app in Hin as [Hin|Hin%list_elem_of_singleton]; [|done].
    by apply elem_of_reported in Hin as (? & ? & _).
  - exists res. split; [done|]. cbv zeta. fold todo ex.
    assert (mutations prompt = []) as Hprompt.
    { unfold prompt. by destruct (negb skip && negb dry_run). }
    rewrite !mutations_app, mutations_reported_r, Hprompt. simpl.
    rewrite app_nil_r.
    rewrite !elem_of_app in Hin. destruct Hin as [Hin|[Hin|[Hin|Hin]]].
    + by apply elem_of_reported in Hin as (? & ? & _).
    + unfold prompt in Hin. destruct (negb skip && negb dry_run).
      * by apply list_elem_of_singleton in Hin.
      * by apply elem_of_nil in Hin.
    + apply elem_of_exchanges in Hin as (? & ? & _ & [?|[_ [ok Heq]]]); [done|].
      unfold request_for in Heq. by case_bool_decide.
    + apply list_elem_of_singleton in Hin. by injection Hin as -> -> ->.
Qed.

(** X11. The apply phase goes on after an error: in a run that is not a
    dry run and reaches its summary, the mutating requests are one for each
    user to change, in the order of the file, whether or not earlier ones
    failed; their number is the number of users processed. *)
Theorem every_user_to_change_gets_one_request
    world user_limit action name user_file skip t r seg processed successful failed :
  manage_members user_limit world action name user_file false skip t = (r, t ++ seg) →
  Log INFO (Summary processed successful failed) ∈ seg →
  ∃ res,
    resolve world user_limit name user_file = Some res
    ∧ omap mutated_user seg
      = (to_change action (the_members res)
           (found_users (the_lookup res) (the_usernames res))).*2
    ∧ length (mutations seg) = processed.
Proof.
  intros Hshape%manage_members_shape_at Hin.
  assert (Log INFO (Summary processed successful failed) ∈ List.filter visible seg) as Hv
    by by apply elem_of_filter_visible.
  destruct (summary_logged _ _ _ _ _ _ _ _ _ _ _ _ _ Hshape Hv)
    as (res & Hres & -> & _ & _ & _ & Hm).
  exists res. split; [done|].
  rewrite mutations_visible in Hm. split.
  - by rewrite <- omap_mutated_user_mutations, Hm, omap_mutated_user_mutations,
      omap_mutated_user_exchanges.
  - by rewrite Hm, length_mutations_exchanges.
Qed.

(** X12. A keyboard interrupt at the confirmation prompt is not caught by
    [manage_members]: nothing has been changed, and the script exits with
    status 130. *)
Theorem interrupt_at_prompt_exits_130 world environ_token a t r seg :
  truthy (if truthy (api_token a) then api_token a else environ_token) = true →
  manage_members_of world a t = (r, t ++ seg) →
  Input ∈ seg →
  stdin world = Interrupt →
  r = Raise KeyboardInterrupt
  ∧ mutations seg = []
  ∧ exit_status (main world environ_token a t).1 = 130.
Proof.
  intros Htok Hrun Hin Hstdin.
  pose proof (manage_members_shape_at _ _ _ _ _ _ _ _ _ _ Hrun) as Hshape.
  assert (Input ∈ List.filter visible seg) as Hv by by apply elem_of_filter_visible.
  destruct (prompt_shown _ _ _ _ _ _ _ _ _ _ Hshape Hv)
    as (_ & _ & [[Hstop Hm]|(s & Hs & _)]); [|congruence].
  unfold stopped_at_prompt in Hstop. rewrite Hstdin in Hstop. subst r.
  split; [done|]. split; [by rewrite <- mutations_visible|].
  by destruct (main_run _ _ _ _ _ _ Htok Hrun) as (tail & -> & _).
Qed.

(** X13. When standard input is at its end at the confirmation prompt,
    the [EOFError] is caught: [manage_members] answers [False], nothing has
    been changed, and the script exits with status 1. *)
Theorem end_of_input_at_prompt_returns_false world environ_token a t r seg :
  truthy (if truthy (api_token a) then api_token a else environ_token) = true →
  manage_members_of world a t = (r, t ++ seg) →
  Input ∈ seg →
  stdin world = EndOfInput →
  r = Ret false
  ∧ mutations seg = []
  ∧ exit_status (main world environ_token a t).1 = 1.
Proof.
  intros Htok Hrun Hin Hstdin.
  pose proof (manage_members_shape_at _ _ _ _ _ _ _ _ _ _ Hrun) as Hshape.
  assert (Input ∈ List.filter visible seg) as Hv by by apply elem_of_filter_visible.
  destruct (prompt_shown _ _ _ _ _ _ _ _ _ _ Hshape Hv)
    as (_ & _ & [[Hstop Hm]|(s & Hs & _)]); [|congruence].
  unfold stopped_at_prompt in Hstop. rewrite Hstdin in Hstop. subst r.
  split; [done|]. split; [by rewrite <- mutations_visible|].
  by destruct (main_run _ _ _ _ _ _ Htok Hrun) as (tail & -> & _).
Qed.

(** X14. With the confirmation skipped, or in a dry run, the operator is
    never prompted. *)
Theorem no_prompt_when_skipped_or_dry_run
    world user_limit action name user_file dry_run skip t r seg :
  manage_members user_limit world action name user_file dry_run skip t = (r, t ++ seg) →
  skip = true ∨ dry_run = true →
  Input ∉ seg.
Proof.
  intros Hshape%manage_members_shape_at Hflag Hin.
  assert (Input ∈ List.filter visible seg) as Hv by by apply elem_of_filter_visible.
  destruct (prompt_shown _ _ _ _ _ _ _ _ _ _ Hshape Hv) as (-> & -> & _).
  by destruct Hflag.
Qed.

Lemma failures_exchanges_dry_run world action org_id users base :
  failures (exchanges world action org_id true base users) = 0%nat.
Proof.
  unfold failures. induction users as [|[un uid] rest IH]; [done|]. simpl. apply IH.
Qed.

(** X15. A dry run counts every would-be change as a success: when it
    reaches its summary, the successes are all the users processed, the
    failures are none, and the answer is [True]. *)
Theorem dry_run_counts_every_change_as_success
    world user_limit action name user_file skip t r seg processed successful failed :
  manage_members user_limit world action name user_file true skip t = (r, t ++ seg) →
  Log INFO (Summary processed successful failed) ∈ seg →
  successful = processed ∧ failed = 0%nat ∧ r = Ret true.
Proof.
  intros Hshape%manage_members_shape_at Hin.
  assert (Log INFO (Summary processed successful failed) ∈ List.filter visible seg) as Hv
    by by apply elem_of_filter_visible.
  destruct (summary_logged _ _ _ _ _ _ _ _ _ _ _ _ _ Hshape Hv)
    as (res & Hres & -> & -> & -> & -> & _).
  rewrite failures_exchanges_dry_run. split; [lia|]. done.
Qed.

(** X16. Nothing to do is a success: when some username has a user ID and
    every such user is already in the state the action asks for, the run
    answers [True] without a prompt and without a mutating request, and the
    script exits with status 0. *)
Theorem nothing_to_change_returns_true world environ_token a t res :
  truthy (if truthy (api_token a) then api_token a else environ_token) = true →
  resolve world (user_limit a) (org_arg a) (user_file a) = Some res →
  found_users (the_lookup res) (the_usernames res) ≠ [] →
  to_change (action a) (the_members res)
    (found_users (the_lookup res) (the_usernames res)) = [] →
  ∃ seg,
    manage_members_of world a t = (Ret true, t ++ seg)
    ∧ mutations seg = []
    ∧ (Input ∉ seg)
    ∧ exit_status (main world environ_token a t).1 = 0.
Proof.
  intros Htok Hres Hfound Htodo.
  destruct (manage_members_of world a t) as [r t'] eqn:Hrun.
  pose proof Hrun as (seg & -> & Hshape)%manage_members_shape.
  assert (r = Ret true ∧ List.filter visible seg = reported res) as [-> Hvis].
  { destruct Hshape as [Hnone|res' Hres' Hf|res' Hres' Hf Ht
                       |res' r' Hres' Ht Hs Hd Hstop|res' Hres' todo ex prompt Ht Hp];
      try congruence; (assert (res' = res) as -> by congruence); done. }
  exists seg. split; [done|].
  split; [by rewrite <- mutations_visible, Hvis, mutations_reported_r|].
  split.
  - intros Hin. assert (Input ∈ List.filter visible seg) as H
      by by apply elem_of_filter_visible.
    rewrite Hvis in H. by apply not_elem_of_reported_Input in H.
  - by destruct (main_run _ _ _ _ _ _ Htok Hrun) as (tail & -> & _).
Qed.

(** X17. When no username of the file has a user ID, the run answers
    [False] after reporting each of them as not found; nothing is changed,
    the operator is not prompted, and the script exits with status 1. *)
Theorem no_valid_user_returns_false world environ_token a t res :
  truthy (if truthy (api_token a) then api_token a else environ_token) = true →
  resolve world (user_limit a) (org_arg a) (user_file a) = Some res →
  (∀ username, username ∈ the_usernames res →
               resolved (the_lookup res) username = None) →
  ∃ seg,
    manage_members_of world a t = (Ret false, t ++ seg)
    ∧ (∀ username, username ∈ the_usernames res →
                   Log WARNING (UserNotFound username) ∈ seg)
    ∧ mutations seg = []
    ∧ (Input ∉ seg)
    ∧ exit_status (main world environ_token a t).1 = 1.
Proof.
  intros Htok Hres Hnone.
  assert (found_users (the_lookup res) (the_usernames res) = []) as Hfound.
  { apply elem_of_nil_inv. intros [un uid] [Hin Hr]%elem_of_found_users.
    rewrite Hnone in Hr by done. done. }
  destruct (manage_members_of world a t) as [r t'] eqn:Hrun.
  pose proof Hrun as (seg & -> & Hshape)%manage_members_shape.
  assert (r = Ret false ∧ List.filter visible seg = reported res) as [-> Hvis].
  { destruct Hshape as [Hnone'|res' Hres' Hf|res' Hres' Hf Ht
                       |res' r' Hres' Ht Hs Hd Hstop|res' Hres' todo ex prompt Ht Hp];
      try congruence; (assert (res' = res) as -> by congruence); try done.
    - destruct Ht. rewrite Hfound. unfold to_change.
      by destruct (bool_decide (action a = "add")).
    - destruct Ht. unfold todo. rewrite Hfound. unfold to_change.
      by destruct (bool_decide (action a = "add")). }
  exists seg. split; [done|]. split; [|split; [|split]].
  - intros un Hun. apply (proj1 (elem_of_filter_visible _ seg)).
    rewrite Hvis. apply elem_of_reported. exists un. split; [done|].
    apply elem_of_missing_users. split; [done|]. by apply Hnone.
  - by rewrite <- mutations_visible, Hvis, mutations_reported_r.
  - intros Hin. assert (Input ∈ List.filter visible seg) as H
      by by apply elem_of_filter_visible.
    rewrite Hvis in H. by apply not_elem_of_reported_Input in H.
  - by destruct (main_run _ _ _ _ _ _ Htok Hrun) as (tail & -> & _).
Qed.

(** *** Running [remove] twice *)

(** What a run that is not a dry run and answers [True] has sent: a
    successful request for each user to change, and nothing else. *)
Lemma successful_run_mutations world user_limit action name user_file skip t seg :
  manage_members user_limit world action name user_file false skip t
    = (Ret true, t ++ seg) →
  ∃ res,
    resolve world user_limit name user_file = Some res
    ∧ found_users (the_lookup res) (the_usernames res) ≠ []
    ∧ mutations seg
      = (λ p : string * string, request_for action (org_id (the_org res)) p.2 true)
          <$> to_change action (the_members res)
                (found_users (the_lookup res) (the_usernames res)).
Proof.
  intros Hshape%manage_members_shape_at.
  rewrite <- mutations_visible.
  remember (Ret true : res bool) as r eqn:Hr in Hshape.
  destruct Hshape as [Hnone|res Hres Hf|res Hres Hf Ht
                     |res r' Hres Ht Hs Hd Hstop|res Hres todo ex prompt Ht Hp];
    try discriminate Hr.
  - exists res. split; [done|]. split; [done|].
    by rewrite Ht, mutations_reported_r.
  - exfalso. unfold stopped_at_prompt in Hstop. subst r'.
    destruct (stdin world); [by destruct Hstop | done | done].
  - exists res. split; [done|]. split.
    + intros Hnil. apply Ht. unfold todo. rewrite Hnil.
      unfold to_change. by destruct (bool_decide (action = "add")).
    + assert (mutations prompt = []) as Hprompt.
      { unfold prompt. by destruct (negb skip && negb false). }
      rewrite !mutations_app, mutations_reported_r, Hprompt. simpl.
      rewrite app_nil_r. apply mutations_exchanges_ok.
      injection Hr as Hr. by apply bool_decide_eq_true in Hr.
Qed.

Lemma mapM_userId_filter uid l :
  ∀ ids,
    mapM userId l = Some ids →
    ∃ ids',
      mapM userId (List.filter (λ m, negb (bool_decide (userId m = Some uid))) l)
      = Some ids'
      ∧ ∀ x, x ∈ ids' ↔ x ∈ ids ∧ x ≠ uid.
Proof.
  induction l as [|m l IH]; intros ids Hids.
  - injection Hids as <-. exists []. split; [done|].
    intros x. rewrite elem_of_nil. tauto.
  - csimpl in Hids. destruct (userId m) as [y|] eqn:Hm; [|done]. csimpl in Hids.
    destruct (mapM userId l) as [k|] eqn:Hk; [|done]. csimpl in Hids.
    injection Hids as <-.
    destruct (IH k eq_refl) as (ids' & Hf & Hin).
    simpl. rewrite Hm. case_bool_decide as Heq; simpl.
    + injection Heq as ->. exists ids'. split; [done|].
      intros x. rewrite Hin, elem_of_cons. split.
      * intros [? ?]. split; [by right|done].
      * by intros [[->|?] ?].
    + exists (y :: ids'). split; [csimpl; by rewrite Hm, Hf|].
      intros x. rewrite !elem_of_cons, Hin. split.
      * intros [->|[? ?]]; split; auto. congruence.
      * intros [[->|?] ?]; auto.
Qed.

Lemma apply_mutation_org_id e o : org_id (apply_mutation e o) = org_id o.
Proof.
  destruct e as [?|?|? ? ? ok|? ? ok| | | |?|? ?]; try done;
    destruct ok; simpl; try done; by case_bool_decide.
Qed.

(** Successful DELETE requests to an organization take their users out of
    its members. *)
Lemma org_after_deletes (users : list (string * string)) :
  ∀ o ids,
    mapM userId (members o) = Some ids →
    ∃ ids',
      mapM userId
        (members (org_after ((λ p : string * string,
                                DELETE_user (org_id o) p.2 true) <$> users) o))
      = Some ids'
      ∧ ∀ x, x ∈ ids' ↔ x ∈ ids ∧ x ∉ users.*2.
Proof.
  unfold org_after.
  induction users as [|p users IH]; intros o ids Hids; simpl.
  - exists ids. split; [done|]. intros x. rewrite elem_of_nil. tauto.
  - rewrite bool_decide_eq_true_2 by done.
    set (o' := {| org_name := org_name o; org_id := org_id o;
                  members := List.filter
                               (λ m, negb (bool_decide (userId m = Some p.2)))
                               (members o) |}).
    destruct (mapM_userId_filter p.2 (members o) ids Hids) as (ids1 & Hf & Hin1).
    change (org_id o) with (org_id o').
    destruct (IH o' ids1 Hf) as (ids' & Hm & Hin).
    exists ids'. split; [done|]. intros x.
    rewrite Hin, Hin1, not_elem_of_cons. tauto.
Qed.

(** X18. [remove] is idempotent: after a run of [remove] that is not a dry
    run and answers [True], in which every mutating request is a successful
    DELETE for a member of the organization, a second run of [remove] over
    the same file, against the service as the first run left it, sends no
    mutating request and answers [True], whatever its flags and the answer
    at its prompt. *)
Theorem remove_twice_mutates_nothing
    world user_limit name user_file skip1 t1 seg1
    api2 stdin2 dry_run2 skip2 t2 :
  manage_members user_limit world "remove" name user_file false skip1 t1
    = (Ret true, t1 ++ seg1) →
  (∀ e, e ∈ seg1 → is_mutation e = true →
     ∃ res user_id,
       resolve world user_limit name user_file = Some res
       ∧ e = DELETE_user (org_id (the_org res)) user_id true
       ∧ user_id ∈ the_members res)
  ∧ ∃ seg2,
      manage_members user_limit (world_after seg1 world api2 stdin2)
        "remove" name user_file dry_run2 skip2 t2 = (Ret true, t2 ++ seg2)
      ∧ mutations seg2 = [].
Proof.
  intros Hrun.
  destruct (successful_run_mutations _ _ _ _ _ _ _ _ Hrun) as (res & Hres & Hfound & Hm).
  set (todo := to_change "remove" (the_members res)
                 (found_users (the_lookup res) (the_usernames res))) in *.
  change (mutations seg1
          = (λ p : string * string, DELETE_user (org_id (the_org res)) p.2 true)
              <$> todo) in Hm.
  split.
  - intros e Hin Hmut.
    assert (e ∈ mutations seg1) as He by by apply elem_of_mutations.
    rewrite Hm in He. apply list_elem_of_fmap in He as (p & -> & Hp).
    apply elem_of_to_change in Hp as (_ & _ & Hrem).
    exists res, p.2. split; [done|]. split; [done|]. by apply Hrem.
  - (* the second run resolves as the first did, the members apart *)
    destruct (resolve_Some_inv _ _ _ _ _ Hres)
      as (ls & orgs & ids & Hfile & Horgs & Hfind & Hids & Husers & Hmem & Hun & Hl).
    destruct (org_after_deletes todo (the_org res) ids Hids) as (ids' & Hids' & Hin').
    assert (∃ res2,
      resolve (world_after seg1 world api2 stdin2) user_limit name user_file = Some res2
      ∧ the_usernames res2 = the_usernames res
      ∧ the_lookup res2 = the_lookup res
      ∧ the_members res2 = list_to_set ids') as (res2 & Hres2 & Hun2 & Hl2 & Hmem2).
    { unfold resolve, world_after. simpl. rewrite Hfile, Horgs. simpl.
      rewrite remote_after_org_after.
      rewrite find_fmap_invariant, Hfind by (intros x; by rewrite org_after_name).
      simpl. rewrite org_after_mutations, Hm, Hids', Husers. eexists. split; [reflexivity|]. simpl.
      by rewrite Hun, Hl. }
    assert (to_change "remove" (the_members res2)
              (found_users (the_lookup res) (the_usernames res)) = []) as Htodo2.
    { unfold to_change at 1. rewrite bool_decide_eq_false_2 by done.
      apply filter_nil_iff. intros p Hp. apply bool_decide_eq_false.
      rewrite Hmem2, elem_of_list_to_set, Hin'. intros [Hp1 Hp2]. apply Hp2.
      apply list_elem_of_fmap. exists p. split; [done|].
      apply elem_of_to_change. split; [done|]. split; [done|].
      intros _. by rewrite Hmem, elem_of_list_to_set. }
    destruct (manage_members user_limit (world_after seg1 world api2 stdin2)
                "remove" name user_file dry_run2 skip2 t2) as [r2 t2'] eqn:Hrun2.
    destruct (manage_members_shape _ _ _ _ _ _ _ _ _ _ Hrun2) as (seg2 & -> & Hshape2).
    exists seg2. rewrite <- (mutations_visible seg2).
    destruct Hshape2 as [Hnone|res' Hres' Hf|res' Hres' Hf Ht
                        |res' r' Hres' Ht Hs Hd Hstop|res' Hres' todo' ex prompt Ht Hp];
      try congruence;
      (assert (res' = res2) as -> by congruence);
      rewrite ?Hun2, ?Hl2 in *; try done.
    + by rewrite mutations_reported_r.
    + exfalso. apply Ht. unfold todo'. by rewrite Hun2, Hl2.
Qed.

(** *** The bulk user lookup *)

Lemma dom_filter_requested (m : gmap string string) usernames :
  dom (filter_requested m usernames) = list_to_set usernames.
Proof.
  induction usernames as [|un usernames IH] using rev_ind; [done|].
  rewrite filter_requested_snoc, dom_insert_L, IH, list_to_set_app_L. simpl.
  by rewrite (right_id_L ∅ (∪)), (comm_L (∪)).
Qed.

Lemma truthy_Some s : truthy (Some s) = true ↔ s ≠ "".
Proof.
  simpl. rewrite negb_true_iff. destruct (String.eqb_spec s ""); naive_solver.
Qed.

(** X19. The bulk lookup answers for every requested username and for no
    other, with one request: the dictionary it returns has the requested
    usernames as its keys; a username is given an ID only if a user record
    of the service carries that name with that, non-empty, ID; and it is
    given [None] only if no record carries that name with an ID. *)
Theorem get_users_batch_answers_each_requested_name
    world user_limit usernames users t :
  users_api world user_limit = Some users →
  ∃ result seg,
    get_users_batch user_limit world usernames t = (Ret result, t ++ seg)
    ∧ requests seg = [GET_users user_limit]
    ∧ dom result = list_to_set usernames
    ∧ (∀ username user_id,
         result !! username = Some (Some user_id) →
         user_id ≠ ""
         ∧ ∃ u, u ∈ users ∧ userName u = Some username ∧ id u = Some user_id)
    ∧ (∀ username u,
         result !! username = Some None → username ≠ "" →
         u ∈ users → userName u = Some username → truthy (id u) = false).
Proof.
  intros Husers.
  exists (filter_requested (build_users_map users) usernames). eexists. split.
  { unfold get_users_batch, log, try_except, get_json.
    rewrite bind_emit_run, Husers, bind_run, !bind_emit_run.
    unfold mret, M_ret. rewrite <- !app_assoc. reflexivity. }
  split; [done|]. split; [apply dom_filter_requested|].
  assert (Hkey : ∀ un x,
    filter_requested (build_users_map users) usernames !! un = Some x →
    un ∈ usernames ∧ x = build_users_map users !! un).
  { intros un x Hl.
    assert (un ∈ usernames) as Hin.
    { apply (elem_of_list_to_set (C := gset string)).
      rewrite <- (dom_filter_requested (build_users_map users)).
      apply elem_of_dom. by eexists. }
    rewrite filter_requested_lookup in Hl by done. by injection Hl as <-. }
  split.
  - intros un uid [Hin Hl]%Hkey. symmetry in Hl.
    destruct (build_users_map_Some _ _ _ Hl) as (u & Hu & Hname & Hid & Ht).
    split; [by apply truthy_Some|]. by exists u.
  - intros un u [Hin Hl]%Hkey Hun Hu Hname. symmetry in Hl.
    eapply build_users_map_None; try done. by apply truthy_Some.
Qed.

(** X20. When several user records carry the same username, the last one
    with a non-empty ID is the one the lookup keeps. *)
Theorem later_user_record_wins users1 u users2 username user_id :
  userName u = Some username →
  id u = Some user_id →
  username ≠ "" →
  user_id ≠ "" →
  (∀ u', u' ∈ users2 → userName u' = Some username → truthy (id u') = false) →
  build_users_map (users1 ++ u :: users2) !! username = Some user_id.
Proof.
  intros Hname Hid Hun%truthy_Some Huid%truthy_Some.
  induction users2 as [|u' users2 IH] using rev_ind; intros Hlater.
  - rewrite build_users_map_snoc, Hname, Hid, Hun, Huid. simpl.
    apply lookup_insert_eq.
  - rewrite app_comm_cons, app_assoc, build_users_map_snoc.
    assert (build_users_map (users1 ++ u :: users2) !! username = Some user_id) as Hl.
    { apply IH. intros x Hx. apply Hlater, elem_of_app. by left. }
    destruct (userName u') as [un'|] eqn:Hun'; [|done].
    destruct (id u') as [uid'|] eqn:Hid'; [|done].
    destruct (truthy (Some un') && truthy (Some uid')) eqn:Ht; [|done].
    destruct (decide (un' = username)) as [->|Hne].
    + apply andb_true_iff in Ht as [_ Ht].
      specialize (Hlater u'). rewrite Hid', Ht in Hlater.
      discriminate Hlater; [|done]. apply elem_of_app. right.
      by apply list_elem_of_singleton.
    + by rewrite lookup_insert_ne.
Qed.

(** *** The organization lookup and the exit status *)

(** X21. Among several organizations of the response with the requested
    name, the first is the one returned; the lookup costs one request. *)
Theorem first_exact_match_is_returned world name t orgs1 o orgs2 :
  organizations_api world name = Some (orgs1 ++ o :: orgs2) →
  org_name o = Some name →
  (∀ o', o' ∈ orgs1 → org_name o' ≠ Some name) →
  ∃ seg,
    get_organization_info world name t = (Ret (Some o), t ++ seg)
    ∧ requests seg = [GET_organizations name].
Proof.
  intros Horgs Hname Hbefore.
  assert (List.find (λ o, bool_decide (org_name o = Some name)) (orgs1 ++ o :: orgs2)
          = Some o) as Hfind.
  { clear Horgs. induction orgs1 as [|o1 orgs1 IH]; simpl.
    - by rewrite bool_decide_eq_true_2.
    - rewrite bool_decide_eq_false_2 by (apply Hbefore, elem_of_cons; by left).
      apply IH. intros o' Ho'. apply Hbefore, elem_of_cons. by right. }
  unfold get_organization_info, log, try_except, get_json.
  rewrite bind_emit_run, Horgs, bind_run.
  destruct (orgs1 ++ o :: orgs2) as [|o0 l] eqn:Hl; [by destruct orgs1|].
  rewrite Hfind, bind_emit_run. unfold mret, M_ret.
  eexists. split; [rewrite <- !app_assoc; reflexivity|done].
Qed.

(** X22. Once the arguments are parsed, no exception escapes [main]: every
    run of the script ends through [sys.exit], with status 0, 1 or 130. *)
Theorem exit_status_is_0_1_or_130 world environ_token a t :
  ∃ code,
    (main world environ_token a t).1 = Raise (SystemExit code)
    ∧ (code = 0 ∨ code = 1 ∨ code = 130).
Proof.
  destruct (truthy (if truthy (api_token a) then api_token a else environ_token))
    eqn:Htok.
  - destruct (manage_members_of world a t) as [r t'] eqn:Hrun.
    destruct (main_run _ _ _ _ _ _ Htok Hrun) as (tail & -> & _).
    eexists. split; [reflexivity|].
    destruct r as [[]|e]; auto.
  - exists 1. split; [|auto]. unfold main. cbv zeta. by rewrite Htok.
Qed.

(** *** Usernames that come more than once *)

Lemma occurrences_filter_found (P : string * string → bool) lookup username user_id
    usernames :
  resolved lookup username = Some user_id →
  P (username, user_id) = true →
  (length (List.filter (λ x, bool_decide (x = username)) usernames)
   ≤ length (List.filter (λ x, bool_decide (x = user_id))
               (List.filter P (found_users lookup usernames)).*2))%nat.
Proof.
  intros Hr HP. unfold found_users.
  induction usernames as [|x l IH]; [done|].
  csimpl. case_bool_decide as Hx.
  - subst x. rewrite Hr. csimpl. rewrite HP. csimpl.
    rewrite bool_decide_eq_true_2 by done. simpl. lia.
  - destruct (resolved lookup x) as [uid|]; csimpl; [|done].
    destruct (P (x, uid)); csimpl; [|done].
    case_bool_decide; simpl; lia.
Qed.

(** X23. The usernames of the file are not deduplicated: in a run that is
    not a dry run and reaches its summary, a username that has a user ID
    and needs the change gets a mutating request for each of its
    occurrences in the file. *)
Theorem repeated_username_is_processed_each_time
    world user_limit action name user_file skip t r seg processed successful failed
    res username user_id :
  manage_members user_limit world action name user_file false skip t = (r, t ++ seg) →
  Log INFO (Summary processed successful failed) ∈ seg →
  resolve world user_limit name user_file = Some res →
  resolved (the_lookup res) username = Some user_id →
  (action = "add" → user_id ∉ the_members res) →
  (action ≠ "add" → user_id ∈ the_members res) →
  (length (List.filter (λ x, bool_decide (x = username)) (the_usernames res))
   ≤ length (List.filter (λ x, bool_decide (x = user_id)) (omap mutated_user seg)))%nat.
Proof.
  intros Hshape%manage_members_shape_at Hin Hres Hr Hadd Hrem.
  assert (Log INFO (Summary processed successful failed) ∈ List.filter visible seg) as Hv
    by by apply elem_of_filter_visible.
  destruct (summary_logged _ _ _ _ _ _ _ _ _ _ _ _ _ Hshape Hv)
    as (res' & Hres' & _ & _ & _ & _ & Hm).
  assert (res' = res) as -> by congruence.
  rewrite mutations_visible in Hm.
  rewrite <- omap_mutated_user_mutations, Hm, omap_mutated_user_mutations,
    omap_mutated_user_exchanges.
  unfold to_change. case_bool_decide as Ha.
  - apply occurrences_filter_found; [done|]. unfold is_member. simpl.
    by rewrite bool_decide_eq_false_2 by by apply Hadd.
  - apply occurrences_filter_found; [done|]. unfold is_member. simpl.
    by rewrite bool_decide_eq_true_2 by by apply Hrem.
Qed.

(** *** The properties at concrete runs *)

Lemma missing_token_exits_before_any_request_witness :
  main Demo.agreed_world None DemoMore.no_token_args []
  = (Raise (SystemExit 1), [] ++ [Stderr_token_missing])
  ∧ exit_status (main Demo.agreed_world None DemoMore.no_token_args []).1 = 1.
Proof.
  apply (missing_token_exits_before_any_request Demo.agreed_world None
           DemoMore.no_token_args []).
  reflexivity.
Defined.

Lemma fatal_precondition_returns_false_witness :
  ∃ seg,
    manage_members_of DemoMore.users_down_world
      (Demo.org_args "add" "myorg" false false) [] = (Ret false, [] ++ seg)
    ∧ mutations seg = []
    ∧ (Input ∉ seg)
    ∧ exit_status (main DemoMore.users_down_world None
                     (Demo.org_args "add" "myorg" false false) []).1 = 1.
Proof.
  apply (fatal_precondition_returns_false DemoMore.users_down_world None
           (Demo.org_args "add" "myorg" false false) []).
  - reflexivity.
  - right. right. left. reflexivity.
Defined.

Lemma every_user_to_change_gets_one_request_witness :
  ∃ res,
    resolve Demo.flaky_world 10000 "myorg" "users.txt" = Some res
    ∧ omap mutated_user Demo.flaky_run.2
      = (to_change "add" (the_members res)
           (found_users (the_lookup res) (the_usernames res))).*2
    ∧ length (mutations Demo.flaky_run.2) = 2%nat.
Proof.
  apply (every_user_to_change_gets_one_request Demo.flaky_world 10000 "add" "myorg"
           "users.txt" false [] Demo.flaky_run.1 Demo.flaky_run.2 2 1 1).
  - vm_compute. reflexivity.
  - apply list_elem_of_In. vm_compute. tauto.
Defined.

Lemma interrupt_at_prompt_exits_130_witness :
  DemoMore.interrupted_run.1 = Raise KeyboardInterrupt
  ∧ mutations DemoMore.interrupted_run.2 = []
  ∧ exit_status (main DemoMore.interrupted_world None
                   (Demo.org_args "add" "myorg" false false) []).1 = 130.
Proof.
  apply (interrupt_at_prompt_exits_130 DemoMore.interrupted_world None
           (Demo.org_args "add" "myorg" false false) []
           DemoMore.interrupted_run.1 DemoMore.interrupted_run.2).
  - reflexivity.
  - vm_compute. reflexivity.
  - apply list_elem_of_In. vm_compute. tauto.
  - reflexivity.
Defined.

Lemma end_of_input_at_prompt_returns_false_witness :
  DemoMore.closed_stdin_run.1 = Ret false
  ∧ mutations DemoMore.closed_stdin_run.2 = []
  ∧ exit_status (main DemoMore.closed_stdin_world None
                   (Demo.org_args "add" "myorg" false false) []).1 = 1.
Proof.
  apply (end_of_input_at_prompt_returns_false DemoMore.closed_stdin_world None
           (Demo.org_args "add" "myorg" false false) []
           DemoMore.closed_stdin_run.1 DemoMore.closed_stdin_run.2).
  - reflexivity.
  - vm_compute. reflexivity.
  - apply list_elem_of_In. vm_compute. tauto.
  - reflexivity.
Defined.

Lemma no_prompt_when_skipped_or_dry_run_witness :
  Input ∉ DemoMore.skipped_run.2.
Proof.
  apply (no_prompt_when_skipped_or_dry_run Demo.flaky_world 10000 "add" "myorg"
           "users.txt" false true [] DemoMore.skipped_run.1 DemoMore.skipped_run.2).
  - vm_compute. reflexivity.
  - left. reflexivity.
Defined.

Lemma dry_run_counts_every_change_as_success_witness :
  1%nat = 1%nat ∧ 0%nat = 0%nat ∧ DemoMore.rehearsal_run.1 = Ret true.
Proof.
  apply (dry_run_counts_every_change_as_success Demo.flaky_world 10000 "remove"
           "myorg" "users.txt" false [] DemoMore.rehearsal_run.1
           DemoMore.rehearsal_run.2 1 1 0).
  - vm_compute. reflexivity.
  - apply list_elem_of_In. vm_compute. tauto.
Defined.

Lemma nothing_to_change_returns_true_witness :
  ∃ seg,
    manage_members_of DemoMore.settled_world
      (Demo.org_args "add" "myorg" false false) [] = (Ret true, [] ++ seg)
    ∧ mutations seg = []
    ∧ (Input ∉ seg)
    ∧ exit_status (main DemoMore.settled_world None
                     (Demo.org_args "add" "myorg" false false) []).1 = 0.
Proof.
  apply (nothing_to_change_returns_true DemoMore.settled_world None
           (Demo.org_args "add" "myorg" false false) []
           (DemoMore.resolution_of DemoMore.settled_world)).
  - reflexivity.
  - vm_compute. reflexivity.
  - vm_compute. discriminate.
  - vm_compute. reflexivity.
Defined.

Lemma no_valid_user_returns_false_witness :
  ∃ seg,
    manage_members_of DemoMore.strangers_world
      (Demo.org_args "add" "myorg" false false) [] = (Ret false, [] ++ seg)
    ∧ (∀ username,
         username ∈ the_usernames (DemoMore.resolution_of DemoMore.strangers_world) →
         Log WARNING (UserNotFound username) ∈ seg)
    ∧ mutations seg = []
    ∧ (Input ∉ seg)
    ∧ exit_status (main DemoMore.strangers_world None
                     (Demo.org_args "add" "myorg" false false) []).1 = 1.
Proof.
  apply (no_valid_user_returns_false DemoMore.strangers_world None
           (Demo.org_args "add" "myorg" false false) []
           (DemoMore.resolution_of DemoMore.strangers_world)).
  - reflexivity.
  - vm_compute. reflexivity.
  - intros username Hin. apply list_elem_of_In in Hin. vm_compute in Hin.
    destruct Hin as [<-|[<-|[<-|[<-|[]]]]]; vm_compute; reflexivity.
Defined.

Lemma remove_twice_mutates_nothing_witness :
  (∀ e, e ∈ DemoMore.removal_run.2 → is_mutation e = true →
     ∃ res user_id,
       resolve Demo.agreed_world 10000 "myorg" "users.txt" = Some res
       ∧ e = DELETE_user (org_id (the_org res)) user_id true
       ∧ user_id ∈ the_members res)
  ∧ ∃ seg2,
      manage_members 10000
        (world_after DemoMore.removal_run.2 Demo.agreed_world (λ _, false) Interrupt)
        "remove" "myorg" "users.txt" false false [] = (Ret true, [] ++ seg2)
      ∧ mutations seg2 = [].
Proof.
  apply (remove_twice_mutates_nothing Demo.agreed_world 10000 "myorg" "users.txt"
           false [] DemoMore.removal_run.2 (λ _, false) Interrupt false false []).
  vm_compute. reflexivity.
Defined.

Lemma get_users_batch_answers_each_requested_name_witness :
  ∃ result seg,
    get_users_batch 10000 Demo.agreed_world ["alice"; "mallory"] []
    = (Ret result, [] ++ seg)
    ∧ requests seg = [GET_users 10000]
    ∧ dom result = list_to_set ["alice"; "mallory"]
    ∧ (∀ username user_id,
         result !! username = Some (Some user_id) →
         user_id ≠ ""
         ∧ ∃ u, u ∈ DemoMore.users ∧ userName u = Some username
                ∧ id u = Some user_id)
    ∧ (∀ username u,
         result !! username = Some None → username ≠ "" →
         u ∈ DemoMore.users → userName u = Some username → truthy (id u) = false).
Proof.
  apply (get_users_batch_answers_each_requested_name Demo.agreed_world 10000
           ["alice"; "mallory"] DemoMore.users []).
  reflexivity.
Defined.

Lemma later_user_record_wins_witness :
  build_users_map
    ([ {| userName := Some "alice"; id := Some "u1" |} ]
     ++ {| userName := Some "alice"; id := Some "u9" |}
        :: [ {| userName := Some "bob"; id := Some "u2" |};
             {| userName := Some "alice"; id := Some "" |} ])
  !! "alice" = Some "u9".
Proof.
  apply (later_user_record_wins
           [ {| userName := Some "alice"; id := Some "u1" |} ]
           {| userName := Some "alice"; id := Some "u9" |}
           [ {| userName := Some "bob"; id := Some "u2" |};
             {| userName := Some "alice"; id := Some "" |} ]
           "alice" "u9").
  - reflexivity.
  - reflexivity.
  - discriminate.
  - discriminate.
  - intros u' Hin Hname. apply list_elem_of_In in Hin.
    destruct Hin as [<-|[<-|[]]]; [discriminate Hname | reflexivity].
Defined.

Lemma first_exact_match_is_returned_witness :
  ∃ seg,
    get_organization_info Demo.agreed_world "myorg" []
    = (Ret (Some {| org_name := Some "myorg"; org_id := "o1";
                    members := [ {| userId := Some "u1" |} ] |}), [] ++ seg)
    ∧ requests seg = [GET_organizations "myorg"].
Proof.
  apply (first_exact_match_is_returned Demo.agreed_world "myorg" []
           [ {| org_name := Some "myorg-dev"; org_id := "o2"; members := [] |} ]
           {| org_name := Some "myorg"; org_id := "o1";
              members := [ {| userId := Some "u1" |} ] |}
           []).
  - reflexivity.
  - reflexivity.
  - intros o' Hin. apply list_elem_of_singleton in Hin. subst o'. discriminate.
Defined.

Lemma repeated_username_is_processed_each_time_witness :
  (length (List.filter (λ x, bool_decide (x = "bob"))
             (the_usernames (DemoMore.resolution_of DemoMore.repeated_world)))
   ≤ length (List.filter (λ x, bool_decide (x = "u2"))
               (omap mutated_user DemoMore.repeated_run.2)))%nat.
Proof.
  apply (repeated_username_is_processed_each_time DemoMore.repeated_world 10000 "add"
           "myorg" "users.txt" true [] DemoMore.repeated_run.1 DemoMore.repeated_run.2
           3 3 0 (DemoMore.resolution_of DemoMore.repeated_world) "bob" "u2").
  - vm_compute. reflexivity.
  - apply list_elem_of_In. vm_compute. tauto.
  - vm_compute. reflexivity.
  - vm_compute. reflexivity.
  - intros _. apply (proj1 (bool_decide_eq_false _)). vm_compute. reflexivity.
  - intros Hne. by destruct Hne.
Defined.

End OrgMembersMore.
